(** * acq400_hapi: the host-side proxy of an ACQ400 appliance

    A shallow embedding of [acq400_hapi/acq400.py]: the binary channel
    client ([ChannelClient.read]), the status monitor
    ([Statusmonitor.st_monitor], [Statusmonitor.wait_event]) and the
    device proxy ([Acq400.__init__], [Acq400.chan2volts],
    [Acq400.read_channels]).  After these come the accessors of the
    status snapshot, [ProcessMonitor], the knob writers ([set_mb_clk],
    [configure_transient]), the loaders ([load_stl], [load_awg]),
    [read_muxed_data], [stream], [get_site_types], [Acq2106] and
    [Acq2106_TIGA], and [check_es] of the regression suite.

    Conventions.
    - A Python call either returns a value or raises: [result A].
    - A loop that may spin for ever ([while len(buffer) < ...]) is a
      [Fixpoint] on a fuel argument; [None] means the fuel ran out before
      the loop left, never that the call failed.
    - Byte strings are [list byte]; numpy integer arrays are [list Z]. *)

From Stdlib Require Import ZArith Lia List Bool String Ascii.
From Stdlib Require Import Strings.Byte.
From stdpp Require Import base list gmap strings pretty.

Local Open Scope Z_scope.

(** ** Python results *)

Inductive exn : Type :=
| KeyError
| ValueError
| IndexError
| TypeError
| RuntimeError
| AttributeError
| SocketError.

Inductive result (A : Type) : Type :=
| Ok (a : A)
| Raise (e : exn).
Arguments Ok {A} a.
Arguments Raise {A} e.

#[global] Instance result_ret : MRet result := fun A a => Ok a.
#[global] Instance result_bind : MBind result := fun A B k r =>
  match r with
  | Ok a => k a
  | Raise e => Raise e
  end.
#[global] Instance result_fmap : FMap result := fun A B f r =>
  match r with
  | Ok a => Ok (f a)
  | Raise e => Raise e
  end.

(** ** numpy: [np.dtype] and [np.frombuffer] on signed integers

    The host is taken little-endian, as the wire format is: ['i2'] and
    ['i4'] are numpy's native-order types. *)
Module Np.

Definition byte_val (b : byte) : Z := Z.of_N (Byte.to_N b).

Definition byte_of_Z (z : Z) : byte :=
  match Byte.of_N (Z.to_N (z mod 256)) with
  | Some b => b
  | None => x00
  end.

(** value of a little-endian unsigned byte string *)
Fixpoint le_unsigned (bs : list byte) : Z :=
  match bs with
  | [] => 0
  | b :: r => byte_val b + 256 * le_unsigned r
  end.

(** two's complement reading of [w] bytes *)
Definition le_signed (w : nat) (bs : list byte) : Z :=
  let u := le_unsigned bs in
  if u <? 2 ^ (8 * Z.of_nat w - 1) then u else u - 2 ^ (8 * Z.of_nat w).

(** the [w] bytes of a signed integer, least significant first *)
Fixpoint le_bytes (w : nat) (z : Z) : list byte :=
  match w with
  | O => []
  | S w' => byte_of_Z z :: le_bytes w' (z / 256)
  end.

(** [ndarray.tobytes()] of an integer array of item size [w] *)
Definition tobytes (w : nat) (xs : list Z) : list byte :=
  concat (map (le_bytes w) xs).

Definition in_range (w : nat) (z : Z) : Prop :=
  - 2 ^ (8 * Z.of_nat w - 1) <= z < 2 ^ (8 * Z.of_nat w - 1).

(** the first [n] items of item size [w] of a buffer *)
Fixpoint decode (n w : nat) (buf : list byte) : list Z :=
  match n with
  | O => []
  | S n' => le_signed w (take w buf) :: decode n' w (drop w buf)
  end.

(** [np.frombuffer(buf, dtype, count)], [itemsize] bytes per item.
    A negative count means all of the buffer, whose size must then be a
    multiple of the item size; otherwise the buffer must hold at least
    [count] items. *)
Definition frombuffer (buf : list byte) (itemsize : nat) (count : Z)
  : result (list Z) :=
  let s := Z.of_nat (length buf) in
  if count <? 0 then
    if negb (s mod Z.of_nat itemsize =? 0) then Raise ValueError
    else Ok (decode (Z.to_nat (s / Z.of_nat itemsize)) itemsize buf)
  else
    if s <? count * Z.of_nat itemsize then Raise ValueError
    else Ok (decode (Z.to_nat count) itemsize buf).

End Np.

(** ** The TCP connection seen by a binary client

    What the peer delivers is a list of chunks, one per segment that
    reaches the host; after the last one the peer has closed and every
    [recv] returns the empty byte string. *)
Module Sock.

Definition conn : Type := list (list byte).

(** [sock.recv(bufsize)]: at most [bufsize] bytes of the next chunk. *)
Definition recv (c : conn) (bufsize : Z) : result (list byte * conn) :=
  if bufsize <? 0 then Raise ValueError
  else
    match c with
    | [] => Ok ([], [])
    | ch :: rest =>
        if Z.of_nat (length ch) <=? bufsize then Ok (ch, rest)
        else Ok (take (Z.to_nat bufsize) ch, drop (Z.to_nat bufsize) ch :: rest)
    end.

(** every chunk carries at least one byte *)
Definition chunked (c : conn) : Prop := Forall (fun ch => ch <> []) c.

End Sock.

(** ** [ChannelClient]: post shot data of one channel *)
Module ChannelClient.

(** [_dtypes = { 1 : 'i1', 2: 'i2', 4: 'i4' }], as item sizes *)
Definition _dtypes (data_size : Z) : result nat :=
  if data_size =? 1 then Ok 1%nat
  else if data_size =? 2 then Ok 2%nat
  else if data_size =? 4 then Ok 4%nat
  else Raise KeyError.

(** the [while True] loop of the open-ended branch *)
Fixpoint read_to_end (fuel : nat) (c : Sock.conn) (maxbuf : Z)
    (total_buffer : list byte) (itemsize : nat) : option (result (list Z)) :=
  match fuel with
  | O => None
  | S fuel' =>
      match Sock.recv c maxbuf with
      | Raise e => Some (Raise e)
      | Ok (buffer, c') =>
          match buffer with
          | [] => Some (Np.frombuffer total_buffer itemsize (-1))
          | _ => read_to_end fuel' c' maxbuf (total_buffer ++ buffer) itemsize
          end
      end
  end.

(** [while len(buffer) < ndata*data_size: buffer += self.sock.recv(maxbuf)] *)
Fixpoint read_fill (fuel : nat) (c : Sock.conn) (maxbuf : Z)
    (buffer : list byte) (need : Z) : option (result (list byte)) :=
  if Z.of_nat (length buffer) <? need then
    match fuel with
    | O => None
    | S fuel' =>
        match Sock.recv c maxbuf with
        | Raise e => Some (Raise e)
        | Ok (new_buf, c') => read_fill fuel' c' maxbuf (buffer ++ new_buf) need
        end
    end
  else Some (Ok buffer).

(** [ChannelClient.read(ndata, data_size, maxbuf)] *)
Definition read (fuel : nat) (c : Sock.conn) (ndata data_size maxbuf : Z)
  : option (result (list Z)) :=
  match _dtypes data_size with
  | Raise e => Some (Raise e)
  | Ok itemsize =>
      match Sock.recv c maxbuf with
      | Raise e => Some (Raise e)
      | Ok (buffer, c') =>
          if (ndata =? 0) || (ndata =? -1) then
            read_to_end fuel c' maxbuf buffer itemsize
          else
            match read_fill fuel c' maxbuf buffer (ndata * data_size) with
            | None => None
            | Some (Raise e) => Some (Raise e)
            | Some (Ok buffer') => Some (Np.frombuffer buffer' itemsize ndata)
            end
      end
  end.

Definition default_maxbuf : Z := 0x400000.

End ChannelClient.

(** ** [Statusmonitor]: the status channel

    The monitor thread runs [st_monitor]; any other thread may sit in
    [wait_armed] or [wait_stopped].  A thread switch can fall between any
    two statements, so the model runs one statement per step. *)
Module Statusmonitor.

(** *** [st_re]: the status line *)

Definition is_digit (a : ascii) : bool :=
  (48 <=? nat_of_ascii a)%nat && (nat_of_ascii a <=? 57)%nat.

Definition digit_val (a : ascii) : Z := Z.of_nat (nat_of_ascii a) - 48.

(** [[0-9]*] at the head of [s], greedy: the digits and what follows *)
Fixpoint span_digits (s : string) : string * string :=
  match s with
  | String a r =>
      if is_digit a then
        let '(d, t) := span_digits r in (String a d, t)
      else (EmptyString, s)
  | EmptyString => (EmptyString, EmptyString)
  end.

(** [[0-9]+] followed by a blank; a shorter run of digits is followed by
    a digit, so backtracking finds nothing the greedy run does not *)
Definition digits_blank (s : string) : option (string * string) :=
  match span_digits s with
  | (String a d, String " " t) => Some (String a d, t)
  | _ => None
  end.

Fixpoint last_char (a : ascii) (s : string) : ascii :=
  match s with
  | EmptyString => a
  | String b r => last_char b r
  end.

(** the pattern [([0-9]) ([0-9]+) ([0-9]+) ([0-9]+) ([0-9])+] anchored at
    the head of [s]; the fifth group keeps its last repetition *)
Definition st_re_match (s : string) : option (list string) :=
  match s with
  | String g1 (String " " r1) =>
      if is_digit g1 then
        '(g2, r2) ← digits_blank r1;
        '(g3, r3) ← digits_blank r2;
        '(g4, r4) ← digits_blank r3;
        match span_digits r4 with
        | (String a d, _) =>
            Some [String g1 EmptyString; g2; g3; g4;
                  String (last_char a d) EmptyString]
        | _ => None
        end
      else None
  | _ => None
  end.

(** [st_re.search(st)]: the leftmost position where the pattern matches;
    the value is [match.groups()] *)
Fixpoint st_re_search (st : string) : option (list string) :=
  match st_re_match st with
  | Some groups => Some groups
  | None =>
      match st with
      | String _ r => st_re_search r
      | EmptyString => None
      end
  end.

(** [int(x)] on a group of the pattern, a string of ASCII digits *)
Definition int_digits (x : string) : Z :=
  fold_left (fun acc a => 10 * acc + digit_val a) (list_ascii_of_string x) 0.

(** *** the monitor object *)

(** [class SF]: the fields of a status list *)
Definition SF_STATE : nat := 0.
Definition SF_PRE : nat := 1.
Definition SF_POST : nat := 2.
Definition SF_ELAPSED : nat := 3.
Definition SF_DEMUX : nat := 5.

Definition RUNPRE : Z := 2.
Definition RUNPOST : Z := 3.
Definition POPROCESS : Z := 4.
Definition CLEANUP : Z := 5.

(** the two [threading.Event] objects *)
Inductive event : Type := Armed | Stopped.

#[global] Instance event_eq_dec : EqDecision event.
Proof. solve_decision. Defined.

Record t : Type := Build {
  quit_requested : bool;
  status : option (list Z);      (* [None] is Python's [None] *)
  stopped : bool;                (* flag of [self.stopped] *)
  armed : bool                   (* flag of [self.armed] *)
}.

Definition is_set (ev : event) (self : t) : bool :=
  match ev with Armed => armed self | Stopped => stopped self end.

Definition set_flag (ev : event) (b : bool) (self : t) : t :=
  match ev with
  | Armed => Build (quit_requested self) (status self) (stopped self) b
  | Stopped => Build (quit_requested self) (status self) b (armed self)
  end.

(** the statements of the loop body of [st_monitor] that act on shared
    state or end the thread *)
Inductive stmt : Type :=
| StoppedSet                   (* self.stopped.set() *)
| ArmedClear                   (* self.armed.clear() *)
| ArmedSet                     (* self.armed.set() *)
| StoppedClear                 (* self.stopped.clear() *)
| QuitRequest                  (* self.quit_requested = True *)
| Kill                         (* os.kill(self.main_pid, signal.SIGINT) *)
| SysExit                      (* sys.exit(1) *)
| Assign (status1 : list Z)    (* self.status = status1 *)
| RaiseIndexError.             (* a subscript out of range *)

(** The body of the [while] loop of [st_monitor] for the polled line
    [st]: the statements it runs, in order.  Which ones depends on
    [self.status] and on the line alone, and [self.status] is written by
    this thread only. *)
Definition st_monitor_body (self_status : option (list Z)) (st : string)
  : list stmt :=
  match st_re_search st with
  | Some statuss =>
      let status1 := int_digits <$> statuss in
      match self_status with
      | Some status0 =>
          match status0 !! SF_STATE, status1 !! SF_STATE with
          | Some s0, Some s1 =>
              (if negb (s0 =? 0) && (s1 =? 0)
               then [StoppedSet; ArmedClear] else [])
              ++ (if s1 =? 1
                  then [ArmedSet; StoppedClear] else [])
              ++ (if (s0 =? 0) && (1 <? s1)
                  then [QuitRequest; Kill; SysExit] else [Assign status1])
          | _, _ => [RaiseIndexError]
          end
      | None => [Assign status1]
      end
  | None => []
  end.

(** *** the threads *)

(** a caller of [wait_armed] / [wait_stopped], inside [wait_event] *)
Inductive wstate : Type :=
| W_idle                       (* not in a wait call *)
| W_wait (ev : event)          (* in [ev.wait(0.1)] *)
| W_timedout (ev : event)      (* [ev.wait] gave False, before the test of
                                  [self.quit_requested] *)
| W_woken (ev : event)         (* [ev.wait] gave True, before [ev.clear()] *)
| W_returned (ev : event)      (* the wait call has returned *)
| W_exited.                    (* [sys.exit(1)] in the waiting thread *)

Record sys : Type := Sys {
  mon : t;
  pend : list stmt;              (* what is left of the current loop body *)
  alive : bool;                  (* [st_thread] still runs *)
  sigints : nat;                 (* SIGINTs sent to the main process *)
  polls : nat;                   (* lines polled so far *)
  waiters : list wstate
}.

(** [Statusmonitor.__init__(_uut, _status)] with [n] client threads *)
Definition init (_status : option (list Z)) (n : nat) : sys :=
  Sys (Build false _status false false) [] true 0 0 (replicate n W_idle).

Definition exec (o : stmt) (rest : list stmt) (s : sys) : sys :=
  let m := mon s in
  match o with
  | StoppedSet => Sys (set_flag Stopped true m) rest true (sigints s) (polls s) (waiters s)
  | ArmedClear => Sys (set_flag Armed false m) rest true (sigints s) (polls s) (waiters s)
  | ArmedSet => Sys (set_flag Armed true m) rest true (sigints s) (polls s) (waiters s)
  | StoppedClear => Sys (set_flag Stopped false m) rest true (sigints s) (polls s) (waiters s)
  | QuitRequest =>
      Sys (Build true (status m) (stopped m) (armed m)) rest true
          (sigints s) (polls s) (waiters s)
  | Kill => Sys m rest true (S (sigints s)) (polls s) (waiters s)
  | SysExit => Sys m [] false (sigints s) (polls s) (waiters s)
  | Assign status1 =>
      Sys (Build (quit_requested m) (Some status1) (stopped m) (armed m)) rest true
          (sigints s) (polls s) (waiters s)
  | RaiseIndexError => Sys m [] false (sigints s) (polls s) (waiters s)
  end.

Inductive label : Type :=
| Poll (st : string)           (* monitor: loop test, then [poll()] gives [st] *)
| Leave                        (* monitor: loop test fails, [st_monitor] returns *)
| Exec                         (* monitor: the next statement of the body *)
| Call (i : nat) (ev : event)  (* thread [i] enters [wait_event(ev, _)] *)
| Tick (i : nat).              (* thread [i]: its next step in [wait_event] *)

Definition set_waiter (i : nat) (w : wstate) (s : sys) : sys :=
  Sys (mon s) (pend s) (alive s) (sigints s) (polls s) (<[i := w]> (waiters s)).

Definition step (s : sys) (l : label) : option sys :=
  match l with
  | Poll st =>
      match alive s, pend s, quit_requested (mon s) with
      | true, [], false =>
          Some (Sys (mon s) (st_monitor_body (status (mon s)) st) true
                    (sigints s) (S (polls s)) (waiters s))
      | _, _, _ => None
      end
  | Leave =>
      match alive s, pend s, quit_requested (mon s) with
      | true, [], true =>
          Some (Sys (mon s) [] false (sigints s) (polls s) (waiters s))
      | _, _, _ => None
      end
  | Exec =>
      match alive s, pend s with
      | true, o :: rest => Some (exec o rest s)
      | _, _ => None
      end
  | Call i ev =>
      match waiters s !! i with
      | Some W_idle | Some (W_returned _) => Some (set_waiter i (W_wait ev) s)
      | _ => None
      end
  | Tick i =>
      match waiters s !! i with
      | Some (W_wait ev) =>
          if is_set ev (mon s) then Some (set_waiter i (W_woken ev) s)
          else Some (set_waiter i (W_timedout ev) s)
      | Some (W_timedout ev) =>
          if quit_requested (mon s) then Some (set_waiter i W_exited s)
          else Some (set_waiter i (W_wait ev) s)
      | Some (W_woken ev) =>
          Some (Sys (set_flag ev false (mon s)) (pend s) (alive s) (sigints s)
                    (polls s) (<[i := W_returned ev]> (waiters s)))
      | _ => None
      end
  end.

Fixpoint run (s : sys) (ls : list label) : option sys :=
  match ls with
  | [] => Some s
  | l :: ls' =>
      match step s l with
      | Some s' => run s' ls'
      | None => None
      end
  end.

(** *** what a run shows of an event *)








End Statusmonitor.

(** ** Invariants of the monitor and its waiters *)
Module StatusmonitorInv.
Import Statusmonitor.

(** a set is directly followed by the clear of the other event *)
Fixpoint paired (l : list stmt) : bool :=
  match l with
  | [] => true
  | StoppedSet :: r => match r with ArmedClear :: _ => paired r | _ => false end
  | ArmedSet :: r => match r with StoppedClear :: _ => paired r | _ => false end
  | _ :: r => paired r
  end.

(** the fatal statements come as one block, and only last *)
Fixpoint guarded (l : list stmt) : bool :=
  match l with
  | [] => true
  | [QuitRequest; Kill; SysExit] => true
  | QuitRequest :: _ | Kill :: _ | SysExit :: _ => false
  | _ :: r => guarded r
  end.

Definition about_to_clear (l : list stmt) : bool :=
  match l with
  | ArmedClear :: _ | StoppedClear :: _ => true
  | _ => false
  end.

Definition exclusive (s : sys) : Prop :=
  paired (pend s) = true /\
  (armed (mon s) && stopped (mon s) = true -> about_to_clear (pend s) = true).

Definition sound (s : sys) : Prop :=
  (alive s = false -> pend s = []) /\
  ((quit_requested (mon s) = false /\ sigints s = 0%nat /\ guarded (pend s) = true)
   \/ (quit_requested (mon s) = true /\ sigints s = 0%nat /\ alive s = true
       /\ pend s = [Kill; SysExit])
   \/ (quit_requested (mon s) = true /\ sigints s = 1%nat /\ alive s = true
       /\ pend s = [SysExit])
   \/ (quit_requested (mon s) = true /\ sigints s = 1%nat /\ alive s = false
       /\ pend s = [])).








End StatusmonitorInv.

(** ** The Python string methods the proxy uses *)
Module Py.

(** [s.split(sep)] for a one character separator *)
Fixpoint split (sep : ascii) (s : string) : list string :=
  match s with
  | EmptyString => [EmptyString]
  | String a r =>
      if Ascii.eqb a sep then EmptyString :: split sep r
      else
        match split sep r with
        | h :: t => String a h :: t
        | [] => [String a EmptyString]
        end
  end.

(** [s] without the prefix [pat], when it has it *)
Fixpoint strip_prefix (pat s : string) : option string :=
  match pat, s with
  | EmptyString, _ => Some s
  | String a p, String b r => if Ascii.eqb a b then strip_prefix p r else None
  | String _ _, EmptyString => None
  end.

(** [s.split(pat, 1)[1]]: what follows the first [pat] in [s]; the
    subscript fails when [pat] does not occur *)
Fixpoint after_first (pat s : string) : result string :=
  match strip_prefix pat s with
  | Some r => Ok r
  | None =>
      match s with
      | String _ r => after_first pat r
      | EmptyString => Raise IndexError
      end
  end.

(** [l[i]] for a constant [i >= 0] *)
Definition item {A : Type} (l : list A) (i : nat) : result A :=
  match l !! i with
  | Some x => Ok x
  | None => Raise IndexError
  end.

(** [l[i]] for any integer [i]: a negative one counts from the end *)
Definition index {A : Type} (l : list A) (i : Z) : result A :=
  let n := Z.of_nat (length l) in
  if (0 <=? i) && (i <? n) then item l (Z.to_nat i)
  else if (- n <=? i) && (i <? 0) then item l (Z.to_nat (n + i))
  else Raise IndexError.

Definition is_space (a : ascii) : bool :=
  let c := nat_of_ascii a in
  ((9 <=? c) && (c <=? 13) || (28 <=? c) && (c <=? 32))%nat.

Fixpoint lstrip (s : string) : string :=
  match s with
  | String a r => if is_space a then lstrip r else s
  | EmptyString => EmptyString
  end.

(** the digits of [s] read in base ten on top of [acc]; [None] when [s]
    holds anything but digits and trailing blanks, or no digit *)
Fixpoint digits (seen : bool) (acc : Z) (s : string) : option Z :=
  match s with
  | EmptyString => if seen then Some acc else None
  | String a r =>
      if Statusmonitor.is_digit a
      then digits true (10 * acc + Statusmonitor.digit_val a) r
      else if seen && is_space a
           then match lstrip r with EmptyString => Some acc | _ => None end
           else None
  end.

(** [int(s)] on ASCII text: blanks around an optional sign and decimal
    digits (digit grouping with underscores is not read) *)
Definition int (s : string) : result Z :=
  let body := lstrip s in
  let signed :=
    match body with
    | String "-" r => option_map Z.opp (digits false 0 r)
    | String "+" r => digits false 0 r
    | _ => digits false 0 body
    end in
  match signed with
  | Some z => Ok z
  | None => Raise ValueError
  end.

End Py.

(** ** [Acq400]: the proxy of one unit under test *)
Module Acq400.

(** [class AcqPorts] *)
Definition TSTAT : Z := 2235.
Definition SITE0 : Z := 4220.
Definition DATA0 : Z := 53000.

(** Modelled from the spec: [netclient.Siteclient], the per site command
    service, is not part of the sources at hand.  It holds one connection
    and reads a named knob as a string; a name the site does not know is
    an error of its own (the attribute is missing). *)
Record Siteclient : Type := MkSite {
  sc_port : Z;
  sc_knobs : gmap string string
}.

Definition knob (sc : Siteclient) (name : string) : result string :=
  match sc_knobs sc !! name with
  | Some v => Ok v
  | None => Raise AttributeError
  end.

(** what a unit does when a client connects to a site service port *)
Inductive answer : Type :=
| Resolves (knobs : gmap string string)
| TimesOut                       (* nothing within the join timeout *)
| Refuses.                       (* the connect raises in its thread *)

(** one unit on the network: its site services by site number, and the
    byte stream each data port serves to a fresh connection *)
Record unit_env : Type := MkUnit {
  site_answer : Z -> answer;
  data_stream : Z -> Sock.conn
}.

Definition network : Type := string -> unit_env.

(** an element of [cal_eslo] / [cal_eoff]: the integer 0 put there by
    [__init__], or a token of a calibration knob *)
Inductive pyval : Type :=
| PyInt (z : Z)
| PyStr (s : string).

(** the attribute dictionary ([__dict__]) of an [Acq400] *)
Record attrs : Type := MkAttrs {
  uut : string;
  trace : Z;
  save_data : option string;
  svc : gmap string Siteclient;
  modules : gmap Z Siteclient;
  mod_count : Z;
  cal_eslo : list pyval;
  cal_eoff : list pyval;
  mb_clk_min : Z;
  awg_site : Z;
  sites : list Z;
  statmon : option Statusmonitor.t;
  cal_fetches : nat              (* ghost: runs of [fetch_all_calibration] *)
}.

(** a Python object of class [Acq400]: its identity and the location of
    its [__dict__] *)
Record obj : Type := MkObj {
  oid : nat;
  dict_of : nat
}.

(** the process: the class attribute [Acq400.uuts], the dictionaries
    allocated so far, and what has been done to the outside *)
Record world : Type := MkWorld {
  uuts : gmap string nat;
  heap : list attrs;
  next_oid : nat;
  connects : list (string * Z);  (* TCP connections opened, oldest first *)
  monitors : list string         (* units a status thread was started for *)
}.

Definition empty_world : world := MkWorld ∅ [] 0 [] [].

(** [init_site_client(site)], the body of one discovery thread, run as
    one step *)
Definition init_site_client (e : unit_env) (d : attrs) (site : Z) : attrs :=
  match site_answer e site with
  | Resolves k =>
      let sc := MkSite (SITE0 + site) k in
      let svc' := <[("s" +:+ pretty site) := sc]> (svc d) in
      let modules' := <[site := sc]> (modules d) in
      let registered awg count :=
        MkAttrs (uut d) (trace d) (save_data d) svc' modules' count
                (cal_eslo d) (cal_eoff d) (mb_clk_min d) awg (sites d)
                (statmon d) (cal_fetches d) in
      if awg_site d =? 0 then
        match knob sc "module_name" with
        | Ok name =>
            registered (if String.prefix "ao" name then site else awg_site d)
                       (mod_count d + 1)
        | Raise _ => registered (awg_site d) (mod_count d)
        end
      else registered (awg_site d) (mod_count d + 1)
  | TimesOut | Refuses => d
  end.

(** [Acq400.__init__(self, _uut, monitor)].  [order] is the order in which
    the discovery threads get to run [init_site_client]: the scheduler's
    choice. *)
Definition __init__ (net : network) (w : world) (_uut : string) (monitor : bool)
    (order : list Z) : result (obj * world) :=
  match uuts w !! _uut with
  | Some loc =>
      (* self.__dict__ = Acq400.uuts[_uut]; return *)
      Ok (MkObj (next_oid w) loc,
          MkWorld (uuts w) (heap w) (S (next_oid w)) (connects w) (monitors w))
  | None =>
      match site_answer (net _uut) 0 with
      | Resolves k0 =>
          let s0 := MkSite SITE0 k0 in
          sitelist ← knob s0 "SITELIST";
          let sl := tail (Py.split "," sitelist) in
          declared ← mapM (fun sm => Py.int (hd EmptyString (Py.split "=" sm))) sl;
          if bool_decide (NoDup sl) then
            let d0 := MkAttrs _uut 0 None {[ "s0" := s0 ]} ∅ 0
                              [PyInt 0] [PyInt 0] 4000000 0 [] None 0 in
            let d1 := foldl (init_site_client (net _uut)) d0 order in
            state ← knob s0 "state";
            _status ← mapM Py.int (Py.split " " state);
            let d2 := MkAttrs (uut d1) (trace d1) (save_data d1) (svc d1) (modules d1)
                              (mod_count d1) (cal_eslo d1) (cal_eoff d1)
                              (mb_clk_min d1) (awg_site d1) declared
                              (if monitor
                               then Some (Statusmonitor.Build false (Some _status)
                                                              false false)
                               else None)
                              (cal_fetches d1) in
            Ok (MkObj (next_oid w) (length (heap w)),
                MkWorld (<[_uut := length (heap w)]> (uuts w))
                        (heap w ++ [d2])
                        (S (next_oid w))
                        (connects w ++ (_uut, SITE0)
                           :: ((fun site => (_uut, SITE0 + site)) <$> declared)
                           ++ (if monitor then [(_uut, TSTAT)] else []))
                        (monitors w ++ (if monitor then [_uut] else [])))
          else Raise RuntimeError      (* a thread started twice *)
      | TimesOut | Refuses => Raise SocketError
      end
  end.

(** the sites of [declared] that answer *)
Definition resolves (e : unit_env) (site : Z) : bool :=
  match site_answer e site with
  | Resolves _ => true
  | _ => false
  end.

(** a request to open a unit: address, [monitor], thread order *)
Definition request : Type := string * bool * list Z.

(** one call [Acq400(addr, monitor)] after the other; a failed open
    leaves the process as it was *)
Definition open_all (net : network) (w : world) (reqs : list request) : world :=
  foldl (fun w '(addr, monitor, order) =>
           match __init__ net w addr monitor order with
           | Ok (_, w') => w'
           | Raise _ => w
           end) w reqs.

(** *** calibration *)

(** Python floats: [float(...)], [np.multiply], [np.add].  The arithmetic
    of the host is a parameter of the model. *)
Class FloatOps (F : Type) : Type := {
  float_of_str : string -> option F;     (* [None]: [float(s)] raises *)
  float_of_int : Z -> F;
  fmul : F -> F -> F;
  fadd : F -> F -> F
}.

Definition py_float {F : Type} `{!FloatOps F} (v : pyval) : result F :=
  match v with
  | PyInt z => Ok (float_of_int z)
  | PyStr s =>
      match float_of_str s with
      | Some f => Ok f
      | None => Raise ValueError
      end
  end.

(** [self.s0], found by [__getattr__] in [self.svc] *)
Definition s0 (d : attrs) : result Siteclient :=
  match svc d !! "s0" with
  | Some sc => Ok sc
  | None => Raise AttributeError
  end.

(** [self.s0.aggregator.split(' ')[1].split('=')[1].split(',')] *)
Definition get_aggregator_sites (d : attrs) : result (list string) :=
  sc ← s0 d;
  agg ← knob sc "aggregator";
  f1 ← Py.item (Py.split " " agg) 1;
  f2 ← Py.item (Py.split "=" f1) 1;
  Ok (Py.split "," f2).

(** [self.modules[int(c)]] *)
Definition module_of (mods : gmap Z Siteclient) (c : string) : result Siteclient :=
  site ← Py.int c;
  match mods !! site with
  | Some m => Ok m
  | None => Raise KeyError
  end.

(** [m.AI_CAL_ESLO.split(' ')[3:]] and its twin *)
Definition cal_tokens (m : Siteclient) (name : string) : result (list string) :=
  v ← knob m name;
  Ok (drop 3 (Py.split " " v)).

Definition with_cal (d : attrs) (eslo eoff : list pyval) (fetches : nat) : attrs :=
  MkAttrs (uut d) (trace d) (save_data d) (svc d) (modules d) (mod_count d)
          eslo eoff (mb_clk_min d) (awg_site d) (sites d) (statmon d) fetches.

(** the [for] loop of [fetch_all_calibration]; what was appended before
    an exception stays appended *)
Fixpoint fetch_loop (d : attrs) (cs : list string) : attrs * result unit :=
  match cs with
  | [] => (d, Ok tt)
  | c :: cs' =>
      match module_of (modules d) c with
      | Raise e => (d, Raise e)
      | Ok m =>
          match cal_tokens m "AI_CAL_ESLO" with
          | Raise e => (d, Raise e)
          | Ok eslo =>
              let d1 := with_cal d (cal_eslo d ++ (PyStr <$> eslo)) (cal_eoff d)
                                 (cal_fetches d) in
              match cal_tokens m "AI_CAL_EOFF" with
              | Raise e => (d1, Raise e)
              | Ok eoff =>
                  fetch_loop (with_cal d1 (cal_eslo d1) (cal_eoff d1 ++ (PyStr <$> eoff))
                                       (cal_fetches d1)) cs'
              end
          end
      end
  end.

Definition fetch_all_calibration (d : attrs) : attrs * result unit :=
  let d' := with_cal d (cal_eslo d) (cal_eoff d) (S (cal_fetches d)) in
  match get_aggregator_sites d' with
  | Raise e => (d', Raise e)
  | Ok cs => fetch_loop d' cs
  end.

(** [raw * eslo + eoff] for the entries of channel [chan] *)
Definition volts {F : Type} `{!FloatOps F} (d : attrs) (chan raw : Z) : result F :=
  eslo ← Py.index (cal_eslo d) chan ≫= py_float;
  eoff ← Py.index (cal_eoff d) chan ≫= py_float;
  Ok (fadd (fmul (float_of_int raw) eslo) eoff).

(** [chan2volts(chan, raw)] for one raw value *)
Definition chan2volts {F : Type} `{!FloatOps F} (d : attrs) (chan raw : Z)
  : attrs * result F :=
  if (length (cal_eslo d) =? 1)%nat then
    match fetch_all_calibration d with
    | (d1, Raise e) => (d1, Raise e)
    | (d1, Ok _) => (d1, volts d1 chan raw)
    end
  else (d, volts d chan raw).

(** a series of calls [chan2volts(chan, raw)], results dropped *)
Definition chan2volts_all {F : Type} `{!FloatOps F} (d : attrs) (calls : list (Z * Z))
  : attrs :=
  foldl (fun d '(chan, raw) => fst (chan2volts d chan raw)) d calls.

(** [int(m.NCHAN)] *)
Definition nchan_of (m : Siteclient) : result Z :=
  v ← knob m "NCHAN"; Py.int v.

Definition sumZ (ns : list Z) : Z := foldr Z.add 0 ns.

(** the aggregate channel count: [NCHAN] summed over the sites of the
    aggregator *)
Definition aggregate_nchan (d : attrs) : result Z :=
  cs ← get_aggregator_sites d;
  ns ← mapM (fun c => module_of (modules d) c ≫= nchan_of) cs;
  Ok (sumZ ns).

(** the unit keeps its side of the calibration knobs for aggregator site
    [c]: the module is there and each knob carries three words of header
    and one value per channel *)
Definition calibrated (mods : gmap Z Siteclient) (c : string) : Prop :=
  exists m n eslo eoff,
    module_of mods c = Ok m /\ nchan_of m = Ok n
    /\ cal_tokens m "AI_CAL_ESLO" = Ok eslo
    /\ cal_tokens m "AI_CAL_EOFF" = Ok eoff
    /\ Z.of_nat (length eslo) = n /\ Z.of_nat (length eoff) = n.

(** *** channel data *)

(** the first argument of [read_channels] *)
Inductive channels_arg : Type :=
| ChDefault                      (* [()]: every channel *)
| ChInt (c : Z)                  (* one channel number *)
| ChSeq (cs : list Z).           (* a list or tuple of channel numbers *)

(** [self.statmon.status[i]] *)
Definition status_field (d : attrs) (i : nat) : result Z :=
  match statmon d with
  | Some m =>
      match Statusmonitor.status m with
      | Some st => Py.item st i
      | None => Raise TypeError
      end
  | None => Raise AttributeError
  end.

Definition pre_samples (d : attrs) : result Z := status_field d Statusmonitor.SF_PRE.
Definition post_samples (d : attrs) : result Z := status_field d Statusmonitor.SF_POST.

(** [int(self.s0.NCHAN)] *)
Definition nchan (d : attrs) : result Z := sc ← s0 d; nchan_of sc.

(** [4 if self.s0.data32 == '1' else 2] *)
Definition data_size_of (d : attrs) : result Z :=
  sc ← s0 d;
  v ← knob sc "data32";
  Ok (if String.eqb v "1" then 4 else 2).

(** [int(self.s0.transient.split("DEMUX=",1)[1][0])] *)
Definition demux_state_of (d : attrs) : result Z :=
  sc ← s0 d;
  v ← knob sc "transient";
  r ← Py.after_first "DEMUX=" v;
  match r with
  | String c _ => Py.int (String c EmptyString)
  | EmptyString => Raise IndexError
  end.

(** the sample count [read_chan] asks the channel client for *)
Definition nsam_for (d : attrs) (chan nsam : Z) : result Z :=
  if negb (chan =? 0) && (nsam =? 0) then
    pre ← pre_samples d; post ← post_samples d; Ok (pre + post)
  else Ok nsam.

(** [read_chan(chan, nsam, data_size)] with [save_data] unset: a fresh
    [ChannelClient] on port [DATA0 + chan] and one [read].  The value is
    the ports connected to and the outcome. *)
Definition read_chan (fuel : nat) (net : network) (d : attrs)
    (chan nsam : Z) (data_size : option Z) : list Z * option (result (list Z)) :=
  match nsam_for d chan nsam with
  | Raise e => ([], Some (Raise e))
  | Ok count =>
      match (match data_size with Some ds => Ok ds | None => data_size_of d end) with
      | Raise e => ([], Some (Raise e))
      | Ok ds =>
          ([DATA0 + chan],
           ChannelClient.read fuel (data_stream (net (uut d)) (DATA0 + chan))
                              count ds ChannelClient.default_maxbuf)
      end
  end.

(** the [for ch in channels] loop of the demultiplexed branch *)
Fixpoint read_each (fuel : nat) (net : network) (d : attrs) (chs : list Z)
    (nsam data_size : Z) : list Z * option (result (list (list Z))) :=
  match chs with
  | [] => ([], Some (Ok []))
  | ch :: chs' =>
      match read_chan fuel net d ch nsam (Some data_size) with
      | (ports, None) => (ports, None)
      | (ports, Some (Raise e)) => (ports, Some (Raise e))
      | (ports, Some (Ok ccraw)) =>
          match read_each fuel net d chs' nsam data_size with
          | (ports', None) => (ports ++ ports', None)
          | (ports', Some (Raise e)) => (ports ++ ports', Some (Raise e))
          | (ports', Some (Ok chx)) => (ports ++ ports', Some (Ok (ccraw :: chx)))
          end
      end
  end.

(** column [j] of [data] seen as [rows] rows of [ncol] items *)
Definition column (data : list Z) (rows ncol j : nat) : list Z :=
  (fun r => nth (r * ncol + j) data 0) <$> seq 0 rows.

(** one entry of the index array [np.array(channels) - 1] on an axis of
    [ncol] items *)
Definition axis_index (ncol c : Z) : result nat :=
  let i := c - 1 in
  if (0 <=? i) && (i <? ncol) then Ok (Z.to_nat i)
  else if (- ncol <=? i) && (i <? 0) then Ok (Z.to_nat (ncol + i))
  else Raise IndexError.

(** [data.reshape((-1, ncol))[:, np.array(channels)-1].transpose()], row
    by row *)
Definition demux (data : list Z) (ncol : Z) (chs : list Z) : result (list (list Z)) :=
  if ncol <=? 0 then Raise ValueError
  else if negb (Z.of_nat (length data) mod ncol =? 0) then Raise ValueError
  else
    match chs with
    | [] => Raise IndexError
    | _ =>
        js ← mapM (axis_index ncol) chs;
        Ok ((fun j => column data (length data / Z.to_nat ncol) (Z.to_nat ncol) j) <$> js)
    end.

(** [read_channels(channels, nsam)] *)
Definition read_channels (fuel : nat) (net : network) (d : attrs)
    (channels : channels_arg) (nsam : Z) : list Z * option (result (list (list Z))) :=
  match (match channels with
         | ChDefault => n ← nchan d; Ok (Z.of_nat <$> seq 1 (Z.to_nat n))
         | ChInt c => Ok [c]
         | ChSeq cs => Ok cs
         end) with
  | Raise e => ([], Some (Raise e))
  | Ok chs =>
      match data_size_of d with
      | Raise e => ([], Some (Raise e))
      | Ok data_size =>
          match demux_state_of d with
          | Raise e => ([], Some (Raise e))
          | Ok demux_state =>
              if negb (demux_state =? 0) then
                read_each fuel net d chs nsam data_size
              else
                match read_chan fuel net d 0 nsam (Some data_size) with
                | (ports, None) => (ports, None)
                | (ports, Some (Raise e)) => (ports, Some (Raise e))
                | (ports, Some (Ok data)) =>
                    (ports, Some (ncol ← nchan d; demux data ncol chs))
                end
          end
      end
  end.

End Acq400.

(** ** Units to try the proxy on *)
Module Bench.
Import Acq400.

(** the knobs of site 0 of a chassis with modules declared in slots 1
    and 2 *)
Definition s0_knobs : gmap string string :=
  list_to_map [("SITELIST", "216,1=480,2=480"); ("state", "0 0 0 0 0");
               ("NCHAN", "2"); ("data32", "0");
               ("transient", "PRE=0 POST=100 OSAM=1 SOFT_TRIGGER=1 DEMUX=1");
               ("aggregator", "reg=0x00001001 sites=1 threshold=16")]%string.

Definition s1_knobs : gmap string string :=
  list_to_map [("module_name", "acq480fmc"); ("NCHAN", "2");
               ("AI_CAL_ESLO", "AI.CAL ESLO : 2 3");
               ("AI_CAL_EOFF", "AI.CAL EOFF : 5 7")]%string.

(** slot 1 answers, slot 2 does not *)
Definition one_out : network := fun _ =>
  MkUnit (fun site =>
            if site =? 0 then Resolves s0_knobs
            else if site =? 1 then Resolves s1_knobs
            else TimesOut)
         (fun _ => []).

(** the proxy of that unit once opened, with a shot of 100 samples
    behind it *)
Definition proxy : attrs :=
  MkAttrs "acq2106_001" 0 None
          (<["s1" := MkSite (SITE0 + 1) s1_knobs]> {[ "s0" := MkSite SITE0 s0_knobs ]})
          {[ 1 := MkSite (SITE0 + 1) s1_knobs ]} 1
          [PyInt 0] [PyInt 0] 4000000 0 [1; 2]
          (Some (Statusmonitor.Build false (Some [0; 0; 100; 100; 1]) false false)) 0.

(** integers standing in for floats *)
#[global] Instance toy_float : FloatOps Z := {
  float_of_str s := match Py.int s with Ok z => Some z | Raise _ => None end;
  float_of_int z := z;
  fmul := Z.mul;
  fadd := Z.add
}.

(** the same proxy on a unit set to leave the channels interleaved *)
Definition proxy_mux : attrs :=
  MkAttrs "acq2106_001" 0 None
          {[ "s0" := MkSite SITE0 (<["transient" := "PRE=0 POST=3 DEMUX=0"]> s0_knobs) ]}
          ∅ 0 [PyInt 0] [PyInt 0] 4000000 0 [1; 2]
          (Some (Statusmonitor.Build false (Some [0; 0; 3; 3; 0]) false false)) 0.

(** the unit serving 100 samples of 0x0101 on channel 1 and of 0x0201 on
    channel 2, in segments of 128 and 72 bytes, and on the combined port
    the six items 1 .. 6 in segments of 5 and 7 bytes *)
Definition shot : network := fun _ =>
  MkUnit (fun site =>
            if site =? 0 then Resolves s0_knobs
            else if site =? 1 then Resolves s1_knobs
            else TimesOut)
         (fun port =>
            if port =? DATA0 + 1
            then [replicate 128 x01; replicate 72 x01]
            else if port =? DATA0 + 2
            then [concat (replicate 64 [x01; x02]); concat (replicate 36 [x01; x02])]
            else if port =? DATA0
            then [[x01; x00; x02; x00; x03];
                  [x00; x04; x00; x05; x00; x06; x00]]
            else []).

(** no slot answers but site 0 *)
Definition all_out : network := fun _ =>
  MkUnit (fun site => if site =? 0 then Resolves s0_knobs else TimesOut)
         (fun _ => []).

End Bench.

(** ** The status snapshot seen from the proxy *)
Module Snapshot.
Import Acq400.

(** [Acq400.state], [elapsed_samples], [demux_status], [samples] *)
Definition state (d : attrs) : result Z := status_field d Statusmonitor.SF_STATE.
Definition elapsed_samples (d : attrs) : result Z :=
  status_field d Statusmonitor.SF_ELAPSED.
Definition demux_status (d : attrs) : result Z :=
  status_field d Statusmonitor.SF_DEMUX.
Definition samples (d : attrs) : result Z :=
  pre ← pre_samples d; post ← post_samples d; Ok (pre + post).

(** [Statusmonitor.get_state] *)
Definition get_state (self : Statusmonitor.t) : result Z :=
  match Statusmonitor.status self with
  | Some st => Py.item st Statusmonitor.SF_STATE
  | None => Raise TypeError
  end.

(** the proxy [d] with [self.statmon] in the state [m] *)
Definition with_statmon (d : attrs) (m : Statusmonitor.t) : attrs :=
  MkAttrs (uut d) (trace d) (save_data d) (svc d) (modules d) (mod_count d)
          (cal_eslo d) (cal_eoff d) (mb_clk_min d) (awg_site d) (sites d)
          (Some m) (cal_fetches d).

(** what [st_monitor] makes of a matching line: five numbers, none
    negative, the first a single digit *)
Definition parsed (l : list Z) : Prop :=
  length l = 5%nat /\ Forall (fun v => 0 <= v) l
  /\ exists v, l !! Statusmonitor.SF_STATE = Some v /\ v <= 9.

(** no statement of the queue is the failing subscript *)
Definition subscripts_ok (l : list Statusmonitor.stmt) : Prop :=
  Forall (fun o => o <> Statusmonitor.RaiseIndexError) l.

(** [pend] holds snapshots of the parsed shape only *)
Definition assigns_parsed (l : list Statusmonitor.stmt) : Prop :=
  Forall (fun o => forall status1, o = Statusmonitor.Assign status1 -> parsed status1) l.

(** a string of ASCII digits *)
Definition all_digits (s : string) : Prop :=
  Forall (fun a => Statusmonitor.is_digit a = true) (list_ascii_of_string s).

(** the shape of the monitor between two statements: the snapshot is the
    one it was started with or a parsed one *)
Definition shaped (st0 : option (list Z)) (s : Statusmonitor.sys) : Prop :=
  (Statusmonitor.status (Statusmonitor.mon s) = st0
   \/ exists l, Statusmonitor.status (Statusmonitor.mon s) = Some l /\ parsed l)
  /\ assigns_parsed (Statusmonitor.pend s).

(** a snapshot with a state field leaves no room for a failing
    subscript *)
Definition indexed (s : Statusmonitor.sys) : Prop :=
  (forall l, Statusmonitor.status (Statusmonitor.mon s) = Some l -> l <> [])
  /\ subscripts_ok (Statusmonitor.pend s).

End Snapshot.

(** ** [ProcessMonitor]: the log of a process on the unit *)
Module ProcessMonitor.

(** [st_re = re.compile(r"^END")]: [search] succeeds on a line that
    starts with END *)
Definition st_re_search (st : string) : bool := String.prefix "END" st.

(** [st_monitor] on the lines [logclient.poll()] hands out, in order.
    The value is the lines passed to [output_filter], [quit_requested]
    at the end of the feed, and the lines never polled. *)
Fixpoint st_monitor (feed : list string) : list string * bool * list string :=
  match feed with
  | [] => ([], false, [])
  | st :: rest =>
      if st_re_search st then ([st], true, rest)
      else let '(seen, quit, unpolled) := st_monitor rest in (st :: seen, quit, unpolled)
  end.

End ProcessMonitor.

(** ** Writing knobs

    [self.s1.TRG = 1] finds the service through [Acq400.__getattr__] and
    sets the knob on it; what reaches the unit is the service, the knob
    and the value. *)
Module Knobs.
Import Acq400.

Record write : Type := MkWrite {
  w_svc : string;
  w_knob : string;
  w_val : pyval
}.

(** a run of assignments [self.<svc>.<knob> = <val>], up to the first
    service the proxy does not have *)
Fixpoint assign (d : attrs) (ws : list write) : list write * result unit :=
  match ws with
  | [] => ([], Ok tt)
  | w :: rest =>
      match svc d !! w_svc w with
      | None => ([], Raise AttributeError)
      | Some _ => let '(written, r) := assign d rest in (w :: written, r)
      end
  end.

(** [range(a, b)] *)
Definition range (a b : Z) : list Z :=
  (fun i => a + Z.of_nat i) <$> seq 0 (Z.to_nat (b - a)).

(** the [if src == ...] head of [set_mb_clk] *)
Definition clk_source (src : string) (fin : Z) : list write :=
  if String.eqb src "zclk" then
    [MkWrite "s0" "SIG_ZCLK_SRC" (PyStr "INT33M");
     MkWrite "s0" "SYS_CLK_FPMUX" (PyStr "ZCLK");
     MkWrite "s0" "SIG_CLK_MB_FIN" (PyInt 33333000)]
  else if String.eqb src "xclk" then
    [MkWrite "s0" "SYS_CLK_FPMUX" (PyStr "XCLK");
     MkWrite "s0" "SIG_CLK_MB_FIN" (PyInt 32768000)]
  else
    [MkWrite "s0" "SYS_CLK_FPMUX" (PyStr "FPCLK");
     MkWrite "s0" "SIG_CLK_MB_FIN" (PyInt fin)].

(** [for clkdiv in range(1,2000): if hz*clkdiv >= self.mb_clk_min: ...] *)
Fixpoint first_clkdiv (hz clk_min : Z) (cands : list Z) : option Z :=
  match cands with
  | [] => None
  | clkdiv :: rest =>
      if clk_min <=? hz * clkdiv then Some clkdiv
      else first_clkdiv hz clk_min rest
  end.

(** [Acq400.set_mb_clk(hz, src, fin)] for an integer [hz] *)
Definition set_mb_clk (d : attrs) (hz : Z) (src : string) (fin : Z)
  : list write * result unit :=
  match assign d (clk_source src fin) with
  | (written, Raise e) => (written, Raise e)
  | (written, Ok _) =>
      if mb_clk_min d <=? hz then
        let '(more, r) :=
          assign d [MkWrite "s0" "SIG_CLK_MB_SET" (PyInt hz);
                    MkWrite "s1" "CLKDIV" (PyStr "1")] in
        (written ++ more, r)
      else
        match first_clkdiv hz (mb_clk_min d) (range 1 2000) with
        | Some clkdiv =>
            let '(more, r) :=
              assign d [MkWrite "s0" "SIG_CLK_MB_SET" (PyInt (hz * clkdiv));
                        MkWrite "s1" "CLKDIV" (PyInt clkdiv)] in
            (written ++ more, r)
        | None => (written, Raise ValueError)
        end
  end.

(** [configure_transient(pre, post, sig_DX, auto_soft_trigger, demux,
    edge)] with integer counts.  The text written to [s0.transient] is
    the last write. *)
Definition transient_text (pre post auto_soft_trigger demux : Z) : string :=
  "PRE=" +:+ pretty pre +:+ " POST=" +:+ pretty post
  +:+ " SOFT_TRIGGER=" +:+ pretty auto_soft_trigger
  +:+ " DEMUX=" +:+ pretty demux.

Definition configure_transient (d : attrs) (pre post : Z) (sig_DX : string)
    (auto_soft_trigger demux : Z) (edge : string) : list write * result unit :=
  match s0 d ≫= (fun sc => knob sc "sync_role") with
  | Raise e => ([], Raise e)
  | Ok sync_role =>
      let sig_DX :=
        if String.eqb sync_role "role not set" && String.eqb sync_role "slave"
        then "d0"%string else sig_DX in
      match Py.item (list_ascii_of_string sig_DX) 1 with
      | Raise e => ([], Raise e)
      | Ok line =>
          let sigdef :=
            ("1," +:+ String line EmptyString +:+ ","
             +:+ (if String.eqb edge "rising" then "1" else "0"))%string in
          assign d
            ((if 0 <? pre
              then [MkWrite "s1" "event0" (PyStr sigdef);
                    MkWrite "s1" "trg" (PyStr "1,1,1")]
              else [MkWrite "s1" "event0" (PyStr "0,0,0");
                    MkWrite "s1" "trg" (PyStr sigdef)])
             ++ [MkWrite "s0" "transient"
                         (PyStr (transient_text pre post auto_soft_trigger demux))])
      end
  end.

(** the proxy [d] once site 0 reports [value] for the knob [name] *)
Definition with_s0_knob (d : attrs) (name value : string) : attrs :=
  match svc d !! "s0" with
  | Some sc =>
      MkAttrs (uut d) (trace d) (save_data d)
              (<["s0" := MkSite (sc_port sc) (<[name := value]> (sc_knobs sc))]>
                 (svc d))
              (modules d) (mod_count d) (cal_eslo d) (cal_eoff d) (mb_clk_min d)
              (awg_site d) (sites d) (statmon d) (cal_fetches d)
  | None => d
  end.

End Knobs.

(** ** Loading a pulse generator: [load_stl] and its callers *)
Module Stl.
Import Acq400.

Definition GPGSTL : Z := 4541.
Definition DPGSTL : Z := 4521.
Definition WRPG : Z := 4606.

(** [rx.startswith(pat)] on byte strings *)
Fixpoint starts_with (pat rx : list byte) : bool :=
  match pat, rx with
  | [], _ => true
  | p :: pat', b :: rx' => Byte.eqb p b && starts_with pat' rx'
  | _ :: _, [] => false
  end.

(** [rx.find(pat) != -1] *)
Fixpoint occurs (pat rx : list byte) : bool :=
  starts_with pat rx ||
  match rx with
  | [] => false
  | _ :: rx' => occurs pat rx'
  end.

(** the bytes of "EOF" *)
Definition EOF : list byte := [x45; x4f; x46].

(** the [for ll in lines] loop: what is sent, and what is left of the
    replies.  With [wait_eol] each line sent is followed by one
    [recv(4096)]. *)
Fixpoint send_lines (wait_eol : bool) (c : Sock.conn) (lines : list string)
  : list string * Sock.conn :=
  match lines with
  | [] => ([], c)
  | ll :: rest =>
      if (String.length ll <? 2)%nat then send_lines wait_eol c rest
      else if String.prefix "#" ll then send_lines wait_eol c rest
      else
        let c' :=
          if wait_eol then
            match Sock.recv c 4096 with
            | Ok (_, c') => c'
            | Raise _ => c
            end
          else c in
        let '(sent, c'') := send_lines wait_eol c' rest in
        ((ll +:+ String "010" EmptyString) :: sent, c'')
  end.

(** [while wait_eof: rx = nc.sock.recv(4096); if str(rx).find("EOF") != -1:
    break] *)
Fixpoint await_eof (fuel : nat) (c : Sock.conn) : option unit :=
  match fuel with
  | O => None
  | S fuel' =>
      match Sock.recv c 4096 with
      | Ok (rx, c') => if occurs EOF rx then Some tt else await_eof fuel' c'
      | Raise _ => Some tt
      end
  end.

(** [load_stl(stl, port, trace, wait_eof, wait_eol)]: the port connected
    to, the lines sent, and whether the call returns *)
Definition load_stl (fuel : nat) (net : network) (d : attrs) (stl : string)
    (port : Z) (wait_eof wait_eol : bool) : Z * list string * option unit :=
  let '(sent, c) :=
    send_lines wait_eol (data_stream (net (uut d)) port)
               (Py.split "010" stl) in
  (port, sent ++ ["EOF" +:+ String "010" EmptyString],
   if wait_eof then await_eof fuel c else Some tt).

Definition load_gpg (fuel : nat) (net : network) (d : attrs) (stl : string) :=
  load_stl fuel net d stl GPGSTL true true.

Definition load_dpg (fuel : nat) (net : network) (d : attrs) (stl : string) :=
  load_stl fuel net d stl DPGSTL true false.

Definition load_wrpg (fuel : nat) (net : network) (d : attrs) (stl : string) :=
  load_stl fuel net d stl WRPG true true.

(** a line [load_stl] passes on *)
Definition kept (ll : string) : bool :=
  negb (String.length ll <? 2)%nat && negb (String.prefix "#" ll).

End Stl.

(** ** Loading the waveform generator: [load_awg] *)
Module Awg.
Import Acq400.

Definition AWG_ONCE : Z := 54201.
Definition AWG_AUTOREARM : Z := 54202.
Definition AWG_CONTINUOUS : Z := 54205.

(** the bytes of "DONE" *)
Definition DONE : list byte := [x44; x4f; x4e; x45].

Inductive outcome : Type :=
| AwgBusyError                   (* [raise self.AwgBusyError("awg busy")] *)
| Failed (e : exn)               (* any other exception *)
| Loaded (port : Z) (sent : list (list byte)).

(** [while repeats: nc.sock.send(data); repeats -= 1] *)
Fixpoint send_repeats (fuel : nat) (data : list byte) (repeats : Z)
  : option (list (list byte)) :=
  if repeats =? 0 then Some []
  else
    match fuel with
    | O => None
    | S fuel' => cons data <$> send_repeats fuel' data (repeats - 1)
    end.

(** [while True: rx = nc.sock.recv(128); if not rx or
    rx.startswith(b"DONE"): break] *)
Fixpoint await_done (fuel : nat) (c : Sock.conn) : option unit :=
  match fuel with
  | O => None
  | S fuel' =>
      match Sock.recv c 128 with
      | Ok (rx, c') =>
          if bool_decide (rx = []) || Stl.starts_with DONE rx then Some tt
          else await_done fuel' c'
      | Raise _ => Some tt
      end
  end.

(** the test at the head of [load_awg] *)
Definition busy (d : attrs) : result bool :=
  if 0 <? awg_site d then
    match modules d !! awg_site d with
    | None => Raise KeyError
    | Some m => v ← knob m "task_active"; Ok (String.eqb v "1")
    end
  else Ok false.

Definition awg_port (autorearm continuous : bool) : Z :=
  if continuous then AWG_CONTINUOUS
  else if autorearm then AWG_AUTOREARM else AWG_ONCE.

(** [load_awg(data, autorearm, continuous, repeats)] *)
Definition load_awg (fuel : nat) (net : network) (d : attrs) (data : list byte)
    (autorearm continuous : bool) (repeats : Z) : option outcome :=
  match busy d with
  | Raise e => Some (Failed e)
  | Ok true => Some AwgBusyError
  | Ok false =>
      let port := awg_port autorearm continuous in
      match send_repeats fuel data repeats with
      | None => None
      | Some sent =>
          match await_done fuel (data_stream (net (uut d)) port) with
          | None => None
          | Some _ => Some (Loaded port sent)
          end
      end
  end.

End Awg.

(** ** Reading the combined port and the live stream *)
Module Muxed.
Import Acq400.

Definition STREAM : Z := 4210.

(** [read_muxed_data()]: [self.read_channels((0), -1)], then [data[0]];
    [(0)] is the integer 0 *)
Definition read_muxed_data (fuel : nat) (net : network) (d : attrs)
  : list Z * option (result (list Z)) :=
  match read_channels fuel net d (ChInt 0) (-1) with
  | (ports, None) => (ports, None)
  | (ports, Some (Raise e)) => (ports, Some (Raise e))
  | (ports, Some (Ok data)) => (ports, Some (Py.item data 0))
  end.

(** the chunks [stream(recvlen)] yields until it stops, from the
    connection [c] to port [STREAM] *)
Fixpoint stream_from (fuel : nat) (c : Sock.conn) (recvlen : Z)
  : option (result (list (list byte))) :=
  match fuel with
  | O => None
  | S fuel' =>
      match Sock.recv c recvlen with
      | Raise e => Some (Raise e)
      | Ok ([], _) => Some (Ok [])
      | Ok (chunk, c') =>
          match stream_from fuel' c' recvlen with
          | None => None
          | Some (Raise e) => Some (Raise e)
          | Some (Ok chunks) => Some (Ok (chunk :: chunks))
          end
      end
  end.

Definition stream (fuel : nat) (net : network) (d : attrs) (recvlen : Z) :=
  stream_from fuel (data_stream (net (uut d)) STREAM) recvlen.

End Muxed.

(** ** The kinds of module in a chassis *)
Module Sites.
Import Acq400.

Record site_types : Type := MkTypes {
  AISITES : list Z;
  AOSITES : list Z;
  DIOSITES : list Z
}.

(** [self.s<site>.module_name] *)
Definition site_module_name (d : attrs) (site : Z) : result string :=
  match svc d !! ("s" +:+ pretty site) with
  | Some sc => knob sc "module_name"
  | None => Raise AttributeError
  end.

(** the body of the loop of [get_site_types]; an exception skips the
    site *)
Definition classify (d : attrs) (acc : site_types) (site : Z) : site_types :=
  match site_module_name d site with
  | Ok module_name =>
      if String.prefix "acq" module_name
      then MkTypes (AISITES acc ++ [site]) (AOSITES acc) (DIOSITES acc)
      else if String.prefix "ao" module_name
      then MkTypes (AISITES acc) (AOSITES acc ++ [site]) (DIOSITES acc)
      else if String.prefix "dio" module_name
      then MkTypes (AISITES acc) (AOSITES acc) (DIOSITES acc ++ [site])
      else acc
  | Raise _ => acc
  end.

(** the three tests of the loop body, each with the ones before it
    failed *)
Definition is_ai (d : attrs) (site : Z) : bool :=
  match site_module_name d site with
  | Ok module_name => String.prefix "acq" module_name
  | Raise _ => false
  end.

Definition is_ao (d : attrs) (site : Z) : bool :=
  match site_module_name d site with
  | Ok module_name =>
      negb (String.prefix "acq" module_name) && String.prefix "ao" module_name
  | Raise _ => false
  end.

Definition is_dio (d : attrs) (site : Z) : bool :=
  match site_module_name d site with
  | Ok module_name =>
      negb (String.prefix "acq" module_name) && negb (String.prefix "ao" module_name)
      && String.prefix "dio" module_name
  | Raise _ => false
  end.

Definition get_site_types (d : attrs) : site_types :=
  foldl (classify d) (MkTypes [] [] []) [1; 2; 3; 4; 5; 6].

(** the list comprehension of [Acq2106_TIGA.__init__]:
    [sx for sx in range(1,7) if sx in self.sites and
     self.svc["s{}".format(sx)].MTYPE == '7B'] *)
Fixpoint pg_sites_in (d : attrs) (cands : list Z) : result (list Z) :=
  match cands with
  | [] => Ok []
  | sx :: rest =>
      if bool_decide (sx ∈ sites d) then
        match svc d !! ("s" +:+ pretty sx) with
        | None => Raise KeyError
        | Some sc =>
            mtype ← knob sc "MTYPE";
            more ← pg_sites_in d rest;
            Ok (if String.eqb mtype "7B" then sx :: more else more)
        end
      else pg_sites_in d rest
  end.

Definition pg_sites (d : attrs) : result (list Z) :=
  pg_sites_in d [1; 2; 3; 4; 5; 6].

(** what discovery leaves in the two maps *)
Definition directory (d : attrs) : gmap string Siteclient * gmap Z Siteclient :=
  (svc d, modules d).

(** the dictionary [Acq400.__init__] starts the discovery threads on *)
Definition blank (_uut : string) (k0 : gmap string string) : attrs :=
  MkAttrs _uut 0 None {[ "s0" := MkSite SITE0 k0 ]} ∅ 0
          [PyInt 0] [PyInt 0] 4000000 0 [] None 0.

(** what discovery keeps true of the service map and of [awg_site] *)
Definition discovered (e : unit_env) (d : attrs) : Prop :=
  (forall x sc, svc d !! ("s" +:+ pretty x) = Some sc -> x <> 0 ->
     exists k, site_answer e x = Resolves k /\ sc = MkSite (SITE0 + x) k)
  /\ (awg_site d <> 0 ->
      exists k name,
        svc d !! ("s" +:+ pretty (awg_site d)) = Some (MkSite (SITE0 + awg_site d) k)
        /\ k !! "module_name" = Some name /\ String.prefix "ao" name = true).

End Sites.

(** ** [Acq2106]: the carrier with comms sites *)
Module Acq2106.
Import Acq400.

(** [class AcqSites] *)
Definition SITE_CA : Z := 13.
Definition SITE_CB : Z := 12.
Definition SITE_CC : Z := 11.
Definition SITE_DSP : Z := 14.

Definition sn_map (has_dsp has_comms has_wr : bool) : list (string * Z) :=
  (if has_comms then [("cA", SITE_CA); ("cB", SITE_CB)] else [])%string
  ++ (if has_wr then [("cC", SITE_CC)] else [])%string
  ++ (if has_dsp then [("s14", SITE_DSP)] else [])%string.

(** the body of [for (service_name, site) in sn_map]: a connect that
    fails is reported and the count goes up all the same *)
Definition add_service (e : unit_env) (d : attrs) (entry : string * Z) : attrs :=
  let '(service_name, site) := entry in
  MkAttrs (uut d) (trace d) (save_data d)
          (match site_answer e site with
           | Resolves k => <[service_name := MkSite (SITE0 + site) k]> (svc d)
           | TimesOut | Refuses => svc d
           end)
          (modules d) (mod_count d + 1) (cal_eslo d) (cal_eoff d) (mb_clk_min d)
          (awg_site d) (sites d) (statmon d) (cal_fetches d).

Definition with_mb_clk_min (d : attrs) (clk_min : Z) : attrs :=
  MkAttrs (uut d) (trace d) (save_data d) (svc d) (modules d) (mod_count d)
          (cal_eslo d) (cal_eoff d) clk_min (awg_site d) (sites d) (statmon d)
          (cal_fetches d).

(** [Acq2106.__init__(self, _uut, monitor, has_dsp, has_comms, has_wr)]:
    [Acq400.__init__], then the lines after it, which act on the
    dictionary [self.__dict__] names by then *)
Definition __init__ (net : network) (w : world) (_uut : string) (monitor : bool)
    (has_dsp has_comms has_wr : bool) (order : list Z) : result (obj * world) :=
  '(o, w1) ← Acq400.__init__ net w _uut monitor order;
  match heap w1 !! dict_of o with
  | None => Raise RuntimeError     (* no such dictionary *)
  | Some d =>
      let sn := sn_map has_dsp has_comms has_wr in
      let d' := foldl (add_service (net _uut)) (with_mb_clk_min d 100000) sn in
      Ok (o, MkWorld (uuts w1) (<[dict_of o := d']> (heap w1)) (next_oid w1)
                     (connects w1 ++ ((fun entry => (_uut, SITE0 + entry.2)) <$> sn))
                     (monitors w1))
  end.

(** [Acq2106_TIGA.__init__(uut, monitor)]: the process afterwards, and
    the object with its [pg_sites] unless an exception came first *)
Definition TIGA__init__ (net : network) (w : world) (_uut : string) (monitor : bool)
    (order : list Z) : world * result (obj * list Z) :=
  match __init__ net w _uut monitor false true true order with
  | Raise e => (w, Raise e)
  | Ok (o, w1) =>
      match heap w1 !! dict_of o with
      | None => (w1, Raise RuntimeError)
      | Some d => (w1, pg ← Sites.pg_sites d; Ok (o, pg))
      end
  end.

End Acq2106.

(** ** [regression-test-suite.py]: comparing event samples *)
Module RegressionSuite.

(** the [for uut_es in events] loop of [check_es]; [Some false] is
    [return False], [None] the end of the loop *)
Fixpoint check_es_loop {A : Type} `{!EqDecision A} (first : A) (events : list A)
  : option bool :=
  match events with
  | [] => None
  | uut_es :: rest =>
      if decide (uut_es = first) then check_es_loop first rest else Some false
  end.

(** [check_es(events)]: [events[0]] is read inside the loop only; the
    value [None] is Python's [None], what a function returns that ends
    without [return] *)
Definition check_es {A : Type} `{!EqDecision A} (events : list A) : option bool :=
  match events with
  | [] => None
  | first :: _ => check_es_loop first events
  end.

End RegressionSuite.

(** ** Units to try the loaders on *)
Module PgBench.
Import Acq400.

(** a unit whose pulse generator echoes three lines and then answers
    EOF in one segment on the GPG port, answers EOF in two segments on
    the WRPG port, and whose waveform generator answers DONE after a
    line of progress *)
Definition unit : network := fun _ =>
  MkUnit (fun site => if site =? 0 then Resolves Bench.s0_knobs else TimesOut)
         (fun port =>
            if port =? Stl.GPGSTL
            then [[x0a]; [x0a]; [x0a]; [x45; x4f; x46; x0a]]
            else if port =? Stl.WRPG then [[x45; x4f]; [x46; x0a]]
            else if port =? Awg.AWG_ONCE then [[x2e; x0a]; [x44; x4f; x4e; x45; x0a]]
            else []).

Definition nl : string := String "010" EmptyString.

(** a comment, two states, a line of blanks and an empty last line *)
Definition ramp : string :=
  "# ramp" +:+ nl +:+ "0,1" +:+ nl +:+ "   " +:+ nl +:+ "100,0" +:+ nl.

(** a chassis with an AO module in slot 1 and, in slot 2, a module that
    does not know the knob [module_name] *)
Definition mixed : network := fun _ =>
  MkUnit (fun site =>
            if site =? 0
            then Resolves (<["SITELIST" := "44,1=424,2=7b"]> Bench.s0_knobs)
            else if site =? 1
            then Resolves (list_to_map [("module_name", "ao424elf");
                                        ("MTYPE", "41")]%string)
            else if site =? 2
            then Resolves (list_to_map [("MTYPE", "7B")]%string)
            else if site =? 11 then Resolves ∅
            else TimesOut)
         (fun _ => []).

(** a chassis with one AO module, in slot 2, whose task is running *)
Definition ao_knobs : gmap string string :=
  list_to_map [("module_name", "ao424elf"); ("task_active", "1")]%string.

Definition ao_net : network := fun _ =>
  MkUnit (fun site =>
            if site =? 0
            then Resolves (<["SITELIST" := "44,2=424"]> Bench.s0_knobs)
            else if site =? 2 then Resolves ao_knobs
            else TimesOut)
         (fun _ => []).

(** the process after [Acq400("acq2106_001")] on [Bench.one_out] *)
Definition one_out_opened : world :=
  MkWorld {[ "acq2106_001"%string := 0%nat ]}
          [MkAttrs "acq2106_001" 0 None (svc Bench.proxy) (modules Bench.proxy) 1
                   [PyInt 0] [PyInt 0] 4000000 0 [1; 2]
                   (Some (Statusmonitor.Build false (Some [0; 0; 0; 0; 0])
                                              false false)) 0]
          1 [("acq2106_001", 4220); ("acq2106_001", 4221);
             ("acq2106_001", 4222); ("acq2106_001", 2235)]%string
          ["acq2106_001"%string].

(** its proxy once opened without a monitor *)
Definition ao_opened : attrs :=
  MkAttrs "acq1001_070" 0 None
          (<["s2" := MkSite (SITE0 + 2) ao_knobs]>
             {[ "s0" := MkSite SITE0 (<["SITELIST" := "44,2=424"]> Bench.s0_knobs) ]})
          {[ 2 := MkSite (SITE0 + 2) ao_knobs ]}
          1 [PyInt 0] [PyInt 0] 4000000 2 [2] None 0.

(** a unit streaming five bytes in segments of three and two *)
Definition live : network := fun _ =>
  MkUnit (fun site => if site =? 0 then Resolves Bench.s0_knobs else TimesOut)
         (fun port =>
            if port =? Muxed.STREAM then [[x01; x02; x03]; [x04; x05]] else []).

(** [Bench.proxy] with slots 1 and 2 in the aggregator; slot 2 did not
    answer *)
Definition half_calibrated : attrs :=
  Knobs.with_s0_knob Bench.proxy "aggregator" "reg=0x00001003 sites=1,2 threshold=16".

(** [Bench.proxy] after its calibration fetch *)
Definition calibrated_proxy : attrs :=
  with_cal Bench.proxy [PyInt 0; PyStr "2"; PyStr "3"] [PyInt 0; PyStr "5"; PyStr "7"] 1.

End PgBench.

(* ===================================================================== *)
(** * Properties *)
(* ===================================================================== *)

(** ** The integer codec *)
Module NpFacts.
Import Np.

Lemma byte_val_range b : 0 <= byte_val b < 256.
Proof.
  unfold byte_val. pose proof (Byte.to_N_bounded b). lia.
Qed.

Lemma byte_val_of_Z z : byte_val (byte_of_Z z) = z mod 256.
Proof.
  unfold byte_val, byte_of_Z.
  assert (Hr : 0 <= z mod 256 < 256) by (apply Z.mod_pos_bound; lia).
  destruct (Byte.of_N (Z.to_N (z mod 256))) as [b|] eqn:E.
  - apply Byte.to_of_N in E. rewrite E. lia.
  - apply Byte.of_N_None_iff in E. lia.
Qed.

Lemma length_le_bytes w z : length (le_bytes w z) = w.
Proof. revert z. induction w as [|w IH]; intros z; simpl; [done|]. by rewrite IH. Qed.

Lemma le_unsigned_le_bytes w z :
  le_unsigned (le_bytes w z) = z mod 2 ^ (8 * Z.of_nat w).
Proof.
  revert z. induction w as [|w IH]; intros z.
  - simpl. by rewrite Z.mod_1_r.
  - cbn [le_bytes le_unsigned]. rewrite byte_val_of_Z, IH.
    replace (8 * Z.of_nat (S w)) with (8 + 8 * Z.of_nat w) by lia.
    rewrite Z.pow_add_r by lia. change (2 ^ 8) with 256.
    rewrite Z.rem_mul_r by lia. reflexivity.
Qed.

Lemma le_signed_le_bytes w z :
  (0 < w)%nat -> in_range w z -> le_signed w (le_bytes w z) = z.
Proof.
  intros Hw [Hlo Hhi]. unfold le_signed. rewrite le_unsigned_le_bytes.
  assert (Hp : 2 ^ (8 * Z.of_nat w) = 2 * 2 ^ (8 * Z.of_nat w - 1)).
  { rewrite <- Z.pow_succ_r by lia. f_equal. lia. }
  assert (Hpos : 0 < 2 ^ (8 * Z.of_nat w - 1)) by (apply Z.pow_pos_nonneg; lia).
  destruct (Z.neg_nonneg_cases z) as [Hneg|Hnn].
  - assert (Hm : z mod 2 ^ (8 * Z.of_nat w) = z + 2 ^ (8 * Z.of_nat w)).
    { symmetry. apply Z.mod_unique with (-1); lia. }
    rewrite Hm. destruct (Z.ltb_spec (z + 2 ^ (8 * Z.of_nat w)) (2 ^ (8 * Z.of_nat w - 1))); lia.
  - rewrite Z.mod_small by lia.
    destruct (Z.ltb_spec z (2 ^ (8 * Z.of_nat w - 1))); lia.
Qed.

Lemma length_decode n w buf : length (decode n w buf) = n.
Proof. revert buf. induction n as [|n IH]; intros buf; simpl; [done|]. by rewrite IH. Qed.

Lemma length_tobytes w xs : length (tobytes w xs) = (length xs * w)%nat.
Proof.
  unfold tobytes. induction xs as [|x xs IH]; simpl; [done|].
  rewrite length_app, length_le_bytes, IH. lia.
Qed.

(** decoding reads only the first [n * w] bytes *)
Lemma decode_app n w buf extra :
  (n * w <= length buf)%nat -> decode n w (buf ++ extra) = decode n w buf.
Proof.
  revert buf. induction n as [|n IH]; intros buf Hlen; simpl; [done|].
  simpl in Hlen.
  rewrite take_app_le by lia. rewrite drop_app_le by lia.
  rewrite IH; [done|]. rewrite length_drop. lia.
Qed.

Lemma decode_take n w k buf :
  (n * w <= k)%nat -> decode n w (take k buf) = decode n w buf.
Proof.
  intros Hk. destruct (Nat.le_gt_cases (length buf) k) as [Hge|Hlt].
  - by rewrite take_ge.
  - rewrite <- (take_drop k buf) at 2.
    rewrite decode_app; [done|]. rewrite length_take. lia.
Qed.

Lemma decode_tobytes w xs extra :
  (0 < w)%nat -> Forall (in_range w) xs ->
  decode (length xs) w (tobytes w xs ++ extra) = xs.
Proof.
  intros Hw Hxs. induction Hxs as [|x xs Hx Hxs IH]; [done|].
  unfold tobytes in *. cbn [map concat length decode].
  rewrite <- app_assoc.
  rewrite take_app_length' by (by rewrite length_le_bytes).
  rewrite drop_app_length' by (by rewrite length_le_bytes).
  rewrite le_signed_le_bytes by done. by rewrite IH.
Qed.

Lemma frombuffer_count buf w n :
  0 <= n -> n * Z.of_nat w <= Z.of_nat (length buf) ->
  frombuffer buf w n = Ok (decode (Z.to_nat n) w buf).
Proof.
  intros Hn Hlen. unfold frombuffer.
  destruct (Z.ltb_spec n 0); [lia|].
  destruct (Z.ltb_spec (Z.of_nat (length buf)) (n * Z.of_nat w)); [lia|done].
Qed.

Lemma frombuffer_all buf w :
  Z.of_nat (length buf) mod Z.of_nat w = 0 ->
  frombuffer buf w (-1) =
    Ok (decode (Z.to_nat (Z.of_nat (length buf) / Z.of_nat w)) w buf).
Proof.
  intros Hm. unfold frombuffer. simpl. rewrite Hm. reflexivity.
Qed.

Example frombuffer_i2 :
  frombuffer [x01; x00; xfe; xff; x00; x80] 2 (-1) = Ok [1; -2; -32768].
Proof. reflexivity. Qed.

Example frombuffer_odd : frombuffer [x01; x00; xfe] 2 (-1) = Raise ValueError.
Proof. reflexivity. Qed.

Example frombuffer_short : frombuffer [x01; x00] 2 2 = Raise ValueError.
Proof. reflexivity. Qed.

Example tobytes_i4 : tobytes 4 [-2; 258] = [xfe; xff; xff; xff; x02; x01; x00; x00].
Proof. reflexivity. Qed.

End NpFacts.

(** ** The connection stub *)
Module SockFacts.
Import Sock.

(** [recv] hands over a prefix of what is still to come *)
Lemma recv_concat c bufsize :
  0 <= bufsize ->
  exists d c', recv c bufsize = Ok (d, c') /\ concat c = d ++ concat c'.
Proof.
  intros Hb. unfold recv. destruct (Z.ltb_spec bufsize 0); [lia|].
  destruct c as [|ch rest].
  - by exists [], [].
  - destruct (Z.leb_spec (Z.of_nat (length ch)) bufsize).
    + by exists ch, rest.
    + eexists _, _. split; [reflexivity|].
      simpl. by rewrite app_assoc, take_drop.
Qed.

(** on a stream of non-empty chunks that is not finished, [recv] with a
    positive buffer size returns at least one byte *)
Lemma recv_chunked c bufsize :
  0 < bufsize -> chunked c -> c <> [] ->
  exists d c', recv c bufsize = Ok (d, c') /\ d <> [] /\ chunked c' /\
    concat c = d ++ concat c' /\
    (length (concat c') < length (concat c))%nat.
Proof.
  intros Hb Hc Hne. unfold recv. destruct (Z.ltb_spec bufsize 0); [lia|].
  destruct c as [|ch rest]; [done|].
  apply Forall_cons in Hc as [Hch Hrest].
  destruct (Z.leb_spec (Z.of_nat (length ch)) bufsize).
  - exists ch, rest. repeat split; try done.
    simpl. rewrite length_app. destruct ch; [done|simpl; lia].
  - exists (take (Z.to_nat bufsize) ch), (drop (Z.to_nat bufsize) ch :: rest).
    split; [done|]. split.
    { intros E. apply take_nil_inv in E as [E|E]; [lia|done]. }
    split.
    { apply Forall_cons. split; [|done].
      intros E. apply drop_nil_inv in E. lia. }
    split.
    { simpl. by rewrite app_assoc, take_drop. }
    simpl. rewrite !length_app, length_drop. lia.
Qed.

Lemma recv_closed bufsize : 0 <= bufsize -> recv [] bufsize = Ok ([], []).
Proof. intros Hb. unfold recv. by destruct (Z.ltb_spec bufsize 0); [lia|]. Qed.

Lemma chunked_concat_nil c : chunked c -> concat c = [] -> c = [].
Proof.
  intros Hc E. destruct c as [|ch rest]; [done|].
  apply Forall_cons in Hc as [Hch _]. simpl in E.
  apply app_eq_nil in E as [E _]. done.
Qed.

Example recv_cuts : recv [[x01; x02; x03]; [x04]] 2 = Ok ([x01; x02], [[x03]; [x04]]).
Proof. reflexivity. Qed.

End SockFacts.

(** ** [ChannelClient.read] *)
Module ChannelClientFacts.
Import Np NpFacts Sock SockFacts ChannelClient.

(** *** the filling loop *)

(** When the peer delivers enough, the loop leaves with a prefix of the
    stream that covers [need] bytes. *)
Lemma read_fill_enough c maxbuf buffer need :
  0 < maxbuf -> chunked c ->
  need <= Z.of_nat (length (buffer ++ concat c)) ->
  exists fuel0 k,
    need <= Z.of_nat k /\
    forall fuel, (fuel0 <= fuel)%nat ->
      read_fill fuel c maxbuf buffer need = Some (Ok (take k (buffer ++ concat c))).
Proof.
  intros Hb. remember (length (concat c)) as n eqn:Hn.
  revert c buffer Hn. induction (lt_wf n) as [n _ IH]. intros c buffer Hn Hc Hlen.
  destruct (Z.ltb_spec (Z.of_nat (length buffer)) need) as [Hlt|Hge].
  - assert (Hne : c <> []).
    { intros ->. simpl in Hlen. rewrite app_nil_r in Hlen. lia. }
    destruct (recv_chunked c maxbuf Hb Hc Hne) as (d & c' & Hr & Hd & Hc' & Hcat & Hless).
    destruct (IH (length (concat c')) ltac:(lia) c' (buffer ++ d) eq_refl Hc')
      as (fuel0 & k & Hk & Hrun).
    { rewrite <- app_assoc, <- Hcat. done. }
    exists (S fuel0), k. split; [done|]. intros fuel Hf.
    destruct fuel as [|fuel]; [lia|].
    cbn [read_fill]. destruct (Z.ltb_spec (Z.of_nat (length buffer)) need); [|lia].
    rewrite Hr. rewrite Hrun by lia. by rewrite <- app_assoc, <- Hcat.
  - exists 0%nat, (length buffer). split; [done|]. intros fuel _.
    rewrite take_app_length.
    destruct fuel; cbn [read_fill];
      by destruct (Z.ltb_spec (Z.of_nat (length buffer)) need); [lia|].
Qed.

(** Whatever the loop returns is a prefix of the stream covering [need]
    bytes: the loop never leaves early. *)
Lemma read_fill_returns fuel c maxbuf buffer need r :
  0 <= maxbuf ->
  read_fill fuel c maxbuf buffer need = Some r ->
  exists k, r = Ok (take k (buffer ++ concat c)) /\ need <= Z.of_nat k /\
            (k <= length (buffer ++ concat c))%nat.
Proof.
  intros Hb. revert c buffer. induction fuel as [|fuel IH]; intros c buffer;
    cbn [read_fill]; destruct (Z.ltb_spec (Z.of_nat (length buffer)) need) as [Hlt|Hge];
    intros H; try discriminate.
  - injection H as <-. exists (length buffer). rewrite take_app_length, length_app.
    split; [done|]. split; [done|lia].
  - destruct (recv_concat c maxbuf Hb) as (d & c' & Hr & Hcat).
    rewrite Hr in H. apply IH in H as (k & -> & Hk & Hle).
    exists k. by rewrite <- app_assoc, <- Hcat in *.
  - injection H as <-. exists (length buffer). rewrite take_app_length, length_app.
    split; [done|]. split; [done|lia].
Qed.

(** When the peer closes before [need] bytes have arrived, the loop
    keeps calling [recv] on the closed socket: no fuel is enough. *)
Lemma read_fill_short fuel c maxbuf buffer need :
  0 <= maxbuf ->
  Z.of_nat (length (buffer ++ concat c)) < need ->
  read_fill fuel c maxbuf buffer need = None.
Proof.
  intros Hb Hshort.
  destruct (read_fill fuel c maxbuf buffer need) as [r|] eqn:E; [|done].
  apply read_fill_returns in E as (k & _ & Hk & Hle); [lia|done].
Qed.

(** *** the open-ended loop *)
Lemma read_to_end_all c maxbuf total itemsize :
  0 < maxbuf -> chunked c ->
  exists fuel0, forall fuel, (fuel0 <= fuel)%nat ->
    read_to_end fuel c maxbuf total itemsize
    = Some (frombuffer (total ++ concat c) itemsize (-1)).
Proof.
  intros Hb. remember (length (concat c)) as n eqn:Hn.
  revert c total Hn. induction (lt_wf n) as [n _ IH]. intros c total Hn Hc.
  destruct c as [|ch rest].
  - exists 1%nat. intros fuel Hf. destruct fuel as [|fuel]; [lia|].
    cbn [read_to_end]. rewrite recv_closed by lia. simpl. by rewrite app_nil_r.
  - destruct (recv_chunked (ch :: rest) maxbuf Hb Hc ltac:(done))
      as (d & c' & Hr & Hd & Hc' & Hcat & Hless).
    destruct (IH (length (concat c')) ltac:(lia) c' (total ++ d) eq_refl Hc') as (fuel0 & Hrun).
    exists (S fuel0). intros fuel Hf. destruct fuel as [|fuel]; [lia|].
    cbn [read_to_end]. rewrite Hr. destruct d as [|b d]; [done|].
    rewrite Hrun by lia. by rewrite <- app_assoc, <- Hcat.
Qed.

Lemma _dtypes_width w :
  (w = 1 \/ w = 2 \/ w = 4)%nat -> _dtypes (Z.of_nat w) = Ok w.
Proof. intros [->|[->| ->]]; reflexivity. Qed.

(** *** more fuel never changes an answer *)
Lemma read_fill_mono fuel fuel' c maxbuf buffer need r :
  (fuel <= fuel')%nat ->
  read_fill fuel c maxbuf buffer need = Some r ->
  read_fill fuel' c maxbuf buffer need = Some r.
Proof.
  revert fuel' c buffer. induction fuel as [|fuel IH]; intros fuel' c buffer Hle;
    cbn [read_fill]; destruct (Z.ltb_spec (Z.of_nat (length buffer)) need) as [Hlt|Hge];
    intros H; try discriminate.
  - destruct fuel'; cbn [read_fill];
      by destruct (Z.ltb_spec (Z.of_nat (length buffer)) need); [lia|].
  - destruct fuel' as [|fuel']; [lia|]. cbn [read_fill].
    destruct (Z.ltb_spec (Z.of_nat (length buffer)) need); [|lia].
    destruct (recv c maxbuf) as [[d c']|e]; [|done].
    apply IH; [lia|done].
  - destruct fuel'; cbn [read_fill];
      by destruct (Z.ltb_spec (Z.of_nat (length buffer)) need); [lia|].
Qed.

Lemma read_to_end_mono fuel fuel' c maxbuf total itemsize r :
  (fuel <= fuel')%nat ->
  read_to_end fuel c maxbuf total itemsize = Some r ->
  read_to_end fuel' c maxbuf total itemsize = Some r.
Proof.
  revert fuel' c total. induction fuel as [|fuel IH]; intros fuel' c total Hle H;
    [done|].
  destruct fuel' as [|fuel']; [lia|]. cbn [read_to_end] in *.
  destruct (recv c maxbuf) as [[d c']|e]; [|done].
  destruct d; [done|]. apply IH; [lia|done].
Qed.

Lemma read_mono fuel fuel' c ndata data_size maxbuf r :
  (fuel <= fuel')%nat ->
  read fuel c ndata data_size maxbuf = Some r ->
  read fuel' c ndata data_size maxbuf = Some r.
Proof.
  intros Hle. unfold read.
  destruct (_dtypes data_size) as [itemsize|e]; [|done].
  destruct (recv c maxbuf) as [[d c']|e]; [|done].
  destruct ((ndata =? 0) || (ndata =? -1)).
  - by apply read_to_end_mono.
  - destruct (read_fill fuel c' maxbuf d (ndata * data_size)) as [rb|] eqn:E; [|done].
    by rewrite (read_fill_mono _ _ _ _ _ _ _ Hle E).
Qed.

(** a fixed-count read on a stream that ends too early never returns *)
Lemma read_short fuel c ndata w maxbuf :
  0 < ndata -> (w = 1 \/ w = 2 \/ w = 4)%nat -> 0 <= maxbuf ->
  Z.of_nat (length (concat c)) < ndata * Z.of_nat w ->
  read fuel c ndata (Z.of_nat w) maxbuf = None.
Proof.
  intros Hn Hw Hb Hshort. unfold read. rewrite (_dtypes_width w Hw).
  destruct (recv_concat c maxbuf Hb) as (d & c' & -> & Hsplit).
  destruct (Z.eqb_spec ndata 0); [lia|]. destruct (Z.eqb_spec ndata (-1)); [lia|].
  simpl. rewrite read_fill_short; [done|done|]. by rewrite <- Hsplit.
Qed.

(** what [recv] leaves of a stream of non-empty chunks is one again *)
Lemma recv_keeps_chunked c maxbuf d c' :
  0 < maxbuf -> chunked c -> recv c maxbuf = Ok (d, c') -> chunked c'.
Proof.
  intros Hb Hc Hr. destruct c as [|ch rest].
  - rewrite recv_closed in Hr by lia. injection Hr as <- <-. constructor.
  - destruct (recv_chunked (ch :: rest) maxbuf Hb Hc ltac:(done))
      as (d2 & c2 & Hr2 & _ & Hc2 & _). congruence.
Qed.

(** a fixed-count read on a stream that is long enough returns its first
    [ndata] items *)
Lemma read_count_enough c ndata w maxbuf :
  0 < ndata -> (w = 1 \/ w = 2 \/ w = 4)%nat -> 0 < maxbuf -> chunked c ->
  ndata * Z.of_nat w <= Z.of_nat (length (concat c)) ->
  exists fuel0, forall fuel, (fuel0 <= fuel)%nat ->
    read fuel c ndata (Z.of_nat w) maxbuf
    = Some (Ok (decode (Z.to_nat ndata) w (concat c))).
Proof.
  intros Hn Hw Hb Hc Hlen.
  assert (Hsel : (ndata =? 0) || (ndata =? -1) = false).
  { destruct (Z.eqb_spec ndata 0); [lia|]. by destruct (Z.eqb_spec ndata (-1)); [lia|]. }
  destruct (recv_concat c maxbuf ltac:(lia)) as (d & c' & Hr & Hsplit).
  pose proof (recv_keeps_chunked _ _ _ _ Hb Hc Hr) as Hc'.
  destruct (read_fill_enough c' maxbuf d (ndata * Z.of_nat w) Hb Hc')
    as (fuel0 & k & Hk & Hrun); [by rewrite <- Hsplit|].
  exists fuel0. intros fuel Hf.
  unfold read. rewrite (_dtypes_width w Hw), Hr, Hsel, Hrun by done.
  rewrite <- Hsplit.
  assert (Hkn : (Z.to_nat ndata * w <= k)%nat) by nia.
  rewrite frombuffer_count; [by rewrite decode_take| lia |].
  rewrite length_take. lia.
Qed.

End ChannelClientFacts.

Module ChannelClientSpec.
Import Np NpFacts Sock SockFacts ChannelClient ChannelClientFacts.

(** C2. Round trip: [N] signed integers written at width 1, 2 or 4 and
    delivered in any fragmentation into non-empty chunks are returned
    unchanged by [read(N, width)].  For [N > 0] the stream may go on
    after the [N] items, with a chunk boundary at [N * width] or
    anywhere else. *)
Theorem read_roundtrip (w : nat) (xs : list Z) (c : conn) (extra : list byte)
    (maxbuf : Z) :
  (w = 1 \/ w = 2 \/ w = 4)%nat ->
  Forall (in_range w) xs ->
  chunked c ->
  concat c = tobytes w xs ++ extra ->
  (xs = [] -> extra = []) ->
  0 < maxbuf ->
  exists fuel0, forall fuel, (fuel0 <= fuel)%nat ->
    read fuel c (Z.of_nat (length xs)) (Z.of_nat w) maxbuf = Some (Ok xs).
Proof.
  intros Hw Hxs Hc Hcat Hextra Hb.
  assert (Hw0 : (0 < w)%nat) by lia.
  destruct xs as [|x xs'] eqn:Exs.
  - (* N = 0: the open-ended branch on a stream that is already closed *)
    rewrite (Hextra eq_refl) in Hcat.
    assert (c = []) as -> by (by apply chunked_concat_nil).
    unfold read. rewrite (_dtypes_width w Hw).
    rewrite recv_closed by lia. simpl.
    exists 1%nat. intros fuel Hf. destruct fuel as [|fuel]; [lia|].
    cbn [read_to_end]. rewrite recv_closed by lia.
    rewrite frombuffer_all by apply Zmod_0_l.
    change (Z.of_nat (length [])) with 0. by rewrite Zdiv_0_l.
  - rewrite <- Exs in *. assert (Hlen : (0 < length xs)%nat) by (subst xs; simpl; lia).
    clear Exs Hextra.
    destruct (read_count_enough c (Z.of_nat (length xs)) w maxbuf ltac:(lia) Hw Hb Hc)
      as (fuel0 & Hrun).
    { rewrite Hcat, length_app, length_tobytes. lia. }
    exists fuel0. intros fuel Hf. rewrite (Hrun fuel Hf), Nat2Z.id, Hcat.
    by rewrite decode_tobytes.
Qed.

(** C3, as the code has it. A fixed-count read of [ndata > 0] items
    accumulates until [ndata * width] bytes are buffered and then returns
    exactly the first [ndata] items of the stream; whenever it returns at
    all it returns that, so never a truncated result and never an error. *)
Theorem read_fixed_count (c : conn) (ndata : Z) (w : nat) (maxbuf : Z) :
  0 < ndata ->
  (w = 1 \/ w = 2 \/ w = 4)%nat ->
  0 < maxbuf ->
  chunked c ->
  (ndata * Z.of_nat w <= Z.of_nat (length (concat c)) ->
     exists fuel0, forall fuel, (fuel0 <= fuel)%nat ->
       read fuel c ndata (Z.of_nat w) maxbuf
       = Some (Ok (decode (Z.to_nat ndata) w (concat c))))
  /\ (forall fuel r, read fuel c ndata (Z.of_nat w) maxbuf = Some r ->
       ndata * Z.of_nat w <= Z.of_nat (length (concat c))
       /\ r = Ok (decode (Z.to_nat ndata) w (concat c)))
  /\ length (decode (Z.to_nat ndata) w (concat c)) = Z.to_nat ndata.
Proof.
  intros Hn Hw Hb Hc.
  assert (Hsel : (ndata =? 0) || (ndata =? -1) = false).
  { destruct (Z.eqb_spec ndata 0); [lia|]. by destruct (Z.eqb_spec ndata (-1)); [lia|]. }
  destruct (recv_concat c maxbuf ltac:(lia)) as (d & c' & Hr & Hsplit).
  assert (Hc' : chunked c').
  { destruct c as [|ch rest].
    - rewrite recv_closed in Hr by lia. injection Hr as <- <-. constructor.
    - destruct (recv_chunked (ch :: rest) maxbuf Hb Hc ltac:(done))
        as (d2 & c2 & Hr2 & _ & Hc2 & _). congruence. }
  split; [|split].
  - by apply read_count_enough.
  - intros fuel r. unfold read. rewrite (_dtypes_width w Hw), Hr, Hsel.
    destruct (read_fill fuel c' maxbuf d (ndata * Z.of_nat w)) as [rb|] eqn:E; [|done].
    apply read_fill_returns in E as (k & -> & Hk & Hle); [|lia].
    rewrite <- Hsplit in *. intros [= <-]. split; [lia|].
    assert (Hkn : (Z.to_nat ndata * w <= k)%nat) by nia.
    rewrite frombuffer_count; [by rewrite decode_take| lia |].
    rewrite length_take. lia.
  - apply length_decode.
Qed.

(** C6, as the code has it. For [ndata] 0 or -1 the read accumulates to
    the end of the stream and hands all of it to [np.frombuffer]: the
    result depends on the bytes delivered, not on their fragmentation,
    and has one item per [width] bytes received. *)
Theorem read_open_ended (c : conn) (ndata : Z) (w : nat) (maxbuf : Z) :
  ndata = 0 \/ ndata = -1 ->
  (w = 1 \/ w = 2 \/ w = 4)%nat ->
  0 < maxbuf ->
  chunked c ->
  (exists fuel0, forall fuel, (fuel0 <= fuel)%nat ->
     read fuel c ndata (Z.of_nat w) maxbuf = Some (frombuffer (concat c) w (-1)))
  /\ (Z.of_nat (length (concat c)) mod Z.of_nat w = 0 ->
      exists l, frombuffer (concat c) w (-1) = Ok l
        /\ l = decode (length (concat c) / w) w (concat c)
        /\ length l = (length (concat c) / w)%nat).
Proof.
  intros Hn Hw Hb Hc. split.
  - assert (Hsel : (ndata =? 0) || (ndata =? -1) = true) by (destruct Hn as [-> | ->]; done).
    destruct (recv_concat c maxbuf ltac:(lia)) as (d & c' & Hr & Hsplit).
    assert (Hc' : chunked c').
    { destruct c as [|ch rest].
      - rewrite recv_closed in Hr by lia. injection Hr as <- <-. constructor.
      - destruct (recv_chunked (ch :: rest) maxbuf Hb Hc ltac:(done))
          as (d2 & c2 & Hr2 & _ & Hc2 & _). congruence. }
    destruct (read_to_end_all c' maxbuf d w Hb Hc') as (fuel0 & Hrun).
    exists fuel0. intros fuel Hf.
    unfold read. rewrite (_dtypes_width w Hw), Hr, Hsel, Hrun by done.
    by rewrite <- Hsplit.
  - intros Hm. rewrite frombuffer_all by done.
    assert (Hdiv : Z.to_nat (Z.of_nat (length (concat c)) / Z.of_nat w)
                   = (length (concat c) / w)%nat).
    { rewrite <- Nat2Z.inj_div. apply Nat2Z.id. }
    rewrite Hdiv. eexists. split; [reflexivity|]. split; [done|]. apply length_decode.
Qed.

(** Three 16-bit items delivered as chunks of 1, 3 and 7 bytes, the last
    chunk running on into the next five bytes of the stream. *)
Lemma read_roundtrip_witness :
  exists fuel0, forall fuel, (fuel0 <= fuel)%nat ->
    read fuel [[x01]; [x00; xfe; xff]; [x2c; x01; x07; x00; x08; x00; x09]] 3 2
         default_maxbuf
    = Some (Ok [1; -2; 300]).
Proof.
  apply (read_roundtrip 2 [1; -2; 300]
           [[x01]; [x00; xfe; xff]; [x2c; x01; x07; x00; x08; x00; x09]]
           [x07; x00; x08; x00; x09] default_maxbuf).
  - right. left. reflexivity.
  - repeat constructor; unfold in_range; simpl; lia.
  - repeat constructor; discriminate.
  - reflexivity.
  - discriminate.
  - reflexivity.
Defined.

(** Two items out of a stream that carries three. *)
Lemma read_fixed_count_witness :
  exists fuel0, forall fuel, (fuel0 <= fuel)%nat ->
    read fuel [[x01]; [x00; xfe; xff]; [x2c; x01]] 2 2 default_maxbuf
    = Some (Ok [1; -2]).
Proof.
  destruct (read_fixed_count [[x01]; [x00; xfe; xff]; [x2c; x01]] 2 2 default_maxbuf)
    as [Hret _].
  - reflexivity.
  - right. left. reflexivity.
  - reflexivity.
  - repeat constructor; discriminate.
  - apply Hret. simpl. lia.
Defined.

(** C3 as stated fails: the peer closes after one byte of a two byte
    item; the read neither returns nor raises, whatever the fuel. *)
Lemma read_short_never_fails :
  ~ exists fuel r, read fuel [[x01]] 1 2 default_maxbuf = Some r.
Proof.
  intros (fuel & r & H).
  pose proof (read_short fuel [[x01]] 1 2 default_maxbuf) as Hs.
  change (Z.of_nat 2) with 2 in Hs. rewrite Hs in H; try done.
  by right; left.
Qed.

Lemma read_open_ended_witness :
  exists fuel0, forall fuel, (fuel0 <= fuel)%nat ->
    read fuel [[x01]; [x00; xfe; xff]; [x2c; x01]] (-1) 2 default_maxbuf
    = Some (Ok [1; -2; 300]).
Proof.
  destruct (read_open_ended [[x01]; [x00; xfe; xff]; [x2c; x01]] (-1) 2 default_maxbuf)
    as [Hret _].
  - right. reflexivity.
  - right. left. reflexivity.
  - reflexivity.
  - repeat constructor; discriminate.
  - exact Hret.
Defined.

(** C6 as stated fails at count -2: the read returns the first chunk
    alone, so its result changes with the fragmentation and is not the
    whole stream. *)
Lemma read_minus_two_first_chunk :
  read 0 [[x01; x00]; [x02; x00]] (-2) 2 default_maxbuf = Some (Ok [1])
  /\ read 0 [[x01; x00; x02; x00]] (-2) 2 default_maxbuf = Some (Ok [1; 2])
  /\ ~ (exists fuel, read fuel [[x01; x00]; [x02; x00]] (-2) 2 default_maxbuf
                     = Some (Ok [1; 2])).
Proof.
  split; [reflexivity|]. split; [reflexivity|].
  intros (fuel & H).
  assert (H0 : read 0 [[x01; x00]; [x02; x00]] (-2) 2 default_maxbuf = Some (Ok [1]))
    by reflexivity.
  apply (read_mono 0 fuel) in H0; [|lia]. congruence.
Qed.

End ChannelClientSpec.

(** ** The status monitor *)
Module StatusmonitorFacts.
Import Statusmonitor StatusmonitorInv.

(** *** the status line on examples *)

Example st_re_search_idle :
  st_re_search "0 0 0 0 0" = Some ["0"; "0"; "0"; "0"; "0"]%string.
Proof. reflexivity. Qed.

Example st_re_search_inner :
  st_re_search "10 12 13 14 567 8" = Some ["0"; "12"; "13"; "14"; "7"]%string.
Proof. reflexivity. Qed.

Example st_re_search_noise : st_re_search "3 12 34 56 " = None.
Proof. reflexivity. Qed.

Example body_stopped :
  st_monitor_body (Some [3; 0; 100; 100; 1]) "0 0 100 100 1"
  = [StoppedSet; ArmedClear; Assign [0; 0; 100; 100; 1]].
Proof. reflexivity. Qed.

Example body_armed :
  st_monitor_body (Some [0; 0; 0; 0; 0]) "1 0 100 0 1"
  = [ArmedSet; StoppedClear; Assign [1; 0; 100; 0; 1]].
Proof. reflexivity. Qed.

Example body_skipped :
  st_monitor_body (Some [0; 0; 0; 0; 0]) "3 0 100 7 1" = [QuitRequest; Kill; SysExit].
Proof. reflexivity. Qed.

Example body_noise : st_monitor_body (Some [0; 0; 0; 0; 0]) "login:" = [].
Proof. reflexivity. Qed.

(** *** runs *)


Lemma run_invariant (P : sys -> Prop) :
  (forall s l s', P s -> step s l = Some s' -> P s') ->
  forall ls s s', P s -> run s ls = Some s' -> P s'.
Proof.
  intros Hstep ls. induction ls as [|l ls IH]; intros s s' HP Hrun; simpl in Hrun.
  - by injection Hrun as <-.
  - destruct (step s l) as [s1|] eqn:E; [|done]. eauto.
Qed.

(** case analysis of one step *)
Ltac step_cases H :=
  unfold step, set_waiter in H;
  repeat (case_match; simplify_eq/=; try done).

(** *** the shape of a loop body *)

Lemma st_monitor_body_paired status0 st : paired (st_monitor_body status0 st) = true.
Proof.
  unfold st_monitor_body. repeat case_match; reflexivity.
Qed.


Lemma paired_tail o r : paired (o :: r) = true -> paired r = true.
Proof. destruct o; simpl; try done; by repeat case_match. Qed.


(** *** at most one event is set, but for the window before a clear *)

Lemma exclusive_init st0 n : exclusive (init st0 n).
Proof. split; [done|]. simpl. done. Qed.

Lemma exclusive_step s l s' : exclusive s -> step s l = Some s' -> exclusive s'.
Proof.
  intros [Hp Hx] Hstep. destruct l as [st| | |i ev|i].
  - step_cases Hstep. split; [apply st_monitor_body_paired|].
    simpl. intros Hb. rewrite Hb in Hx. by specialize (Hx eq_refl).
  - step_cases Hstep.
  - unfold step in Hstep. destruct (alive s); [|done].
    destruct (pend s) as [|o rest] eqn:Ep; [done|]. injection Hstep as <-.
    pose proof (paired_tail _ _ Hp) as Hr.
    destruct (mon s) as [q stt sp ar] eqn:Em. simpl in Hx.
    destruct o; simpl; rewrite ?Em; simpl; (split; [done|]); intros Hb;
      try (by rewrite ?andb_false_r in Hb);
      try (by specialize (Hx Hb)).
    + simpl in Hp. by destruct rest as [|[] ?].
    + simpl in Hp. by destruct rest as [|[] ?].
  - step_cases Hstep; by split.
  - unfold step in Hstep. destruct (waiters s !! i) as [[]|] eqn:Ew; try done.
    + destruct (is_set ev (mon s)); by injection Hstep as <-.
    + destruct (quit_requested (mon s)); by injection Hstep as <-.
    + injection Hstep as <-. split; [done|]. simpl.
      destruct (mon s) as [q stt sp ar]. destruct ev; simpl; intros Hb.
      * done.
      * by rewrite andb_false_r in Hb.
Qed.

Lemma exclusive_run st0 n ls s :
  run (init st0 n) ls = Some s -> exclusive s.
Proof.
  apply (run_invariant exclusive exclusive_step). apply exclusive_init.
Qed.

(** *** the phases of the monitor thread *)





Lemma sound_sigints s : sound s -> (sigints s <= 1)%nat.
Proof. intros [_ [(_ & -> & _)|[(_ & -> & _)|[(_ & -> & _)|(_ & -> & _)]]]]; lia. Qed.

(** *** after the fatal block has been queued *)






(** *** waiters once the monitor is on its way out *)





(** *** the first group of a matching line is one digit *)

Lemma st_re_match_state st groups :
  st_re_match st = Some groups ->
  exists a, is_digit a = true /\ groups !! SF_STATE = Some (String a EmptyString).
Proof.
  unfold st_re_match. intros H.
  repeat (case_match; simplify_eq/=; try done).
  destruct (digits_blank _) as [[g2 r2]|]; simpl in H; [|done].
  destruct (digits_blank _) as [[g3 r3]|]; simpl in H; [|done].
  destruct (digits_blank _) as [[g4 r4]|]; simpl in H; [|done].
  destruct (span_digits r4) as [[|a0 d] t]; simplify_eq.
  eexists; split; [eassumption|reflexivity].
Qed.

Lemma st_re_search_state st groups :
  st_re_search st = Some groups ->
  exists a, is_digit a = true /\ groups !! SF_STATE = Some (String a EmptyString).
Proof.
  induction st as [|c st IH]; cbn [st_re_search].
  - done.
  - destruct (st_re_match (String c st)) eqn:E.
    + intros [= <-]. by eapply st_re_match_state.
    + exact IH.
Qed.

Lemma int_digits_digit a :
  is_digit a = true -> 0 <= int_digits (String a EmptyString) <= 9.
Proof.
  unfold is_digit. intros H.
  apply andb_true_iff in H as [H1 H2].
  apply Nat.leb_le in H1, H2.
  unfold int_digits, digit_val. cbn [list_ascii_of_string fold_left]. lia.
Qed.

(** the state of a parsed line is a number from 0 to 9 *)
Lemma parsed_state_range st groups new :
  st_re_search st = Some groups ->
  (int_digits <$> groups) !! SF_STATE = Some new ->
  0 <= new <= 9.
Proof.
  intros Hs Hn. apply st_re_search_state in Hs as (a & Ha & Hg).
  rewrite list_lookup_fmap, Hg in Hn. injection Hn as <-.
  by apply int_digits_digit.
Qed.

(** *** an event flag is the history of its sets and clears *)







(** *** which lines raise which event *)



End StatusmonitorFacts.

Module StatusmonitorSpec.
Import Statusmonitor StatusmonitorInv StatusmonitorFacts.





(** C10, as the code has it. "armed" and "stopped" are both up only in
    the window between a [set()] and the [clear()] of the other event
    that the monitor runs next; in particular never when the monitor is
    between two lines. *)
Theorem events_exclusive_between_lines st0 n ls s :
  run (init st0 n) ls = Some s ->
  (armed (mon s) && stopped (mon s) = true -> about_to_clear (pend s) = true)
  /\ (pend s = [] -> armed (mon s) && stopped (mon s) = false).
Proof.
  intros Hrun. destruct (exclusive_run _ _ _ _ Hrun) as [_ Hx].
  split; [done|]. intros Hp.
  destruct (armed (mon s) && stopped (mon s)); [|done].
  specialize (Hx eq_refl). by rewrite Hp in Hx.
Qed.

Lemma events_exclusive_between_lines_witness :
  exists s,
    run (init (Some [0; 0; 0; 0; 0]) 1)
        [Poll "1 0 0 0 0"; Exec; Exec; Exec; Poll "0 0 0 0 0"; Exec; Exec; Exec]
    = Some s
    /\ pend s = [] /\ armed (mon s) && stopped (mon s) = false.
Proof.
  eexists. split; [reflexivity|]. split; [reflexivity|].
  exact (proj2 (events_exclusive_between_lines (Some [0; 0; 0; 0; 0]) 1
                  [Poll "1 0 0 0 0"; Exec; Exec; Exec;
                   Poll "0 0 0 0 0"; Exec; Exec; Exec] _ eq_refl) eq_refl).
Defined.

(** C10 as stated fails: ARMED, then IDLE; after [self.stopped.set()]
    and before [self.armed.clear()] both events are up. *)
Lemma events_both_set :
  exists s,
    run (init (Some [0; 0; 0; 0; 0]) 0)
        [Poll "1 0 0 0 0"; Exec; Exec; Exec; Poll "0 0 0 0 0"; Exec] = Some s
    /\ armed (mon s) = true /\ stopped (mon s) = true.
Proof. eexists. split; [reflexivity|]. split; reflexivity. Qed.

End StatusmonitorSpec.


(** ** Opening a unit *)
Module Acq400Facts.
Import Acq400.

Example split_sitelist :
  tail (Py.split "," "216,1=480,2=480") = ["1=480"; "2=480"]%string.
Proof. reflexivity. Qed.

Example int_blank_sign : Py.int " -12 " = Ok (-12).
Proof. reflexivity. Qed.

Example int_junk : Py.int "4a" = Raise ValueError.
Proof. reflexivity. Qed.

Example demux_flag : demux_state_of Bench.proxy = Ok 1.
Proof. reflexivity. Qed.

Example open_bench :
  (fun '(o, w) => (dict_of o, connects w, monitors w))
    <$> __init__ Bench.one_out empty_world "acq2106_001" true [2; 1]
  = Ok (0%nat,
        [("acq2106_001", 4220); ("acq2106_001", 4221); ("acq2106_001", 4222);
         ("acq2106_001", 2235)]%string,
        ["acq2106_001"]%string).
Proof. reflexivity. Qed.

Lemma init_site_client_modules e d site :
  modules (init_site_client e d site)
  = match site_answer e site with
    | Resolves k => <[site := MkSite (SITE0 + site) k]> (modules d)
    | _ => modules d
    end.
Proof.
  unfold init_site_client. destruct (site_answer e site); [|done..].
  destruct (awg_site d =? 0); [|done].
  by destruct (knob _ _).
Qed.

Lemma init_site_client_cal e d site :
  cal_eslo (init_site_client e d site) = cal_eslo d
  /\ cal_eoff (init_site_client e d site) = cal_eoff d
  /\ cal_fetches (init_site_client e d site) = cal_fetches d.
Proof.
  unfold init_site_client. destruct (site_answer e site); [|done..].
  destruct (awg_site d =? 0); [|done].
  by destruct (knob _ _).
Qed.

Lemma discovery_cal e order d :
  cal_eslo (foldl (init_site_client e) d order) = cal_eslo d
  /\ cal_eoff (foldl (init_site_client e) d order) = cal_eoff d
  /\ cal_fetches (foldl (init_site_client e) d order) = cal_fetches d.
Proof.
  revert d. induction order as [|x order IH]; intros d; simpl; [done|].
  destruct (IH (init_site_client e d x)) as (-> & -> & ->).
  apply init_site_client_cal.
Qed.

(** after discovery the module map holds the sites that answered, each
    under its own number *)
Lemma discovery_modules e order d site :
  modules (foldl (init_site_client e) d order) !! site
  = match site_answer e site with
    | Resolves k =>
        if bool_decide (site ∈ order) then Some (MkSite (SITE0 + site) k)
        else modules d !! site
    | _ => modules d !! site
    end.
Proof.
  revert d. induction order as [|x order IH]; intros d; simpl.
  - by destruct (site_answer e site).
  - rewrite IH, init_site_client_modules.
    destruct (decide (site = x)) as [->|Hne].
    + destruct (site_answer e x) as [k| |]; [|done..].
      rewrite lookup_insert_eq.
      rewrite (bool_decide_eq_true_2 (x ∈ x :: order)) by left.
      by destruct (bool_decide (x ∈ order)).
    + destruct (site_answer e site) as [k| |].
      * assert (Hiff : site ∈ x :: order <-> site ∈ order).
        { rewrite elem_of_cons. split; [intros [?|?]; done|by right]. }
        rewrite (bool_decide_ext _ _ Hiff).
        destruct (bool_decide (site ∈ order)); [done|].
        destruct (site_answer e x); [|done..]. by rewrite lookup_insert_ne.
      * destruct (site_answer e x); [|done..]. by rewrite lookup_insert_ne.
      * destruct (site_answer e x); [|done..]. by rewrite lookup_insert_ne.
Qed.

Lemma filter_all {A} (P : A -> Prop) `{!forall x, Decision (P x)} (l : list A) :
  (forall x, x ∈ l -> P x) -> filter P l = l.
Proof.
  induction l as [|x l IH]; intros Hall; [done|].
  rewrite filter_cons_True by (apply Hall; left).
  rewrite IH; [done|]. intros y Hy. apply Hall. by right.
Qed.

(** all but one element of a duplicate free list pass the filter *)
Lemma length_filter_all_but {A} (P : A -> Prop) `{!forall x, Decision (P x)}
    (l : list A) (bad : A) :
  NoDup l -> bad ∈ l -> (forall x, x ∈ l -> (~ P x <-> x = bad)) ->
  length (filter P l) = (length l - 1)%nat.
Proof.
  induction l as [|x l IH]; intros Hnd Hbad Honly; [by apply elem_of_nil in Hbad|].
  apply NoDup_cons in Hnd as [Hx Hnd].
  destruct (decide (P x)) as [HP|HP].
  - rewrite filter_cons_True by done. simpl.
    assert (x <> bad).
    { intros ->. by apply (proj2 (Honly bad ltac:(left))). }
    apply elem_of_cons in Hbad as [->|Hbad]; [done|].
    rewrite IH; [| done | done |].
    + destruct l; [by apply elem_of_nil in Hbad|simpl; lia].
    + intros y Hy. apply Honly. by right.
  - rewrite filter_cons_False by done.
    assert (x = bad) as -> by (by apply (Honly x ltac:(left))).
    rewrite filter_all; [simpl; lia|].
    intros y Hy. destruct (decide (P y)) as [|Hn]; [done|].
    apply (Honly y ltac:(by right)) in Hn as ->. done.
Qed.

(** an open never forgets a registered unit, nor touches its dictionary *)
Lemma __init___keeps net w addr monitor order o w' a loc :
  __init__ net w addr monitor order = Ok (o, w') ->
  uuts w !! a = Some loc -> (loc < length (heap w))%nat ->
  uuts w' !! a = Some loc /\ heap w' !! loc = heap w !! loc
  /\ (length (heap w) <= length (heap w'))%nat.
Proof.
  unfold __init__. intros H Ha Hloc.
  destruct (uuts w !! addr) as [l|] eqn:Eaddr.
  - by injection H as <- <-.
  - destruct (site_answer (net addr) 0) as [k0| |]; [|done..].
    destruct (knob _ "SITELIST") as [sitelist|]; [|done]. simpl in H.
    destruct (mapM _ (tail _)) as [declared|]; [|done]. simpl in H.
    destruct (bool_decide _); [|done].
    destruct (knob _ "state") as [state|]; [|done]. simpl in H.
    destruct (mapM _ (Py.split _ state)) as [_status|]; [|done]. simpl in H.
    injection H as <- <-. simpl.
    assert (addr <> a) by congruence.
    rewrite lookup_insert_ne by done. rewrite lookup_app_l by done.
    rewrite length_app. split; [done|]. split; [done|lia].
Qed.

Lemma open_all_keeps net reqs w a loc :
  uuts w !! a = Some loc -> (loc < length (heap w))%nat ->
  uuts (open_all net w reqs) !! a = Some loc
  /\ heap (open_all net w reqs) !! loc = heap w !! loc.
Proof.
  revert w. induction reqs as [|[[addr monitor] order] reqs IH]; intros w Ha Hloc;
    simpl; [done|].
  destruct (__init__ net w addr monitor order) as [[o w']|] eqn:E; [|by apply IH].
  destruct (__init___keeps _ _ _ _ _ _ _ _ _ E Ha Hloc) as (Ha' & Hh & Hlen).
  destruct (IH w' Ha' ltac:(lia)) as [? ?]. split; [done|congruence].
Qed.

(** a freshly built dictionary carries the calibration placeholders *)
Lemma __init___fresh_cal net w addr monitor order o w' :
  uuts w !! addr = None ->
  __init__ net w addr monitor order = Ok (o, w') ->
  exists d, heap w' !! dict_of o = Some d
    /\ cal_eslo d = [PyInt 0] /\ cal_eoff d = [PyInt 0] /\ cal_fetches d = 0%nat.
Proof.
  unfold __init__. intros -> H.
  destruct (site_answer (net addr) 0) as [k0| |]; [|done..].
  destruct (knob _ "SITELIST") as [sitelist|]; [|done]. simpl in H.
  destruct (mapM _ (tail _)) as [declared|]; [|done]. simpl in H.
  destruct (bool_decide _); [|done].
  destruct (knob _ "state") as [state|]; [|done]. simpl in H.
  destruct (mapM _ (Py.split _ state)) as [_status|]; [|done]. simpl in H.
  injection H as <- <-. simpl. eexists. split.
  { by rewrite lookup_app_r, Nat.sub_diag. }
  simpl. apply discovery_cal.
Qed.

(** every open makes a new Python object *)
Lemma __init___oid net w addr monitor order o w' :
  __init__ net w addr monitor order = Ok (o, w') ->
  oid o = next_oid w /\ next_oid w' = S (next_oid w).
Proof.
  unfold __init__. intros H.
  destruct (uuts w !! addr) as [l|].
  - by injection H as <- <-.
  - destruct (site_answer (net addr) 0) as [k0| |]; [|done..].
    destruct (knob _ "SITELIST") as [sitelist|]; [|done]. simpl in H.
    destruct (mapM _ (tail _)) as [declared|]; [|done]. simpl in H.
    destruct (bool_decide _); [|done].
    destruct (knob _ "state") as [state|]; [|done]. simpl in H.
    destruct (mapM _ (Py.split _ state)) as [_status|]; [|done]. simpl in H.
    by injection H as <- <-.
Qed.

Lemma open_all_oid net reqs w : (next_oid w <= next_oid (open_all net w reqs))%nat.
Proof.
  revert w. induction reqs as [|[[addr monitor] order] reqs IH]; intros w; simpl; [done|].
  destruct (__init__ net w addr monitor order) as [[o w']|] eqn:E; [|by apply IH].
  apply __init___oid in E as [_ E]. specialize (IH w'). lia.
Qed.

Lemma site_key_inj (x y : Z) : "s" +:+ pretty x = "s" +:+ pretty y -> x = y.
Proof. intros [= H]. by apply (inj pretty). Qed.

Lemma init_site_client_svc e d site :
  svc (init_site_client e d site)
  = match site_answer e site with
    | Resolves k => <[("s" +:+ pretty site) := MkSite (SITE0 + site) k]> (svc d)
    | _ => svc d
    end.
Proof.
  unfold init_site_client. destruct (site_answer e site); [|done..].
  destruct (awg_site d =? 0); [|done]. by destruct (knob _ "module_name").
Qed.

(** a service registered for a site stays as it is while other threads
    register theirs *)
Lemma init_site_client_svc_kept e d site' site k :
  site_answer e site = Resolves k ->
  svc d !! ("s" +:+ pretty site) = Some (MkSite (SITE0 + site) k) ->
  svc (init_site_client e d site') !! ("s" +:+ pretty site)
  = Some (MkSite (SITE0 + site) k).
Proof.
  intros Ha Hl. rewrite init_site_client_svc.
  destruct (site_answer e site') as [k'| |] eqn:Ea'; [|done..].
  destruct (decide (site' = site)) as [->|Hne].
  - rewrite lookup_insert_eq. congruence.
  - rewrite lookup_insert_ne; [done|]. intros H. by apply site_key_inj in H.
Qed.

Lemma discovery_svc_kept e order d site k :
  site_answer e site = Resolves k ->
  svc d !! ("s" +:+ pretty site) = Some (MkSite (SITE0 + site) k) ->
  svc (foldl (init_site_client e) d order) !! ("s" +:+ pretty site)
  = Some (MkSite (SITE0 + site) k).
Proof.
  intros Ha. revert d. induction order as [|x order IH]; intros d Hl; [done|].
  simpl. by apply IH, init_site_client_svc_kept.
Qed.

(** every thread that ran on a site that answers has left the service of
    the site in [svc] *)
Lemma discovery_svc e order d site k :
  site ∈ order -> site_answer e site = Resolves k ->
  svc (foldl (init_site_client e) d order) !! ("s" +:+ pretty site)
  = Some (MkSite (SITE0 + site) k).
Proof.
  intros Hin Ha. revert d. induction order as [|x order IH]; intros d.
  - by apply elem_of_nil in Hin.
  - simpl. destruct (decide (x = site)) as [->|Hne].
    + apply discovery_svc_kept; [done|].
      by rewrite init_site_client_svc, Ha, lookup_insert_eq.
    + apply IH. apply elem_of_cons in Hin as [->|Hin]; done.
Qed.

End Acq400Facts.

Module Acq400OpenSpec.
Import Acq400 Acq400Facts.

(** C7, as the code has it. The first open of an address connects site
    0, leaves in [svc] and [modules] the service of every site whose
    discovery thread ran and got an answer, starts the monitor on the
    words of [s0.state] and registers the new dictionary under the
    address.  Whatever is opened afterwards, one more open of that
    address makes a new Python object whose [__dict__] is the registered
    dictionary, as it is, and connects nothing and starts no monitor. *)
Theorem open_is_cached net w _uut monitor order o1 w1 :
  uuts w !! _uut = None ->
  __init__ net w _uut monitor order = Ok (o1, w1) ->
  exists k0 d1 state _status,
    site_answer (net _uut) 0 = Resolves k0
    /\ uuts w1 !! _uut = Some (dict_of o1)
    /\ heap w1 !! dict_of o1 = Some d1
    /\ svc d1 !! "s0" = Some (MkSite SITE0 k0)
    /\ (forall site k,
          site ∈ order -> site_answer (net _uut) site = Resolves k ->
          svc d1 !! ("s" +:+ pretty site) = Some (MkSite (SITE0 + site) k)
          /\ modules d1 !! site = Some (MkSite (SITE0 + site) k))
    /\ (forall site, is_Some (modules d1 !! site) ->
          site ∈ order /\ resolves (net _uut) site = true)
    /\ k0 !! "state" = Some state
    /\ mapM Py.int (Py.split " " state) = Ok _status
    /\ statmon d1
       = (if monitor
          then Some (Statusmonitor.Build false (Some _status) false false)
          else None)
    /\ (_uut, SITE0) ∈ connects w1
    /\ (monitor = true -> (_uut, TSTAT) ∈ connects w1)
    /\ monitors w1 = monitors w ++ (if monitor then [_uut] else [])
    /\ forall reqs monitor' order',
         let w2 := open_all net w1 reqs in
         exists o3 w3,
           __init__ net w2 _uut monitor' order' = Ok (o3, w3)
           /\ dict_of o3 = dict_of o1
           /\ heap w3 !! dict_of o3 = Some d1
           /\ heap w3 = heap w2 /\ uuts w3 = uuts w2
           /\ connects w3 = connects w2 /\ monitors w3 = monitors w2
           /\ (oid o1 < oid o3)%nat.
Proof.
  intros Hfresh Hopen.
  destruct (__init___oid _ _ _ _ _ _ _ Hopen) as [Ho1 Hn1].
  pose proof Hopen as Hopen'.
  unfold __init__ in Hopen. rewrite Hfresh in Hopen.
  destruct (site_answer (net _uut) 0) as [k0| |] eqn:E0; [|done..].
  destruct (knob _ "SITELIST") as [sitelist|]; [|done]. simpl in Hopen.
  destruct (mapM _ (tail _)) as [declared|]; [|done]. simpl in Hopen.
  destruct (bool_decide _); [|done].
  unfold knob in Hopen. simpl in Hopen.
  destruct (k0 !! "state") as [state|] eqn:Estate; [|done]. simpl in Hopen.
  destruct (mapM _ (Py.split _ state)) as [_status|] eqn:Estatus; [|done].
  simpl in Hopen. injection Hopen as <- <-.
  set (d0 := MkAttrs _uut 0 None {[ "s0" := MkSite SITE0 k0 ]} ∅ 0
                     [PyInt 0] [PyInt 0] 4000000 0 [] None 0) in *.
  exists k0. eexists. exists state, _status. simpl.
  split; [done|]. split; [by rewrite lookup_insert_eq|].
  split; [by rewrite lookup_app_r, Nat.sub_diag|]. simpl.
  split.
  { apply (discovery_svc_kept (net _uut) order d0 0 k0 E0). apply lookup_singleton_eq. }
  split.
  { intros site k Hin Ha. split; [by apply discovery_svc|].
    by rewrite discovery_modules, Ha, bool_decide_eq_true_2. }
  split.
  { intros site. rewrite discovery_modules. unfold resolves.
    destruct (site_answer (net _uut) site) as [k| |]; simpl;
      rewrite ?lookup_empty; try (by intros [? ?]).
    destruct (bool_decide_reflect (site ∈ order)); [done|].
    rewrite ?lookup_empty. by intros [? ?]. }
  split; [done|]. split; [done|]. split; [done|].
  split; [rewrite elem_of_app; right; left|].
  split.
  { intros ->. rewrite elem_of_app. right. right.
    rewrite elem_of_app. right. left. }
  split; [done|].
  intros reqs monitor' order'.
  match type of Hopen' with _ = Ok (_, ?x) => set (w1 := x) in * end.
  set (w2 := open_all net w1 reqs).
  assert (Hu : uuts w1 !! _uut = Some (length (heap w)))
    by (unfold w1; simpl; by rewrite lookup_insert_eq).
  assert (Hlt : (length (heap w) < length (heap w1))%nat)
    by (unfold w1; simpl; rewrite length_app; simpl; lia).
  destruct (open_all_keeps net reqs w1 _uut (length (heap w)) Hu Hlt) as [Hu2 Hh2].
  fold w2 in Hu2, Hh2.
  pose proof (open_all_oid net reqs w1) as Hmono. fold w2 in Hmono.
  unfold __init__. rewrite Hu2. eexists _, _. split; [reflexivity|]. simpl.
  split; [done|]. split.
  { rewrite Hh2. unfold w1. simpl. by rewrite lookup_app_r, Nat.sub_diag. }
  repeat split; try done; unfold w1 in Hmono; simpl in Hmono; lia.
Qed.

(** C8, as the code has it. With site 0 answering and the declared sites
    parsed, the open succeeds whatever the other sites do: the module map
    holds exactly the declared sites that answered, a site that timed out
    (or refused) is missing from it but still listed in [sites]; with one
    of [K] sites out, [K - 1] modules; with all of them out, none, and
    the open has still succeeded and registered the unit. *)
Theorem open_with_absent_sites net w _uut monitor order k0 sitelist declared
    state _status :
  uuts w !! _uut = None ->
  site_answer (net _uut) 0 = Resolves k0 ->
  k0 !! "SITELIST" = Some sitelist ->
  mapM (fun sm => Py.int (hd EmptyString (Py.split "=" sm)))
       (tail (Py.split "," sitelist)) = Ok declared ->
  NoDup (tail (Py.split "," sitelist)) ->
  NoDup declared ->
  order ≡ₚ declared ->
  k0 !! "state" = Some state ->
  mapM Py.int (Py.split " " state) = Ok _status ->
  exists o w' d,
    __init__ net w _uut monitor order = Ok (o, w')
    /\ uuts w' !! _uut = Some (dict_of o)
    /\ heap w' !! dict_of o = Some d
    /\ sites d = declared
    /\ (forall site, is_Some (modules d !! site)
                     <-> site ∈ declared /\ resolves (net _uut) site = true)
    /\ size (modules d) = length (filter (fun x => resolves (net _uut) x) declared)
    /\ (forall bad, bad ∈ declared ->
          (forall site, site ∈ declared ->
             (resolves (net _uut) site = false <-> site = bad)) ->
          size (modules d) = (length declared - 1)%nat)
    /\ ((forall site, site ∈ declared -> resolves (net _uut) site = false) ->
          modules d = ∅).
Proof.
  intros Hfresh Hs0 Hsl Hdecl Hnd Hndd Hperm Hstate Hstatus.
  set (d0 := MkAttrs _uut 0 None {[ "s0" := MkSite SITE0 k0 ]} ∅ 0
                     [PyInt 0] [PyInt 0] 4000000 0 [] None 0).
  set (d1 := foldl (init_site_client (net _uut)) d0 order).
  assert (Hmod : forall site, is_Some (modules d1 !! site)
                   <-> site ∈ declared /\ resolves (net _uut) site = true).
  { intros site. unfold d1. rewrite discovery_modules. unfold resolves.
    destruct (site_answer (net _uut) site) as [k| |]; simpl;
      rewrite ?lookup_empty; try (split; [by intros [? ?]|by intros [_ ?]]).
    rewrite <- Hperm. destruct (bool_decide_reflect (site ∈ order)).
    - split; [done|by eexists].
    - split; [by intros [? ?]|by intros [? _]]. }
  assert (Hdom : dom (modules d1)
                 = list_to_set (filter (fun x => resolves (net _uut) x) declared)).
  { apply set_eq. intros site.
    rewrite elem_of_dom, Hmod, elem_of_list_to_set, list_elem_of_filter.
    rewrite Is_true_true. tauto. }
  assert (Hsize : size (modules d1)
                  = length (filter (fun x => resolves (net _uut) x) declared)).
  { rewrite <- size_dom, Hdom. apply size_list_to_set. by apply NoDup_filter. }
  eexists _, _, _. split.
  { unfold __init__. rewrite Hfresh, Hs0. unfold knob. simpl.
    rewrite Hsl. simpl. rewrite Hdecl. simpl.
    rewrite bool_decide_eq_true_2 by done.
    rewrite Hstate. simpl. rewrite Hstatus. simpl. reflexivity. }
  simpl. split; [by rewrite lookup_insert_eq|].
  split; [by rewrite lookup_app_r, Nat.sub_diag|].
  split; [done|]. fold d0. fold d1. split; [exact Hmod|]. split; [exact Hsize|].
  split.
  - intros bad Hbad Honly. cbn [modules]. rewrite Hsize.
    apply length_filter_all_but with bad; [done..|].
    intros site Hsite. rewrite <- (Honly site Hsite).
    clear. destruct (resolves (net _uut) site); simpl; intuition discriminate.
  - intros Hnone. cbn [modules]. apply map_empty. intros site.
    apply eq_None_not_Some. rewrite Hmod. intros [Hin Hres].
    by rewrite (Hnone site Hin) in Hres.
Qed.

(** The unit is opened, then another one, then the first again. *)
Lemma open_is_cached_witness :
  exists o1 w1 d1 o3 w3,
    __init__ Bench.one_out empty_world "acq2106_001" true [1; 2] = Ok (o1, w1)
    /\ heap w1 !! dict_of o1 = Some d1
    /\ svc d1 !! "s0" = Some (MkSite SITE0 Bench.s0_knobs)
    /\ svc d1 !! "s1" = Some (MkSite (SITE0 + 1) Bench.s1_knobs)
    /\ modules d1 !! 1 = Some (MkSite (SITE0 + 1) Bench.s1_knobs)
    /\ __init__ Bench.one_out
         (open_all Bench.one_out w1 [("acq2106_002", true, [2; 1])])
         "acq2106_001" true [1; 2] = Ok (o3, w3)
    /\ dict_of o3 = dict_of o1
    /\ heap w3 !! dict_of o3 = Some d1
    /\ connects w3 = connects (open_all Bench.one_out w1 [("acq2106_002", true, [2; 1])])
    /\ monitors w3 = monitors (open_all Bench.one_out w1 [("acq2106_002", true, [2; 1])]).
Proof.
  eexists _, _.
  destruct (open_is_cached Bench.one_out empty_world "acq2106_001" true [1; 2] _ _
              eq_refl eq_refl)
    as (k0 & d1 & state & _status & Hk0 & _ & Hd1 & Hs0 & Hsites & _ & _ & _ & _ & _
        & _ & _ & Hagain).
  injection Hk0 as <-.
  destruct (Hsites 1 Bench.s1_knobs) as [Hs1 Hm1].
  { apply (bool_decide_unpack _). vm_compute. exact I. }
  { reflexivity. }
  destruct (Hagain [("acq2106_002", true, [2; 1])] true [1; 2])
    as (o3 & w3 & Hopen & Hdict & Hheap & _ & _ & Hc & Hm & _).
  exists d1, o3, w3. split; [reflexivity|]. split; [exact Hd1|].
  split; [exact Hs0|]. split; [exact Hs1|]. split; [exact Hm1|].
  split; [exact Hopen|]. split; [exact Hdict|]. split; [exact Hheap|].
  split; [exact Hc|exact Hm].
Defined.

(** C7 as stated fails on "the same instance": the second open of the
    address hands out another object than the first; the two share one
    dictionary. *)
Lemma reopen_is_a_new_object :
  exists o1 w1 o2 w2,
    __init__ Bench.one_out empty_world "acq2106_001" true [1; 2] = Ok (o1, w1)
    /\ __init__ Bench.one_out w1 "acq2106_001" true [1; 2] = Ok (o2, w2)
    /\ oid o2 <> oid o1
    /\ dict_of o2 = dict_of o1.
Proof.
  eexists _, _, _, _. split; [reflexivity|]. split; [reflexivity|].
  split; [discriminate|reflexivity].
Qed.

(** Two declared slots, slot 2 does not answer: one module. *)
Lemma open_with_absent_sites_witness :
  exists o w' d,
    __init__ Bench.one_out empty_world "acq2106_001" true [2; 1] = Ok (o, w')
    /\ heap w' !! dict_of o = Some d
    /\ sites d = [1; 2]
    /\ size (modules d) = 1%nat.
Proof.
  destruct (open_with_absent_sites Bench.one_out empty_world "acq2106_001" true [2; 1]
              Bench.s0_knobs "216,1=480,2=480" [1; 2] "0 0 0 0 0" [0; 0; 0; 0; 0])
    as (o & w' & d & Hopen & _ & Hd & Hsites & _ & Hsize & _).
  - reflexivity.
  - reflexivity.
  - reflexivity.
  - reflexivity.
  - apply (bool_decide_unpack _). vm_compute. exact I.
  - apply (bool_decide_unpack _). vm_compute. exact I.
  - apply perm_swap.
  - reflexivity.
  - reflexivity.
  - exists o, w', d. split; [exact Hopen|]. split; [exact Hd|]. split; [exact Hsites|].
    rewrite Hsize. reflexivity.
Defined.

(** C8 as stated fails: no declared slot answers, and the open succeeds
    all the same and registers the unit with an empty module map. *)
Lemma open_succeeds_with_no_site :
  exists o w' d,
    __init__ Bench.all_out empty_world "acq2106_001" true [1; 2] = Ok (o, w')
    /\ uuts w' !! "acq2106_001" = Some (dict_of o)
    /\ heap w' !! dict_of o = Some d
    /\ modules d = ∅ /\ mod_count d = 0 /\ sites d = [1; 2].
Proof.
  eexists _, _, _. split; [reflexivity|].
  split; [reflexivity|]. split; [reflexivity|].
  split; [reflexivity|]. split; reflexivity.
Qed.

End Acq400OpenSpec.


(** ** Calibration *)
Module CalibrationFacts.
Import Acq400.

Lemma mapM_cons_Ok {A B} (f : A -> result B) x l ys :
  mapM f (x :: l) = Ok ys ->
  exists y ys', f x = Ok y /\ mapM f l = Ok ys' /\ ys = y :: ys'.
Proof.
  simpl. unfold mbind, result_bind. destruct (f x) as [y|]; [|done].
  destruct (mapM f l) as [ys'|]; [|done]. intros [= <-]. eauto.
Qed.

(** with the knobs in order the loop appends, for each aggregator site,
    one scale and one offset per channel *)
Lemma fetch_loop_ok cs d :
  Forall (calibrated (modules d)) cs ->
  exists eslos eoffs,
    fetch_loop d cs
    = (with_cal d (cal_eslo d ++ eslos) (cal_eoff d ++ eoffs) (cal_fetches d), Ok tt)
    /\ forall ns,
         mapM (fun c => module_of (modules d) c ≫= nchan_of) cs = Ok ns ->
         Z.of_nat (length eslos) = sumZ ns /\ Z.of_nat (length eoffs) = sumZ ns.
Proof.
  revert d. induction cs as [|c cs IH]; intros d Hcal.
  - exists [], []. split.
    + simpl. rewrite !app_nil_r. by destruct d.
    + intros ns [= <-]. done.
  - apply Forall_cons in Hcal as [(m & n & eslo & eoff & Hm & Hn & Hs & Ho & Hls & Hlo) Hcal].
    set (d2 := with_cal (with_cal d (cal_eslo d ++ (PyStr <$> eslo)) (cal_eoff d)
                                  (cal_fetches d))
                        (cal_eslo d ++ (PyStr <$> eslo))
                        (cal_eoff d ++ (PyStr <$> eoff)) (cal_fetches d)).
    destruct (IH d2 Hcal) as (eslos & eoffs & Hloop & Hlen).
    exists ((PyStr <$> eslo) ++ eslos), ((PyStr <$> eoff) ++ eoffs). split.
    + cbn [fetch_loop]. rewrite Hm, Hs. cbn [cal_eslo cal_eoff cal_fetches with_cal].
      rewrite Ho. fold d2. rewrite Hloop. unfold d2, with_cal. simpl.
      by rewrite !app_assoc.
    + intros ns Hns. apply mapM_cons_Ok in Hns as (y & ns' & Hy & Hns' & ->).
      rewrite Hm in Hy. simpl in Hy. unfold mbind, result_bind in Hy.
      rewrite Hn in Hy. injection Hy as <-.
      destruct (Hlen ns' Hns') as [He Ho'].
      rewrite !length_app, !length_fmap. simpl. lia.
Qed.

(** once the scale vector has more than its placeholder, [chan2volts]
    reads and leaves everything as it is *)
Lemma chan2volts_populated {F} `{!FloatOps F} d chan raw :
  length (cal_eslo d) <> 1%nat -> chan2volts d chan raw = (d, volts d chan raw).
Proof.
  intros Hlen. unfold chan2volts.
  by destruct (Nat.eqb_spec (length (cal_eslo d)) 1).
Qed.

Lemma chan2volts_all_populated {F} `{!FloatOps F} d calls :
  length (cal_eslo d) <> 1%nat -> chan2volts_all d calls = d.
Proof.
  intros Hlen. induction calls as [|[chan raw] calls IH]; [done|].
  unfold chan2volts_all in *. simpl. by rewrite chan2volts_populated.
Qed.

End CalibrationFacts.

Module CalibrationSpec.
Import Acq400 CalibrationFacts.

(** C9. Once the scale vector holds more than its placeholder, no call
    of [chan2volts] fetches or changes anything: the vectors are populated
    at most once.  On a proxy whose vectors still hold the placeholder
    only, and a unit that keeps its calibration knobs in order with at
    least one channel: the first [chan2volts] runs
    [fetch_all_calibration], once; afterwards both vectors have one entry
    per channel of the aggregate behind the placeholder at index 0; and
    every call, the first one too, returns
    [raw * scale[chan] + offset[chan]] on the vectors so populated. *)
Theorem calibration_lazy_once {F} `{!FloatOps F} (d : attrs) :
  (forall calls1 calls2,
     length (cal_eslo (chan2volts_all d calls1)) <> 1%nat ->
     chan2volts_all (chan2volts_all d calls1) calls2 = chan2volts_all d calls1)
  /\ forall cs total chan raw,
       cal_eslo d = [PyInt 0] ->
       cal_eoff d = [PyInt 0] ->
       get_aggregator_sites d = Ok cs ->
       Forall (calibrated (modules d)) cs ->
       aggregate_nchan d = Ok total ->
       0 < total ->
       exists d1,
         chan2volts d chan raw = (d1, volts d1 chan raw)
         /\ cal_fetches d1 = S (cal_fetches d)
         /\ Z.of_nat (length (cal_eslo d1)) = 1 + total
         /\ Z.of_nat (length (cal_eoff d1)) = 1 + total
         /\ (forall calls chan' raw',
               chan2volts (chan2volts_all d1 calls) chan' raw'
               = (d1, volts d1 chan' raw'))
         /\ (forall chan' raw' scale offset,
               Py.index (cal_eslo d1) chan' ≫= py_float = Ok scale ->
               Py.index (cal_eoff d1) chan' ≫= py_float = Ok offset ->
               volts d1 chan' raw'
               = Ok (fadd (fmul (float_of_int raw') scale) offset)).
Proof.
  split; [intros calls1 calls2 Hne; by apply chan2volts_all_populated|].
  intros cs total chan raw Heslo Heoff Hcs Hcal Htotal Hpos.
  set (d' := with_cal d (cal_eslo d) (cal_eoff d) (S (cal_fetches d))).
  destruct (fetch_loop_ok cs d' Hcal) as (eslos & eoffs & Hloop & Hlen).
  unfold aggregate_nchan in Htotal. rewrite Hcs in Htotal. simpl in Htotal.
  unfold mbind at 1, result_bind in Htotal.
  destruct (mapM _ cs) as [ns|] eqn:Ens; [|done]. injection Htotal as <-.
  destruct (Hlen ns eq_refl) as [Hls Hlo].
  eexists. split; [|split; [|split; [|split; [|split]]]].
  - unfold chan2volts. rewrite Heslo. simpl.
    unfold fetch_all_calibration. fold d'.
    change (get_aggregator_sites d') with (get_aggregator_sites d).
    rewrite Hcs, Hloop. reflexivity.
  - done.
  - simpl. rewrite Heslo, length_app. simpl. lia.
  - simpl. rewrite Heoff, length_app. simpl. lia.
  - intros calls chan' raw'.
    assert (Hne : length (cal_eslo (with_cal d' (cal_eslo d' ++ eslos)
                                             (cal_eoff d' ++ eoffs) (cal_fetches d')))
                  <> 1%nat).
    { simpl. rewrite Heslo, length_app. simpl. lia. }
    rewrite chan2volts_all_populated by done. by apply chan2volts_populated.
  - intros chan' raw' scale offset Hs Ho. unfold volts.
    unfold mbind, result_bind in *. by rewrite Hs, Ho.
Qed.

(** On the bench unit: two channels, scale 2 and 3, offset 5 and 7. *)
Lemma calibration_lazy_once_witness :
  exists d1,
    chan2volts Bench.proxy 2 10 = (d1, Ok 37)
    /\ cal_fetches d1 = 1%nat
    /\ length (cal_eslo d1) = 3%nat
    /\ chan2volts (chan2volts_all d1 [(1, 4); (2, 0)]) 1 10 = (d1, Ok 25).
Proof.
  destruct (proj2 (calibration_lazy_once Bench.proxy) ["1"%string] 2 2 10)
    as (d1 & Hfirst & Hfetch & Hlen & _ & Hlater & _).
  - reflexivity.
  - reflexivity.
  - reflexivity.
  - repeat constructor.
    exists (MkSite (SITE0 + 1) Bench.s1_knobs), 2, ["2"; "3"]%string, ["5"; "7"]%string.
    repeat split; reflexivity.
  - reflexivity.
  - reflexivity.
  - exists d1. split; [|split; [|split]].
    + rewrite Hfirst. f_equal.
      assert (Hd1 : d1 = fst (chan2volts Bench.proxy 2 10)) by (by rewrite Hfirst).
      rewrite Hd1. reflexivity.
    + exact Hfetch.
    + lia.
    + rewrite Hlater. f_equal.
      assert (Hd1 : d1 = fst (chan2volts Bench.proxy 2 10)) by (by rewrite Hfirst).
      rewrite Hd1. reflexivity.
Defined.

End CalibrationSpec.


(** ** Channel data through the proxy *)
Module ReadChannelsFacts.
Import Np NpFacts Sock ChannelClientFacts Acq400.

Lemma default_maxbuf_pos : 0 < ChannelClient.default_maxbuf.
Proof. reflexivity. Qed.

(** the demultiplexed loop: one fixed-count read per channel, each on its
    own port, results in the order of the request *)
Lemma read_each_ok net d chs nsam count w :
  0 < count -> (w = 1 \/ w = 2 \/ w = 4)%nat ->
  Forall (fun ch =>
            nsam_for d ch nsam = Ok count
            /\ chunked (data_stream (net (uut d)) (DATA0 + ch))
            /\ count * Z.of_nat w
               <= Z.of_nat (length (concat (data_stream (net (uut d)) (DATA0 + ch)))))
         chs ->
  exists fuel0, forall fuel, (fuel0 <= fuel)%nat ->
    read_each fuel net d chs nsam (Z.of_nat w)
    = ((fun ch => DATA0 + ch) <$> chs,
       Some (Ok ((fun ch => decode (Z.to_nat count) w
                              (concat (data_stream (net (uut d)) (DATA0 + ch))))
                   <$> chs))).
Proof.
  intros Hcount Hw Hall. induction Hall as [|ch chs (Hn & Hc & Hlen) Hall (fuel2 & IH)].
  - by exists 0%nat.
  - destruct (read_count_enough _ count w ChannelClient.default_maxbuf Hcount Hw
                default_maxbuf_pos Hc Hlen) as (fuel1 & Hread).
    exists (fuel1 `max` fuel2)%nat. intros fuel Hf.
    cbn [read_each]. unfold read_chan. rewrite Hn.
    rewrite Hread by lia. rewrite IH by lia. reflexivity.
Qed.

Lemma axis_index_inside ncol c :
  1 <= c <= ncol -> axis_index ncol c = Ok (Z.to_nat (c - 1)).
Proof.
  intros Hc. unfold axis_index.
  destruct (Z.leb_spec 0 (c - 1)); [|lia].
  by destruct (Z.ltb_spec (c - 1) ncol); [|lia].
Qed.

Lemma mapM_axis_index ncol chs :
  Forall (fun c => 1 <= c <= ncol) chs ->
  mapM (axis_index ncol) chs = Ok ((fun c => Z.to_nat (c - 1)) <$> chs).
Proof.
  induction 1 as [|c chs Hc _ IH]; [done|].
  cbn [mapM]. rewrite axis_index_inside by done. simpl. by rewrite IH.
Qed.

Lemma column_spec data rows ncol j :
  length data = (rows * ncol)%nat -> (j < ncol)%nat ->
  length (column data rows ncol j) = rows
  /\ forall r, (r < rows)%nat ->
       column data rows ncol j !! r = data !! (r * ncol + j)%nat.
Proof.
  intros Hlen Hj. unfold column. split; [by rewrite length_fmap, length_seq|].
  intros r Hr. rewrite list_lookup_fmap, lookup_seq_lt by done. simpl.
  assert (Hlt : (r * ncol + j < length data)%nat) by nia.
  destruct (lookup_lt_is_Some_2 _ _ Hlt) as [x Hx].
  by rewrite Hx, nth_lookup, Hx.
Qed.

(** de-interleaving by stride [ncol], one column per requested channel *)
Lemma demux_columns data ncol rows chs :
  0 < ncol -> length data = (rows * Z.to_nat ncol)%nat -> chs <> [] ->
  Forall (fun c => 1 <= c <= ncol) chs ->
  exists chx,
    demux data ncol chs = Ok chx
    /\ Forall2 (fun c col =>
                  length col = rows
                  /\ forall r, (r < rows)%nat ->
                       col !! r = data !! (r * Z.to_nat ncol + Z.to_nat (c - 1))%nat)
               chs chx.
Proof.
  intros Hncol Hlen Hne Hchs. unfold demux.
  destruct (Z.leb_spec ncol 0); [lia|].
  assert (Hmod : Z.of_nat (length data) mod ncol = 0).
  { rewrite Hlen, Nat2Z.inj_mul, Z2Nat.id by lia. apply Z_mod_mult. }
  rewrite Hmod. simpl. destruct chs as [|c0 chs0] eqn:Echs; [done|].
  rewrite <- Echs in *. clear Echs.
  rewrite mapM_axis_index by done. simpl.
  eexists. split; [destruct chs; [done|reflexivity]|].
  assert (Hrows : (length data / Z.to_nat ncol)%nat = rows).
  { rewrite Hlen. apply Nat.div_mul. lia. }
  rewrite Hrows. rewrite <- list_fmap_compose.
  apply Forall2_fmap_r, Forall_Forall2_diag.
  eapply Forall_impl; [exact Hchs|]. intros c Hc. simpl in Hc |- *.
  apply column_spec; [done|lia].
Qed.

Example demux_rows : demux [1; 2; 3; 4; 5; 6] 2 [2; 1] = Ok [[2; 4; 6]; [1; 3; 5]].
Proof. reflexivity. Qed.

Example demux_ragged : demux [1; 2; 3; 4; 5] 2 [1] = Raise ValueError.
Proof. reflexivity. Qed.

Example demux_last_column : demux [1; 2; 3; 4] 2 [0] = Ok [[2; 4]].
Proof. reflexivity. Qed.

Example read_channels_mux :
  read_channels 3 Bench.shot Bench.proxy_mux (ChSeq [2; 1]) 0
  = ([DATA0 + 0], Some (Ok [[2; 4; 6]; [1; 3; 5]])).
Proof. reflexivity. Qed.

End ReadChannelsFacts.

Module ReadChannelsSpec.
Import Np NpFacts Sock Acq400 ReadChannelsFacts.

(** C5. [read_channels] asks site 0 for the demux flag and branches on
    it.  Flag up: one connection per requested channel, to port
    [DATA0 + ch], each read for [count] items on its own; the result is,
    in the order of the request, the first [count] items of each
    channel's stream, read as little-endian signed integers of the
    device width.  Flag down: one connection, to port [DATA0]; what it
    delivers is cut into rows of [NCHAN] items and the result is, in the
    order of the request, column [c - 1] for each requested channel
    [c]. *)
Theorem read_channels_by_demux net d chs nsam demux_state w :
  data_size_of d = Ok (Z.of_nat w) ->
  demux_state_of d = Ok demux_state ->
  (demux_state <> 0 ->
   forall count, 0 < count ->
     Forall (fun ch =>
               nsam_for d ch nsam = Ok count
               /\ chunked (data_stream (net (uut d)) (DATA0 + ch))
               /\ count * Z.of_nat w
                  <= Z.of_nat (length (concat (data_stream (net (uut d)) (DATA0 + ch)))))
            chs ->
     exists fuel0, forall fuel, (fuel0 <= fuel)%nat ->
       read_channels fuel net d (ChSeq chs) nsam
       = ((fun ch => DATA0 + ch) <$> chs,
          Some (Ok ((fun ch => decode (Z.to_nat count) w
                                 (concat (data_stream (net (uut d)) (DATA0 + ch))))
                      <$> chs))))
  /\ (demux_state = 0 ->
      forall fuel data ncol rows,
        ChannelClient.read fuel (data_stream (net (uut d)) (DATA0 + 0)) nsam
                           (Z.of_nat w) ChannelClient.default_maxbuf
        = Some (Ok data) ->
        nchan d = Ok ncol -> 0 < ncol ->
        length data = (rows * Z.to_nat ncol)%nat ->
        chs <> [] ->
        Forall (fun c => 1 <= c <= ncol) chs ->
        exists chx,
          read_channels fuel net d (ChSeq chs) nsam = ([DATA0 + 0], Some (Ok chx))
          /\ Forall2 (fun c col =>
                        length col = rows
                        /\ forall r, (r < rows)%nat ->
                             col !! r
                             = data !! (r * Z.to_nat ncol + Z.to_nat (c - 1))%nat)
                     chs chx).
Proof.
  intros Hds Hdemux.
  assert (Hw : (w = 1 \/ w = 2 \/ w = 4)%nat).
  { unfold data_size_of in Hds. destruct (s0 d) as [sc|]; [|done]. simpl in Hds.
    destruct (knob sc "data32") as [v|]; [|done]. simpl in Hds.
    injection Hds as Hds. destruct (String.eqb v "1"); lia. }
  split.
  - intros Hon count Hcount Hall.
    destruct (read_each_ok net d chs nsam count w Hcount Hw Hall) as (fuel0 & Hrun).
    exists fuel0. intros fuel Hf. unfold read_channels. rewrite Hds, Hdemux.
    destruct (Z.eqb_spec demux_state 0); [done|]. simpl. by apply Hrun.
  - intros -> fuel data ncol rows Hread Hncol Hpos Hlen Hne Hchs.
    destruct (demux_columns data ncol rows chs Hpos Hlen Hne Hchs) as (chx & Hdm & Hcols).
    exists chx. split; [|done].
    unfold read_channels. rewrite Hds, Hdemux. simpl.
    unfold read_chan, nsam_for. simpl. rewrite Hread, Hncol. simpl. by rewrite Hdm.
Qed.

(** Channels 1 and 2 of a demultiplexed shot of 100 samples of 16 bits;
    channels 2 and 1, in that order, out of three interleaved rows. *)
Lemma read_channels_by_demux_witness :
  (exists fuel0, forall fuel, (fuel0 <= fuel)%nat ->
     read_channels fuel Bench.shot Bench.proxy (ChSeq [1; 2]) 0
     = ([DATA0 + 1; DATA0 + 2],
        Some (Ok [replicate 100 257; replicate 100 513])))
  /\ (exists chx,
        read_channels 3 Bench.shot Bench.proxy_mux (ChSeq [2; 1]) 0
        = ([DATA0 + 0], Some (Ok chx))
        /\ Forall2 (fun c col =>
                      length col = 3%nat
                      /\ forall r, (r < 3)%nat ->
                           col !! r
                           = [1; 2; 3; 4; 5; 6] !! (r * 2 + Z.to_nat (c - 1))%nat)
                   [2; 1] chx).
Proof.
  split.
  - destruct (read_channels_by_demux Bench.shot Bench.proxy [1; 2] 0 1 2
                eq_refl eq_refl) as [Hon _].
    destruct (Hon ltac:(done) 100 ltac:(lia)) as (fuel0 & Hrun).
    + repeat constructor; try discriminate; by vm_compute.
    + exists fuel0. intros fuel Hf. rewrite (Hrun fuel Hf). reflexivity.
  - destruct (read_channels_by_demux Bench.shot Bench.proxy_mux [2; 1] 0 0 2
                eq_refl eq_refl) as [_ Hoff].
    apply (Hoff eq_refl 3%nat [1; 2; 3; 4; 5; 6] 2 3%nat eq_refl eq_refl
             ltac:(lia) eq_refl ltac:(discriminate)).
    repeat constructor; lia.
Defined.

End ReadChannelsSpec.

Module SnapshotFacts.
Import Statusmonitor StatusmonitorInv StatusmonitorFacts Acq400 Snapshot.

Lemma digit_val_range a : is_digit a = true -> 0 <= digit_val a <= 9.
Proof.
  unfold is_digit, digit_val. intros H. apply andb_prop in H as [H1 H2].
  apply Nat.leb_le in H1, H2. lia.
Qed.

Lemma span_digits_all s d t : span_digits s = (d, t) -> all_digits d.
Proof.
  revert d t. induction s as [|a r IH]; intros d t; simpl.
  - intros [= <- <-]. constructor.
  - destruct (is_digit a) eqn:Ea.
    + destruct (span_digits r) as [d' t'] eqn:E. intros [= <- <-].
      constructor; [done|]. by eapply IH.
    + intros [= <- <-]. constructor.
Qed.

Lemma digits_blank_all s d t : digits_blank s = Some (d, t) -> all_digits d.
Proof.
  unfold digits_blank. destruct (span_digits s) as [d' t'] eqn:E.
  destruct d' as [|a d']; [done|]. destruct t' as [|b t']; [done|].
  destruct (Ascii.eqb_spec b " "); [|by repeat case_match].
  subst b. intros [= <- <-]. by eapply span_digits_all.
Qed.

Lemma last_char_digit a d :
  is_digit a = true -> all_digits d -> is_digit (last_char a d) = true.
Proof.
  revert a. induction d as [|b r IH]; intros a Ha Hd; [done|].
  inversion Hd; subst. simpl. by apply IH.
Qed.

Lemma fold_digits_nonneg l acc :
  Forall (fun a => is_digit a = true) l -> 0 <= acc ->
  0 <= fold_left (fun acc a => 10 * acc + digit_val a) l acc.
Proof.
  intros Hl. revert acc. induction Hl as [|a l Ha _ IH]; intros acc Hacc; [done|].
  simpl. apply IH. pose proof (digit_val_range a Ha). lia.
Qed.

Lemma int_digits_nonneg x : all_digits x -> 0 <= int_digits x.
Proof. intros H. by apply fold_digits_nonneg. Qed.

Lemma st_re_match_groups st groups :
  st_re_match st = Some groups -> length groups = 5%nat /\ Forall all_digits groups.
Proof.
  unfold st_re_match. destruct st as [|g1 [|b r1]]; try done.
  destruct (Ascii.eqb_spec b " "); [subst b|by repeat case_match].
  destruct (is_digit g1) eqn:E1; [|done].
  destruct (digits_blank r1) as [[g2 r2]|] eqn:E2; [|done]. simpl.
  destruct (digits_blank r2) as [[g3 r3]|] eqn:E3; [|done]. simpl.
  destruct (digits_blank r3) as [[g4 r4]|] eqn:E4; [|done]. simpl.
  destruct (span_digits r4) as [[|a d] t] eqn:E5; [done|].
  intros [= <-]. split; [done|].
  apply span_digits_all in E5. inversion E5; subst.
  repeat constructor; eauto using digits_blank_all.
  by apply last_char_digit.
Qed.

Lemma st_re_search_groups st groups :
  st_re_search st = Some groups -> length groups = 5%nat /\ Forall all_digits groups.
Proof.
  induction st as [|a r IH].
  - by simpl.
  - cbn [st_re_search]. destruct (st_re_match (String a r)) eqn:E; [|exact IH].
    intros [= <-]. by apply st_re_match_groups in E.
Qed.

(** a line that matches gives a snapshot of five numbers *)
Lemma st_re_search_parsed st groups :
  st_re_search st = Some groups -> parsed (int_digits <$> groups).
Proof.
  intros H. destruct (st_re_search_groups _ _ H) as [Hlen Hall].
  split; [by rewrite length_fmap|]. split.
  - apply Forall_fmap. eapply Forall_impl; [exact Hall|].
    intros x Hx. by apply int_digits_nonneg.
  - destruct (int_digits <$> groups) as [|v l] eqn:E.
    { apply (f_equal length) in E. rewrite length_fmap in E. simpl in E. lia. }
    exists v. split; [done|].
    assert (Hv : (int_digits <$> groups) !! SF_STATE = Some v) by (by rewrite E).
    pose proof (parsed_state_range _ _ _ H Hv). lia.
Qed.

Lemma st_monitor_body_assigns status0 st : assigns_parsed (st_monitor_body status0 st).
Proof.
  unfold st_monitor_body, assigns_parsed.
  destruct (st_re_search st) as [groups|] eqn:E; [|constructor].
  pose proof (st_re_search_parsed _ _ E) as Hp.
  destruct status0 as [status0|]; [|by apply Forall_singleton; intros ? [= <-]].
  destruct (status0 !! SF_STATE) as [s0|]; [|by apply Forall_singleton].
  destruct ((int_digits <$> groups) !! SF_STATE) as [s1|]; [|by apply Forall_singleton].
  repeat case_match;
    repeat (apply Forall_cons; split; [first [done | by intros ? [= <-]]|]);
    by apply Forall_nil.
Qed.

Lemma st_monitor_body_subscripts status0 st :
  (forall l, status0 = Some l -> l <> []) ->
  subscripts_ok (st_monitor_body status0 st).
Proof.
  intros Hne. unfold st_monitor_body, subscripts_ok.
  destruct (st_re_search st) as [groups|] eqn:E; [|constructor].
  destruct (st_re_search_parsed _ _ E) as (_ & _ & v & Hv & _).
  destruct status0 as [status0|]; [|by apply Forall_singleton].
  destruct status0 as [|s0 r]; [by destruct (Hne [] eq_refl)|].
  rewrite Hv. simpl.
  repeat case_match; repeat (apply Forall_cons; split; [done|]); by apply Forall_nil.
Qed.

Lemma shaped_step st0 s l s' : shaped st0 s -> step s l = Some s' -> shaped st0 s'.
Proof.
  intros [Hst Hp] Hstep. destruct l as [st| | |i ev|i]; simpl in Hstep.
  - destruct (alive s), (pend s), (quit_requested (mon s)); try done.
    injection Hstep as <-. split; [done|]. apply st_monitor_body_assigns.
  - destruct (alive s), (pend s), (quit_requested (mon s)); try done.
    injection Hstep as <-. split; [done|]. constructor.
  - destruct (alive s); [|done]. destruct (pend s) as [|o rest] eqn:Ep; [done|].
    injection Hstep as <-. inversion Hp as [|? ? Ho Hrest]; subst.
    destruct o; simpl; try (split; [by destruct (mon s)|done]);
      try (split; [done|constructor]).
    + split; [|done]. right. eexists. split; [done|]. by apply Ho.
  - destruct (waiters s !! i) as [[]|]; try done; by injection Hstep as <-.
  - destruct (waiters s !! i) as [[]|]; try done.
    + destruct (is_set ev (mon s)); by injection Hstep as <-.
    + destruct (quit_requested (mon s)); by injection Hstep as <-.
    + injection Hstep as <-. split; [|done]. by destruct ev, (mon s).
Qed.

Lemma shaped_run st0 n ls s : run (init st0 n) ls = Some s -> shaped st0 s.
Proof.
  apply (run_invariant (shaped st0)); [apply shaped_step|].
  split; [by left|constructor].
Qed.

Lemma parsed_nonempty l : parsed l -> l <> [].
Proof. intros (Hlen & _) ->. done. Qed.

Lemma indexed_step s l s' :
  assigns_parsed (pend s) -> indexed s -> step s l = Some s' -> indexed s'.
Proof.
  intros Hp [Hst Hs] Hstep. destruct l as [st| | |i ev|i]; simpl in Hstep.
  - destruct (alive s), (pend s), (quit_requested (mon s)); try done.
    injection Hstep as <-. split; [done|]. by apply st_monitor_body_subscripts.
  - destruct (alive s), (pend s), (quit_requested (mon s)); try done.
    injection Hstep as <-. split; [done|]. constructor.
  - destruct (alive s); [|done]. destruct (pend s) as [|o rest] eqn:Ep; [done|].
    injection Hstep as <-. inversion Hs as [|? ? Ho Hrest]; subst.
    inversion Hp as [|? ? Hpo _]; subst.
    destruct o; simpl; try (split; [by destruct (mon s)|done]);
      try (split; [done|constructor]).
    + split; [|done]. simpl. intros l [= <-]. by apply parsed_nonempty, Hpo.
  - destruct (waiters s !! i) as [[]|]; try done; by injection Hstep as <-.
  - destruct (waiters s !! i) as [[]|]; try done.
    + destruct (is_set ev (mon s)); by injection Hstep as <-.
    + destruct (quit_requested (mon s)); by injection Hstep as <-.
    + injection Hstep as <-. split; [|done]. by destruct ev, (mon s).
Qed.

Lemma indexed_run st0 n ls s :
  (forall l, st0 = Some l -> l <> []) ->
  run (init st0 n) ls = Some s -> indexed s.
Proof.
  intros Hne Hrun.
  cut (shaped st0 s /\ indexed s); [tauto|].
  revert Hrun.
  apply (run_invariant (fun s => shaped st0 s /\ indexed s)).
  - intros s1 l s2 [Hsh Hi] Hstep. split; [by eapply shaped_step|].
    eapply indexed_step; [apply Hsh|done..].
  - split; [split; [by left|constructor]|]. split; [done|constructor].
Qed.

Lemma split_nonempty sep s : Py.split sep s <> [].
Proof. destruct s as [|a r]; simpl; [done|]. by repeat case_match. Qed.

Lemma mapM_nonempty {A B} (f : A -> result B) l l' :
  mapM f l = Ok l' -> l <> [] -> l' <> [].
Proof.
  destruct l as [|x l]; [done|]. intros H _. cbn [mapM] in H.
  unfold mbind, result_bind in H. destruct (f x); [|done].
  unfold mret, result_ret in H. destruct (mapM f l); [|done]. by injection H as <-.
Qed.

End SnapshotFacts.

Module SnapshotSpec.
Import Statusmonitor StatusmonitorInv StatusmonitorFacts Acq400 Snapshot SnapshotFacts.

(** X1. Once the monitor has replaced the snapshot it was started with,
    the snapshot has exactly five fields.  [state], [pre_samples],
    [post_samples], [elapsed_samples] and [samples] return numbers that
    are not negative, the state a single digit; [demux_status], which
    reads field [SF.DEMUX] = 5, raises IndexError. *)
Theorem demux_status_out_of_range st0 n ls s d :
  run (init st0 n) ls = Some s ->
  status (mon s) <> st0 ->
  demux_status (with_statmon d (mon s)) = Raise IndexError
  /\ exists st pre post elapsed,
       state (with_statmon d (mon s)) = Ok st
       /\ get_state (mon s) = Ok st
       /\ pre_samples (with_statmon d (mon s)) = Ok pre
       /\ post_samples (with_statmon d (mon s)) = Ok post
       /\ elapsed_samples (with_statmon d (mon s)) = Ok elapsed
       /\ samples (with_statmon d (mon s)) = Ok (pre + post)
       /\ 0 <= st <= 9 /\ 0 <= pre /\ 0 <= post /\ 0 <= elapsed.
Proof.
  intros Hrun Hne. destruct (shaped_run _ _ _ _ Hrun) as [[Hst|(l & Hl & Hp)] _]; [done|].
  destruct Hp as (Hlen & Hall & v & Hv & Hv9).
  destruct l as [|a [|b [|c [|e [|f [|g l]]]]]]; try done.
  injection Hv as <-.
  unfold demux_status, state, get_state, pre_samples, post_samples, elapsed_samples,
    samples, pre_samples, post_samples, status_field. simpl. rewrite Hl. simpl.
  split; [done|]. exists a, b, c, e.
  repeat (apply Forall_cons in Hall as [? Hall]).
  repeat split; try done.
Qed.

Lemma demux_status_out_of_range_witness :
  demux_status
    (with_statmon Bench.proxy
       (Build false (Some [1; 0; 100; 0; 1]) false true)) = Raise IndexError.
Proof.
  refine (proj1 (demux_status_out_of_range (Some [0; 0; 0; 0; 0]) 0
                   [Poll "1 0 100 0 1"; Exec; Exec; Exec]
                   (Sys (Build false (Some [1; 0; 100; 0; 1]) false true) [] true 0 1 [])
                   Bench.proxy _ _)).
  - reflexivity.
  - discriminate.
Defined.

(** X2. A monitor started by [Acq400.__init__] on the words of
    [s0.state] never fails a subscript: its snapshot always has a state
    field, so the thread ends only through the fatal block or when
    [quit_requested] is up. *)
Theorem monitor_subscripts_never_fail state0 _status n ls s :
  mapM Py.int (Py.split " " state0) = Ok _status ->
  run (init (Some _status) n) ls = Some s ->
  (RaiseIndexError ∉ pend s)
  /\ exists st, get_state (mon s) = Ok st.
Proof.
  intros Hm Hrun.
  assert (Hne : _status <> []).
  { eapply mapM_nonempty; [exact Hm|]. apply split_nonempty. }
  destruct (indexed_run (Some _status) n ls s) as [Hst Hs]; [by intros ? [= <-]|done|].
  split.
  - intros Hin. unfold subscripts_ok in Hs. rewrite Forall_forall in Hs.
    by apply (Hs RaiseIndexError).
  - destruct (shaped_run _ _ _ _ Hrun) as [[Hs0|(l & Hl & Hp)] _].
    + unfold get_state. rewrite Hs0. destruct _status as [|v r]; [done|]. by exists v.
    + unfold get_state. rewrite Hl. destruct Hp as (_ & _ & v & Hv & _).
      exists v. unfold Py.item. by rewrite Hv.
Qed.

Lemma monitor_subscripts_never_fail_witness :
  (RaiseIndexError ∉ st_monitor_body (Some [0; 0; 0; 0; 0]) "3 1 2 3 4")
  /\ exists st, get_state (Build false (Some [0; 0; 0; 0; 0]) false false) = Ok st.
Proof.
  exact (monitor_subscripts_never_fail "0 0 0 0 0" [0; 0; 0; 0; 0] 0
           [Poll "3 1 2 3 4"]
           (Sys (Build false (Some [0; 0; 0; 0; 0]) false false)
                (st_monitor_body (Some [0; 0; 0; 0; 0]) "3 1 2 3 4") true 0 1 [])
           eq_refl eq_refl).
Defined.

(** X3. Lines that do not match the status pattern are dropped: after
    any run of them the monitor, the events, the snapshot and the
    waiters are as before, and only the count of polls has grown. *)
Theorem noise_lines_change_nothing s lines :
  alive s = true -> pend s = [] -> quit_requested (mon s) = false ->
  Forall (fun st => st_re_search st = None) lines ->
  run s (Poll <$> lines)
  = Some (Sys (mon s) [] true (sigints s) (length lines + polls s) (waiters s)).
Proof.
  intros Ha Hp Hq Hall. revert s Ha Hp Hq.
  induction Hall as [|st lines Hst _ IH]; intros s Ha Hp Hq.
  - simpl. destruct s; simpl in *. by subst.
  - cbn [fmap list_fmap run step]. rewrite Ha, Hp, Hq.
    unfold st_monitor_body. rewrite Hst. rewrite IH by done. simpl.
    do 2 f_equal. lia.
Qed.

Lemma noise_lines_change_nothing_witness :
  run (init (Some [0; 0; 0; 0; 0]) 1) (Poll <$> ["login:"; "3 12 34 56 "; ""]%string)
  = Some (Sys (mon (init (Some [0; 0; 0; 0; 0]) 1)) [] true 0 3 [W_idle]).
Proof.
  apply (noise_lines_change_nothing (init (Some [0; 0; 0; 0; 0]) 1)); try reflexivity.
  repeat constructor.
Defined.

End SnapshotSpec.

Module ProcessMonitorSpec.
Import ProcessMonitor.

(** X4. [ProcessMonitor.st_monitor] hands every polled line to the
    filter up to and including the first line that starts with END,
    raises [quit_requested] on that line and polls no more; without
    such a line every line is passed on and [quit_requested] stays
    down, so [run_mgt] keeps sleeping. *)
Theorem st_monitor_stops_at_END feed :
  let '(seen, quit, unpolled) := st_monitor feed in
  feed = seen ++ unpolled
  /\ (quit = true <-> Exists (fun st => st_re_search st = true) feed)
  /\ (quit = true ->
      exists before st,
        seen = before ++ [st] /\ st_re_search st = true
        /\ Forall (fun x => st_re_search x = false) before)
  /\ (quit = false ->
      unpolled = [] /\ Forall (fun x => st_re_search x = false) seen).
Proof.
  induction feed as [|st rest IH]; simpl.
  - split; [done|]. split; [|split; [done|by split]].
    split; [done|]. by inversion 1.
  - destruct (st_re_search st) eqn:E.
    + split; [done|]. split; [by split; [constructor|]|]. split; [|done].
      intros _. by exists [], st.
    + destruct (st_monitor rest) as [[seen quit] unpolled].
      destruct IH as (Hsplit & Hquit & Hend & Hno).
      split; [by rewrite Hsplit|]. split; [|split].
      * rewrite Hquit. split; [by right|].
        inversion 1; subst; [congruence|done].
      * intros Hq. destruct (Hend Hq) as (before & st' & -> & Hst & Hb).
        exists (st :: before), st'. split; [done|]. split; [done|]. by constructor.
      * intros Hq. destruct (Hno Hq) as [-> Hs]. split; [done|]. by constructor.
Qed.

End ProcessMonitorSpec.

Module KnobsFacts.
Import Acq400 Knobs.

Lemma assign_all d ws :
  Forall (fun w => is_Some (svc d !! w_svc w)) ws -> assign d ws = (ws, Ok tt).
Proof.
  induction 1 as [|w ws [sc Hw] _ IH]; [done|]. simpl. by rewrite Hw, IH.
Qed.

Lemma first_clkdiv_seq hz clk_min a s n :
  match first_clkdiv hz clk_min ((fun i => a + Z.of_nat i) <$> seq s n) with
  | Some clkdiv =>
      a + Z.of_nat s <= clkdiv < a + Z.of_nat s + Z.of_nat n
      /\ clk_min <= hz * clkdiv
      /\ forall j, a + Z.of_nat s <= j < clkdiv -> hz * j < clk_min
  | None => forall j, a + Z.of_nat s <= j < a + Z.of_nat s + Z.of_nat n -> hz * j < clk_min
  end.
Proof.
  unfold fmap.
  revert s. induction n as [|n IH]; intros s; simpl; [lia|].
  destruct (Z.leb_spec clk_min (hz * (a + Z.of_nat s))) as [Hle|Hlt].
  - split; [lia|]. split; [done|]. lia.
  - specialize (IH (S s)).
    destruct (first_clkdiv hz clk_min (list_fmap _ _ _ (seq (S s) n)))
      as [clkdiv|].
    + destruct IH as (Hr & Hm & Hleast). split; [lia|]. split; [done|].
      intros j Hj. destruct (decide (j = a + Z.of_nat s)) as [->|]; [done|].
      apply Hleast. lia.
    + intros j Hj. destruct (decide (j = a + Z.of_nat s)) as [->|]; [done|].
      apply IH. lia.
Qed.

Lemma append_cons c p q : String c p +:+ q = String c (p +:+ q).
Proof. reflexivity. Qed.

Lemma append_nil q : "" +:+ q = q.
Proof. reflexivity. Qed.

Lemma append_assoc a b c : (a +:+ b) +:+ c = a +:+ (b +:+ c).
Proof.
  induction a as [|x a IH]; [done|]. rewrite !append_cons. by rewrite IH.
Qed.

Lemma chars_app a b :
  list_ascii_of_string (a +:+ b) = list_ascii_of_string a ++ list_ascii_of_string b.
Proof.
  induction a as [|c a IH]; [done|]. rewrite append_cons. simpl. by rewrite IH.
Qed.

Lemma pretty_N_char_digit x : Statusmonitor.is_digit (pretty_N_char x) = true.
Proof. unfold pretty_N_char. by repeat case_match. Qed.

(** the decimal digits of a number are put in front of what is there *)
Lemma pretty_N_go_digits x s :
  exists p, pretty_N_go x s = p +:+ s /\ Snapshot.all_digits p.
Proof.
  revert s. induction (N.lt_wf_0 x) as [x _ IH]; intros s.
  destruct (decide (x = 0)%N) as [->|Hx].
  - exists ""%string. split; [done|constructor].
  - rewrite pretty_N_go_step by lia.
    destruct (IH (x `div` 10)%N ltac:(apply N.div_lt; lia)
                 (String (pretty_N_char (x `mod` 10)) s)) as (p & Hgo & Hp).
    exists (p +:+ String (pretty_N_char (x `mod` 10)) EmptyString). split.
    + by rewrite Hgo, append_assoc.
    + unfold Snapshot.all_digits in *. rewrite chars_app. apply Forall_app. split; [done|].
      apply Forall_singleton, pretty_N_char_digit.
Qed.

(** the first digit of a positive number is not 0 *)
Lemma pretty_N_go_head x s :
  (0 < x)%N ->
  exists c rest, pretty_N_go x s = String c rest
    /\ Statusmonitor.is_digit c = true /\ c <> "0"%char.
Proof.
  revert s. induction (N.lt_wf_0 x) as [x _ IH]; intros s Hx.
  rewrite pretty_N_go_step by done.
  destruct (decide (x < 10)%N) as [Hlt|Hge].
  - rewrite N.div_small, pretty_N_go_0, N.mod_small by done.
    eexists _, _. split; [done|]. split; [apply pretty_N_char_digit|].
    assert (x = 1 \/ x = 2 \/ x = 3 \/ x = 4 \/ x = 5 \/ x = 6 \/ x = 7 \/ x = 8 \/ x = 9)%N
      as Hc by lia.
    by destruct Hc as [->|[->|[->|[->|[->|[->|[->|[->| ->]]]]]]]].
  - apply IH; [apply N.div_lt; lia|]. apply N.div_str_pos. lia.
Qed.

Lemma pretty_Z_chars (z : Z) :
  Forall (fun a => Statusmonitor.is_digit a = true \/ a = "-"%char)
         (list_ascii_of_string (pretty z)).
Proof.
  assert (Hpos : forall p, Forall (fun a => Statusmonitor.is_digit a = true \/ a = "-"%char)
                             (list_ascii_of_string (pretty (N.pos p)))).
  { intros p. unfold pretty, pretty_N. rewrite decide_False by done.
    destruct (pretty_N_go_digits (N.pos p) "") as (q & -> & Hq).
    rewrite chars_app, app_nil_r. eapply Forall_impl; [exact Hq|]. by left. }
  destruct z as [|p|p]; unfold pretty, pretty_Z.
  - repeat constructor.
  - apply Hpos.
  - rewrite chars_app. apply Forall_app. split; [by repeat constructor|apply Hpos].
Qed.

(** [Py.after_first] skips a head that lacks the first letter of the
    pattern *)
Lemma after_first_skip a pat head r :
  Forall (fun c => c <> a) (list_ascii_of_string head) ->
  Py.after_first (String a pat) (head +:+ String a pat +:+ r) = Ok r.
Proof.
  intros Hh. induction head as [|c head IH].
  - rewrite append_nil, append_cons. cbn [Py.after_first Py.strip_prefix].
    rewrite Ascii.eqb_refl.
    assert (Hp : forall p s, Py.strip_prefix p (p +:+ s) = Some s).
    { clear. induction p as [|b p IHp]; intros s; [by destruct s|].
      rewrite append_cons. simpl. rewrite Ascii.eqb_refl. apply IHp. }
    by rewrite Hp.
  - inversion Hh as [|? ? Hc Hrest]; subst. rewrite append_cons.
    cbn [Py.after_first Py.strip_prefix].
    destruct (Ascii.eqb_spec a c) as [->|_]; [done|]. by apply IH.
Qed.

Lemma int_digit c :
  Statusmonitor.is_digit c = true ->
  Py.int (String c EmptyString) = Ok (Statusmonitor.digit_val c).
Proof.
  destruct c as [[] [] [] [] [] [] [] []]; try discriminate; reflexivity.
Qed.

Lemma transient_text_split pre post auto_soft_trigger demux :
  exists head,
    transient_text pre post auto_soft_trigger demux
    = head +:+ "DEMUX=" +:+ pretty demux
    /\ Forall (fun c => c <> "D"%char) (list_ascii_of_string head).
Proof.
  exists ("PRE=" +:+ pretty pre +:+ " POST=" +:+ pretty post
          +:+ " SOFT_TRIGGER=" +:+ pretty auto_soft_trigger +:+ " ").
  split.
  - unfold transient_text. by rewrite !append_assoc.
  - assert (Hd : forall z : Z, Forall (fun c => c <> "D"%char) (list_ascii_of_string (pretty z))).
    { intros z. eapply Forall_impl; [apply pretty_Z_chars|].
      intros c [Hc| ->]; [|done]. intros ->. done. }
    rewrite !chars_app. repeat (apply Forall_app; split); try apply Hd;
      simpl; by repeat (apply Forall_cons; split; [done|]).
Qed.

Lemma demux_state_of_with_transient d sc text :
  s0 d = Ok sc ->
  demux_state_of (with_s0_knob d "transient" text)
  = (r ← Py.after_first "DEMUX=" text;
     match r with
     | String c _ => Py.int (String c EmptyString)
     | EmptyString => Raise IndexError
     end).
Proof.
  unfold s0, demux_state_of, with_s0_knob. destruct (svc d !! "s0") as [sc'|] eqn:E; [|done].
  intros _. unfold s0. simpl. rewrite lookup_insert. rewrite decide_True by done. simpl.
  unfold knob. simpl. rewrite lookup_insert. by rewrite decide_True by done.
Qed.

Lemma assign_last d ws w written :
  assign d (ws ++ [w]) = (written, Ok tt) -> last written = Some w.
Proof.
  revert written. induction ws as [|x ws IH]; intros written; simpl.
  - destruct (svc d !! w_svc w); [|done]. by intros [= <-].
  - destruct (svc d !! w_svc x); [|done].
    destruct (assign d (ws ++ [w])) as [wr r] eqn:E. intros [= <- ->].
    specialize (IH _ eq_refl). destruct wr; [done|]. done.
Qed.

End KnobsFacts.

Module KnobsSpec.
Import Acq400 Knobs KnobsFacts.

(** X5. [set_mb_clk] below the lowest master clock: the divider sent to
    site 1 is the least [clkdiv] of 1 .. 1999 with
    [hz*clkdiv >= mb_clk_min], and the master clock is set to
    [hz*clkdiv], less than [hz] above the minimum.  When no such divider
    exists the call raises ValueError, after the clock source has been
    switched. *)
Theorem set_mb_clk_least_divider d hz src fin :
  is_Some (svc d !! "s0") -> is_Some (svc d !! "s1") ->
  hz < mb_clk_min d ->
  (0 < hz -> mb_clk_min d <= 1999 * hz ->
   exists clkdiv,
     1 <= clkdiv <= 1999
     /\ mb_clk_min d <= hz * clkdiv < mb_clk_min d + hz
     /\ (forall j, 1 <= j < clkdiv -> hz * j < mb_clk_min d)
     /\ set_mb_clk d hz src fin
        = (clk_source src fin
           ++ [MkWrite "s0" "SIG_CLK_MB_SET" (PyInt (hz * clkdiv));
               MkWrite "s1" "CLKDIV" (PyInt clkdiv)], Ok tt))
  /\ (hz <= 0 \/ 1999 * hz < mb_clk_min d ->
      set_mb_clk d hz src fin = (clk_source src fin, Raise ValueError)).
Proof.
  intros Hs0 Hs1 Hlow.
  assert (Hsrc : assign d (clk_source src fin) = (clk_source src fin, Ok tt)).
  { apply assign_all. unfold clk_source.
    repeat case_match; repeat (apply Forall_cons; split; [done|]); by apply Forall_nil. }
  pose proof (first_clkdiv_seq hz (mb_clk_min d) 1 0 1999) as Hdiv.
  unfold set_mb_clk. rewrite Hsrc.
  destruct (Z.leb_spec (mb_clk_min d) hz); [lia|].
  change (range 1 2000) with ((fun i => 1 + Z.of_nat i) <$> seq 0 1999).
  destruct (first_clkdiv hz (mb_clk_min d) ((fun i => 1 + Z.of_nat i) <$> seq 0 1999))
    as [clkdiv|].
  - destruct Hdiv as (Hr & Hm & Hleast). split.
    + intros Hpos _. exists clkdiv. split; [lia|]. split; [|split].
      * split; [done|]. destruct (decide (clkdiv = 1)) as [->|]; [lia|].
        specialize (Hleast (clkdiv - 1)). lia.
      * intros j Hj. apply Hleast. lia.
      * rewrite assign_all; [done|]. by repeat (apply Forall_cons; split; [done|]).
    + intros [Hz|Hbig]; [nia|]. specialize (Hleast 1). nia.
  - split; [|done]. intros Hpos Hfit. specialize (Hdiv 1999). lia.
Qed.

Lemma set_mb_clk_least_divider_witness :
  exists clkdiv,
    1 <= clkdiv <= 1999
    /\ mb_clk_min Bench.proxy <= 1500000 * clkdiv < mb_clk_min Bench.proxy + 1500000
    /\ (forall j, 1 <= j < clkdiv -> 1500000 * j < mb_clk_min Bench.proxy)
    /\ set_mb_clk Bench.proxy 1500000 "zclk" 1000000
       = (clk_source "zclk" 1000000
          ++ [MkWrite "s0" "SIG_CLK_MB_SET" (PyInt (1500000 * clkdiv));
              MkWrite "s1" "CLKDIV" (PyInt clkdiv)], Ok tt).
Proof.
  apply (set_mb_clk_least_divider Bench.proxy 1500000 "zclk" 1000000);
    [by eexists | by eexists | reflexivity | reflexivity | discriminate].
Defined.

(** X6. The text [configure_transient] writes to [s0.transient], read
    back by [get_demux_state] / [read_channels]: a [demux] of 0 .. 9
    comes back as it was set, a larger one as its first digit only, and
    a negative one makes the reader raise ValueError. *)
Theorem transient_demux_round_trip d pre post sig_DX auto_soft_trigger demux edge written :
  configure_transient d pre post sig_DX auto_soft_trigger demux edge = (written, Ok tt) ->
  exists text,
    last written = Some (MkWrite "s0" "transient" (PyStr text))
    /\ (0 <= demux <= 9 ->
        demux_state_of (with_s0_knob d "transient" text) = Ok demux)
    /\ (10 <= demux ->
        exists v, demux_state_of (with_s0_knob d "transient" text) = Ok v
                  /\ 1 <= v <= 9)
    /\ (demux < 0 ->
        demux_state_of (with_s0_knob d "transient" text) = Raise ValueError).
Proof.
  unfold configure_transient. destruct (s0 d) as [sc|] eqn:Es0; [|done]. simpl.
  destruct (knob sc "sync_role") as [role|]; [|done].
  destruct (Py.item _ 1) as [line|]; [|done].
  intros Hw. exists (transient_text pre post auto_soft_trigger demux).
  split; [by apply assign_last in Hw|].
  destruct (transient_text_split pre post auto_soft_trigger demux) as (head & Ht & Hhead).
  rewrite (demux_state_of_with_transient d sc) by done. rewrite Ht.
  change ("DEMUX=" +:+ pretty demux)%string
    with (String "D" "EMUX=" +:+ pretty demux)%string.
  rewrite (after_first_skip "D" "EMUX=" head (pretty demux) Hhead). simpl.
  split; [|split].
  - intros Hd.
    assert (demux = 0 \/ demux = 1 \/ demux = 2 \/ demux = 3 \/ demux = 4 \/ demux = 5
            \/ demux = 6 \/ demux = 7 \/ demux = 8 \/ demux = 9) as Hc by lia.
    by destruct Hc as [->|[->|[->|[->|[->|[->|[->|[->|[->| ->]]]]]]]]].
  - intros Hd. destruct demux as [|p|p]; try lia.
    unfold pretty, pretty_Z, pretty, pretty_positive, pretty, pretty_N.
    rewrite decide_False by done.
    destruct (pretty_N_go_head (N.pos p) "" ltac:(lia)) as (c & rest & -> & Hc & Hnz).
    rewrite int_digit by done. eexists. split; [done|].
    destruct c as [[] [] [] [] [] [] [] []]; try discriminate; try done;
      unfold Statusmonitor.digit_val; simpl; lia.
  - intros Hd. destruct demux as [|p|p]; try lia. reflexivity.
Qed.

Lemma transient_demux_round_trip_witness :
  exists text,
    last [MkWrite "s1" "event0" (PyStr "0,0,0"); MkWrite "s1" "trg" (PyStr "1,0,1");
          MkWrite "s0" "transient" (PyStr "PRE=0 POST=100000 SOFT_TRIGGER=0 DEMUX=1")]
    = Some (MkWrite "s0" "transient" (PyStr text))
    /\ (0 <= 1 <= 9 ->
        demux_state_of (with_s0_knob (with_s0_knob Bench.proxy "sync_role" "master")
                                     "transient" text) = Ok 1)
    /\ (10 <= 1 ->
        exists v, demux_state_of (with_s0_knob (with_s0_knob Bench.proxy "sync_role" "master")
                                               "transient" text) = Ok v
                  /\ 1 <= v <= 9)
    /\ (1 < 0 ->
        demux_state_of (with_s0_knob (with_s0_knob Bench.proxy "sync_role" "master")
                                     "transient" text) = Raise ValueError).
Proof.
  apply (transient_demux_round_trip (with_s0_knob Bench.proxy "sync_role" "master")
           0 100000 "d0" 0 1 "rising").
  reflexivity.
Defined.

(** X7. [configure_transient] reads [s0.sync_role] and then tests it
    for being 'role not set' and 'slave' at once, which no text is: what
    is written does not depend on the role the unit reports. *)
Theorem configure_transient_ignores_sync_role d role role' pre post sig_DX
    auto_soft_trigger demux edge :
  is_Some (svc d !! "s0") ->
  configure_transient (with_s0_knob d "sync_role" role)
                      pre post sig_DX auto_soft_trigger demux edge
  = configure_transient (with_s0_knob d "sync_role" role')
                        pre post sig_DX auto_soft_trigger demux edge.
Proof.
  intros [sc Hsc].
  assert (Hdead : forall r, String.eqb r "role not set" && String.eqb r "slave" = false).
  { intros r. destruct (String.eqb_spec r "role not set") as [->|]; done. }
  assert (Hassign : forall ws, assign (with_s0_knob d "sync_role" role) ws
                               = assign (with_s0_knob d "sync_role" role') ws).
  { induction ws as [|w ws IH]; [done|]. simpl. rewrite IH.
    unfold with_s0_knob. rewrite Hsc. simpl.
    destruct (decide (w_svc w = "s0")) as [->|Hne].
    - by rewrite !lookup_insert, !decide_True by done.
    - by rewrite !lookup_insert_ne by done. }
  unfold configure_transient.
  assert (Hrole : forall r, s0 (with_s0_knob d "sync_role" r) ≫= (fun sc => knob sc "sync_role")
                            = Ok r).
  { intros r. unfold s0, with_s0_knob. rewrite Hsc. simpl.
    rewrite lookup_insert, decide_True by done. simpl. unfold knob. simpl.
    by rewrite lookup_insert, decide_True by done. }
  rewrite !Hrole, !Hdead. destruct (Py.item _ 1); [|done]. apply Hassign.
Qed.

Lemma configure_transient_ignores_sync_role_witness :
  configure_transient (with_s0_knob Bench.proxy "sync_role" "slave")
                      0 100000 "d1" 0 1 "rising"
  = configure_transient (with_s0_knob Bench.proxy "sync_role" "master")
                        0 100000 "d1" 0 1 "rising".
Proof.
  apply (configure_transient_ignores_sync_role Bench.proxy "slave" "master").
  by eexists.
Defined.

End KnobsSpec.

Module StlFacts.
Import Sock SockFacts Acq400 Stl.

Lemma recv_small ch rest bufsize :
  0 <= bufsize -> Z.of_nat (length ch) <= bufsize ->
  recv (ch :: rest) bufsize = Ok (ch, rest).
Proof.
  intros Hb Hlen. unfold recv. destruct (Z.ltb_spec bufsize 0); [lia|].
  by destruct (Z.leb_spec (Z.of_nat (length ch)) bufsize); [|lia].
Qed.

(** what is sent is the kept lines, whatever comes back *)
Lemma send_lines_sent wait_eol c lines :
  (send_lines wait_eol c lines).1
  = (fun ll => ll +:+ String "010" EmptyString) <$> List.filter kept lines.
Proof.
  revert c. induction lines as [|ll rest IH]; intros c; [done|].
  cbn [send_lines List.filter]. unfold kept.
  destruct (String.length ll <? 2)%nat; [apply IH|].
  destruct (String.prefix "#" ll); [apply IH|]. simpl.
  match goal with |- context [send_lines wait_eol ?c' rest] =>
    specialize (IH c'); destruct (send_lines wait_eol c' rest) end.
  simpl in *. by rewrite IH.
Qed.

(** with [wait_eol] every line sent takes one reply off the stream *)
Lemma send_lines_left wait_eol c lines :
  Forall (fun ch => Z.of_nat (length ch) <= 4096) c ->
  (send_lines wait_eol c lines).2
  = if wait_eol then drop (length (List.filter kept lines)) c else c.
Proof.
  revert c. induction lines as [|ll rest IH]; intros c Hc.
  - by destruct wait_eol.
  - cbn [send_lines List.filter]. unfold kept.
    destruct (String.length ll <? 2)%nat; [by apply IH|].
    destruct (String.prefix "#" ll); [by apply IH|]. simpl.
    destruct wait_eol.
    + destruct c as [|ch c'].
      * simpl. specialize (IH [] Hc). destruct (send_lines true [] rest).
        simpl in *. rewrite IH. by rewrite drop_nil.
      * inversion Hc; subst. rewrite recv_small by (done || lia).
        specialize (IH c' ltac:(done)). destruct (send_lines true c' rest).
        simpl in *. by rewrite IH.
    + specialize (IH c Hc). destruct (send_lines false c rest). simpl in *. by rewrite IH.
Qed.

Lemma await_eof_found c :
  Forall (fun ch => Z.of_nat (length ch) <= 4096) c ->
  Exists (fun ch => occurs EOF ch = true) c ->
  exists fuel0, forall fuel, (fuel0 <= fuel)%nat -> await_eof fuel c = Some tt.
Proof.
  intros Hc Hex. induction Hex as [ch rest Hch|ch rest _ IH].
  - exists 1%nat. intros [|fuel] Hf; [lia|]. inversion Hc; subst. simpl.
    rewrite recv_small by (done || lia). by rewrite Hch.
  - inversion Hc; subst. destruct (IH ltac:(done)) as (fuel0 & Hrun).
    exists (S fuel0). intros [|fuel] Hf; [lia|]. simpl.
    rewrite recv_small by (done || lia).
    destruct (occurs EOF ch); [done|]. apply Hrun. lia.
Qed.

Lemma await_eof_never fuel c :
  Forall (fun ch => Z.of_nat (length ch) <= 4096) c ->
  Forall (fun ch => occurs EOF ch = false) c ->
  await_eof fuel c = None.
Proof.
  revert c. induction fuel as [|fuel IH]; intros c Hc Hno; [done|].
  destruct c as [|ch rest].
  - simpl. by apply IH.
  - inversion Hc; inversion Hno; subst. simpl.
    rewrite recv_small by (done || lia).
    match goal with H : occurs EOF ch = false |- _ => rewrite H end. by apply IH.
Qed.

Example occurs_inside : occurs EOF [x3e; x45; x4f; x46; x0a] = true.
Proof. reflexivity. Qed.

Example load_gpg_returns :
  load_gpg 1 PgBench.unit Bench.proxy PgBench.ramp
  = (GPGSTL,
     ["0,1" +:+ PgBench.nl; "   " +:+ PgBench.nl; "100,0" +:+ PgBench.nl;
      "EOF" +:+ PgBench.nl],
     Some tt).
Proof. reflexivity. Qed.

Example load_wrpg_split_EOF fuel :
  (load_wrpg fuel PgBench.unit Bench.proxy "").2 = None.
Proof.
  apply await_eof_never;
    repeat (apply Forall_cons; split; [by vm_compute|]); by apply Forall_nil.
Qed.

Example load_dpg_port : (load_dpg 0 PgBench.unit Bench.proxy "").1.1 = DPGSTL.
Proof. reflexivity. Qed.

End StlFacts.

Module StlSpec.
Import Sock SockFacts Acq400 Stl StlFacts.

(** X8. [load_stl] sends, in order, every line of the text that has at
    least two characters and does not start with #, each with its
    newline, and then EOF; this holds whatever the unit replies, with
    or without the waits. *)
Theorem load_stl_sends_kept_lines fuel net d stl port wait_eof wait_eol :
  (load_stl fuel net d stl port wait_eof wait_eol).1
  = (port,
     ((fun ll => ll +:+ String "010" EmptyString)
        <$> List.filter kept (Py.split "010" stl))
     ++ ["EOF" +:+ String "010" EmptyString]).
Proof.
  unfold load_stl.
  pose proof (send_lines_sent wait_eol (data_stream (net (uut d)) port)
                (Py.split "010" stl)) as Hs.
  destruct (send_lines wait_eol _ _) as [sent c]. simpl in *. by rewrite Hs.
Qed.

(** X9. With [wait_eof], [load_stl] looks for EOF inside each reply of
    one [recv(4096)] on its own.  With replies of at most 4096 bytes it
    returns when one reply left after the line echoes holds the three
    letters, and never returns otherwise, also when the letters arrive
    split over two replies or the unit closes the connection. *)
Theorem load_stl_wants_EOF_in_one_reply (net : network) (d : attrs) (stl : string)
    (port : Z) (wait_eol : bool) :
  let c := data_stream (net (uut d)) port in
  let replies :=
    if wait_eol then drop (length (List.filter kept (Py.split "010" stl))) c else c in
  Forall (fun ch => Z.of_nat (length ch) <= 4096) c ->
  (Exists (fun ch => occurs EOF ch = true) replies ->
   exists fuel0, forall fuel, (fuel0 <= fuel)%nat ->
     (load_stl fuel net d stl port true wait_eol).2 = Some tt)
  /\ (Forall (fun ch => occurs EOF ch = false) replies ->
      forall fuel, (load_stl fuel net d stl port true wait_eol).2 = None).
Proof.
  intros c replies Hc.
  pose proof (send_lines_left wait_eol c (Py.split "010" stl) Hc) as Hleft.
  fold replies in Hleft.
  assert (Hsmall : Forall (fun ch => Z.of_nat (length ch) <= 4096) replies).
  { unfold replies. destruct wait_eol; [|done]. by apply Forall_drop. }
  unfold load_stl. fold c. destruct (send_lines wait_eol c _) as [sent c']. simpl in *.
  subst c'. split.
  - intros Hex. by apply await_eof_found.
  - intros Hno fuel. by apply await_eof_never.
Qed.

Lemma load_stl_wants_EOF_in_one_reply_witness :
  (Exists (fun ch => occurs EOF ch = true) [[x45; x4f]; [x46; x0a]] ->
   exists fuel0, forall fuel, (fuel0 <= fuel)%nat ->
     (load_stl fuel PgBench.unit Bench.proxy "" WRPG true true).2 = Some tt)
  /\ (Forall (fun ch => occurs EOF ch = false) [[x45; x4f]; [x46; x0a]] ->
      forall fuel, (load_stl fuel PgBench.unit Bench.proxy "" WRPG true true).2 = None).
Proof.
  apply (load_stl_wants_EOF_in_one_reply PgBench.unit Bench.proxy "" WRPG true).
  change (Forall (fun ch => Z.of_nat (length ch) <= 4096) [[x45; x4f]; [x46; x0a]]).
  repeat (apply Forall_cons; split; [by vm_compute|]). by apply Forall_nil.
Defined.

End StlSpec.

Module AwgFacts.
Import Sock SockFacts Acq400 Awg.

Lemma send_repeats_count data n fuel :
  (n <= fuel)%nat -> send_repeats fuel data (Z.of_nat n) = Some (replicate n data).
Proof.
  revert fuel. induction n as [|n IH]; intros fuel Hf.
  - by destruct fuel.
  - destruct fuel as [|fuel]; [lia|]. cbn [send_repeats].
    destruct (Z.eqb_spec (Z.of_nat (S n)) 0); [lia|].
    replace (Z.of_nat (S n) - 1) with (Z.of_nat n) by lia.
    by rewrite IH by lia.
Qed.

Lemma send_repeats_negative data repeats fuel :
  repeats < 0 -> send_repeats fuel data repeats = None.
Proof.
  revert repeats. induction fuel as [|fuel IH]; intros repeats Hr; simpl.
  - by destruct (Z.eqb_spec repeats 0); [lia|].
  - destruct (Z.eqb_spec repeats 0); [lia|]. by rewrite IH by lia.
Qed.

(** the wait for DONE ends with the stream, if not before *)
Lemma await_done_ends c :
  exists fuel0, forall fuel, (fuel0 <= fuel)%nat -> await_done fuel c = Some tt.
Proof.
  remember (length (concat c)) as n eqn:Hn. revert c Hn.
  induction (lt_wf n) as [n _ IH]. intros c ->.
  destruct (recv_concat c 128 ltac:(lia)) as (rx & c' & Hr & Hsplit).
  destruct rx as [|b rx].
  - exists 1%nat. intros [|fuel] Hf; [lia|]. simpl. by rewrite Hr.
  - destruct (IH (length (concat c'))) with (c := c') as (fuel0 & Hrun); [|done|].
    { rewrite Hsplit, length_app. simpl. lia. }
    exists (S fuel0). intros [|fuel] Hf; [lia|]. simpl. rewrite Hr.
    destruct (_ || _); [done|]. apply Hrun. lia.
Qed.

Example load_awg_once :
  load_awg 2 PgBench.unit Bench.proxy [x01; x02] false false 2
  = Some (Loaded AWG_ONCE [[x01; x02]; [x01; x02]]).
Proof. reflexivity. Qed.

Example load_awg_refused :
  load_awg 0 PgBench.unit PgBench.ao_opened [x01; x02] false false 1 = Some AwgBusyError.
Proof. reflexivity. Qed.

End AwgFacts.

Module AwgSpec.
Import Sock SockFacts Acq400 Awg AwgFacts.

(** X10. [load_awg] raises AwgBusyError exactly when discovery found a
    waveform generator ([awg_site > 0]) and that module reports
    [task_active] as '1'; the test comes before any connection, so
    nothing is sent to a busy generator. *)
Theorem load_awg_busy_iff fuel net d data autorearm continuous repeats :
  load_awg fuel net d data autorearm continuous repeats = Some AwgBusyError
  <-> (0 < awg_site d
       /\ exists m, modules d !! awg_site d = Some m
                    /\ knob m "task_active" = Ok "1"%string).
Proof.
  unfold load_awg, busy. split.
  - destruct (Z.ltb_spec 0 (awg_site d)).
    + destruct (modules d !! awg_site d) as [m|]; [|done].
      destruct (knob m "task_active") as [v|] eqn:E; [|done]. simpl.
      destruct (String.eqb_spec v "1") as [->|]; [by intros _; eauto|].
      by repeat case_match.
    + by repeat case_match.
  - intros (Hpos & m & Hm & Hk).
    destruct (Z.ltb_spec 0 (awg_site d)); [|lia]. by rewrite Hm, Hk.
Qed.

(** X11. A generator that is not busy gets the data [repeats] times on
    the port for the mode (continuous before autorearm before once);
    the wait for DONE ends at the latest when the unit closes the
    connection.  With [repeats] negative the sending loop never ends. *)
Theorem load_awg_sends_repeats net d data autorearm continuous repeats :
  busy d = Ok false ->
  (0 <= repeats ->
   exists fuel0, forall fuel, (fuel0 <= fuel)%nat ->
     load_awg fuel net d data autorearm continuous repeats
     = Some (Loaded (if continuous then 54205 else if autorearm then 54202 else 54201)
                    (replicate (Z.to_nat repeats) data)))
  /\ (repeats < 0 ->
      forall fuel, load_awg fuel net d data autorearm continuous repeats = None).
Proof.
  intros Hb. unfold load_awg. rewrite Hb. split.
  - intros Hr.
    destruct (await_done_ends (data_stream (net (uut d)) (awg_port autorearm continuous)))
      as (fuel0 & Hdone).
    exists (Z.to_nat repeats `max` fuel0)%nat. intros fuel Hf.
    rewrite <- (Z2Nat.id repeats) at 1 by done.
    rewrite send_repeats_count by lia. rewrite Hdone by lia.
    by destruct continuous, autorearm.
  - intros Hr fuel. by rewrite send_repeats_negative.
Qed.

Lemma load_awg_sends_repeats_witness :
  (0 <= 3 ->
   exists fuel0, forall fuel, (fuel0 <= fuel)%nat ->
     load_awg fuel PgBench.unit Bench.proxy [x01; x02] true false 3
     = Some (Loaded 54202 (replicate (Z.to_nat 3) [x01; x02])))
  /\ (3 < 0 ->
      forall fuel, load_awg fuel PgBench.unit Bench.proxy [x01; x02] true false 3 = None).
Proof.
  apply (load_awg_sends_repeats PgBench.unit Bench.proxy [x01; x02] true false 3).
  reflexivity.
Defined.

End AwgSpec.

Module MuxedFacts.
Import Np NpFacts Sock SockFacts ChannelClient ChannelClientFacts Acq400
  ReadChannelsFacts Muxed.

(** the open-ended read hands the whole stream to [np.frombuffer] *)
Lemma read_all c w maxbuf :
  (w = 1 \/ w = 2 \/ w = 4)%nat -> 0 < maxbuf -> chunked c ->
  exists fuel0, forall fuel, (fuel0 <= fuel)%nat ->
    read fuel c (-1) (Z.of_nat w) maxbuf = Some (frombuffer (concat c) w (-1)).
Proof.
  intros Hw Hb Hc.
  destruct (recv_concat c maxbuf ltac:(lia)) as (d & c' & Hr & Hsplit).
  assert (Hc' : chunked c').
  { destruct c as [|ch rest].
    - rewrite recv_closed in Hr by lia. injection Hr as <- <-. constructor.
    - by eapply recv_keeps_chunked. }
  destruct (read_to_end_all c' maxbuf d w Hb Hc') as (fuel0 & Hrun).
  exists fuel0. intros fuel Hf.
  unfold read. rewrite (_dtypes_width w Hw), Hr. simpl. rewrite Hrun by done.
  by rewrite <- Hsplit.
Qed.

Lemma data_size_of_width d w :
  data_size_of d = Ok (Z.of_nat w) -> (w = 2 \/ w = 4)%nat.
Proof.
  unfold data_size_of. destruct (s0 d) as [sc|]; [|done]. simpl.
  destruct (knob sc "data32") as [v|]; [|done]. simpl.
  destruct (String.eqb v "1"); intros [= H]; lia.
Qed.

Lemma stream_from_small c recvlen fuel :
  0 < recvlen -> chunked c -> Forall (fun ch => Z.of_nat (length ch) <= recvlen) c ->
  (length c < fuel)%nat -> stream_from fuel c recvlen = Some (Ok c).
Proof.
  intros Hr Hc Hs. revert fuel. induction Hs as [|ch rest Hch _ IH]; intros fuel Hf.
  - destruct fuel; [simpl in Hf; lia|]. simpl. by rewrite recv_closed by lia.
  - destruct fuel as [|fuel]; [simpl in Hf; lia|]. inversion Hc; subst. simpl.
    unfold recv. destruct (Z.ltb_spec recvlen 0); [lia|].
    destruct (Z.leb_spec (Z.of_nat (length ch)) recvlen); [|lia].
    destruct ch as [|b ch]; [done|]. rewrite IH; [done|done|simpl in Hf; lia].
Qed.

Lemma stream_from_all c recvlen :
  0 < recvlen -> chunked c ->
  exists fuel0 chunks,
    (forall fuel, (fuel0 <= fuel)%nat -> stream_from fuel c recvlen = Some (Ok chunks))
    /\ concat chunks = concat c
    /\ Forall (fun ch => ch <> [] /\ Z.of_nat (length ch) <= recvlen) chunks.
Proof.
  intros Hr. remember (length (concat c)) as n eqn:Hn. revert c Hn.
  induction (lt_wf n) as [n _ IH]. intros c -> Hc.
  destruct c as [|ch rest].
  - exists 1%nat, []. split; [|by split].
    intros [|fuel] Hf; [lia|]. simpl. by rewrite recv_closed by lia.
  - destruct (recv_chunked (ch :: rest) recvlen Hr Hc ltac:(done))
      as (d & c' & Hrecv & Hd & Hc' & Hsplit & Hlt).
    destruct (IH _ Hlt c' eq_refl Hc') as (fuel0 & chunks & Hrun & Hcat & Hall).
    exists (S fuel0), (d :: chunks). split; [|split].
    + intros [|fuel] Hf; [lia|]. simpl. rewrite Hrecv.
      destruct d as [|b d]; [done|]. by rewrite Hrun by lia.
    + rewrite Hsplit. simpl. by rewrite Hcat.
    + constructor; [|done]. split; [done|].
      unfold recv in Hrecv. destruct (Z.ltb_spec recvlen 0); [lia|].
      destruct (Z.leb_spec (Z.of_nat (length ch)) recvlen).
      * by injection Hrecv as <- <-.
      * injection Hrecv as <- <-. rewrite length_take. lia.
Qed.

Example stream_cuts :
  stream 4 PgBench.live Bench.proxy 2 = Some (Ok [[x01; x02]; [x03]; [x04; x05]]).
Proof. reflexivity. Qed.

Example read_muxed_data_bench :
  read_muxed_data 3 Bench.shot Bench.proxy_mux = ([DATA0], Some (Ok [2; 4; 6])).
Proof. reflexivity. Qed.

Example read_muxed_data_demux_on :
  read_muxed_data 3 Bench.shot Bench.proxy = ([DATA0], Some (Ok [1; 2; 3; 4; 5; 6])).
Proof. reflexivity. Qed.

End MuxedFacts.

Module MuxedSpec.
Import Np NpFacts Sock SockFacts ChannelClient ChannelClientFacts Acq400
  ReadChannelsFacts Muxed MuxedFacts.

(** X12. [read_muxed_data] asks [read_channels] for channel 0 with an
    open-ended count.  One connection goes to port DATA0 and the whole
    stream is read.  With demux on the result is all of it; with demux
    off (the case the function is meant for) channel 0 selects column
    -1 of the rows of NCHAN items, so the result is the samples of the
    last channel only: item [r] is item [r*NCHAN + NCHAN - 1] of the
    stream. *)
Theorem read_muxed_data_by_demux (net : network) (d : attrs) (w : nat) (ncol : Z)
    (rows : nat) (demux_state : Z) :
  let c := data_stream (net (uut d)) DATA0 in
  let data := decode (rows * Z.to_nat ncol) w (concat c) in
  let last := column data rows (Z.to_nat ncol) (Z.to_nat (ncol - 1)) in
  data_size_of d = Ok (Z.of_nat w) ->
  demux_state_of d = Ok demux_state ->
  nchan d = Ok ncol -> 0 < ncol ->
  chunked c ->
  length (concat c) = (rows * Z.to_nat ncol * w)%nat ->
  (exists fuel0, forall fuel, (fuel0 <= fuel)%nat ->
     read_muxed_data fuel net d
     = ([DATA0], Some (Ok (if demux_state =? 0 then last else data))))
  /\ length last = rows
  /\ forall r, (r < rows)%nat ->
       last !! r = data !! (r * Z.to_nat ncol + (Z.to_nat ncol - 1))%nat.
Proof.
  intros c data last Hds Hdemux Hn Hncol Hc Hlen.
  pose proof (data_size_of_width d w Hds) as Hw.
  assert (Hw3 : (w = 1 \/ w = 2 \/ w = 4)%nat) by tauto.
  assert (Hdata : length data = (rows * Z.to_nat ncol)%nat) by apply length_decode.
  assert (Hj : Z.to_nat (ncol - 1) = (Z.to_nat ncol - 1)%nat) by lia.
  split; [|rewrite <- Hj; apply column_spec; [done|lia]].
  destruct (read_all c w default_maxbuf Hw3 default_maxbuf_pos Hc) as (fuel0 & Hread).
  assert (Hfrom : frombuffer (concat c) w (-1) = Ok data).
  { rewrite frombuffer_all.
    - unfold data. do 2 f_equal. rewrite Hlen, Nat2Z.inj_mul.
      rewrite Z.div_mul by lia. apply Nat2Z.id.
    - rewrite Hlen, Nat2Z.inj_mul. apply Z_mod_mult. }
  exists fuel0. intros fuel Hf.
  unfold read_muxed_data, read_channels. rewrite Hds, Hdemux.
  destruct (Z.eqb_spec demux_state 0) as [->|Hne]; simpl.
  - unfold read_chan. simpl. fold c. rewrite Hread, Hfrom by done.
    rewrite Hn. simpl. unfold demux.
    destruct (Z.leb_spec ncol 0); [lia|].
    rewrite Hdata, Nat2Z.inj_mul, Z2Nat.id, Z_mod_mult by lia. simpl.
    unfold axis_index. change (0 - 1) with (-1). simpl.
    destruct (Z.leb_spec (- ncol) (-1)); [|lia]. simpl.
    rewrite Nat.div_mul by lia.
    by replace (Z.to_nat (ncol + -1)) with (Z.to_nat (ncol - 1)) by lia.
  - unfold read_chan. simpl. fold c. by rewrite Hread, Hfrom by done.
Qed.

Lemma read_muxed_data_by_demux_witness :
  (exists fuel0, forall fuel, (fuel0 <= fuel)%nat ->
     read_muxed_data fuel Bench.shot Bench.proxy_mux
     = ([DATA0],
        Some (Ok (if 0 =? 0
                  then column (decode (3 * Z.to_nat 2) 2
                                 (concat (data_stream (Bench.shot "acq2106_001") DATA0)))
                              3 (Z.to_nat 2) (Z.to_nat (2 - 1))
                  else decode (3 * Z.to_nat 2) 2
                         (concat (data_stream (Bench.shot "acq2106_001") DATA0))))))
  /\ length (column (decode (3 * Z.to_nat 2) 2
                       (concat (data_stream (Bench.shot "acq2106_001") DATA0)))
                    3 (Z.to_nat 2) (Z.to_nat (2 - 1))) = 3%nat
  /\ forall r, (r < 3)%nat ->
       column (decode (3 * Z.to_nat 2) 2
                 (concat (data_stream (Bench.shot "acq2106_001") DATA0)))
              3 (Z.to_nat 2) (Z.to_nat (2 - 1)) !! r
       = decode (3 * Z.to_nat 2) 2
           (concat (data_stream (Bench.shot "acq2106_001") DATA0))
         !! (r * Z.to_nat 2 + (Z.to_nat 2 - 1))%nat.
Proof.
  apply (read_muxed_data_by_demux Bench.shot Bench.proxy_mux 2 2 3 0);
    try reflexivity.
  repeat constructor; discriminate.
Defined.

(** X13. [stream(recvlen)] yields the whole byte stream of the port in
    order: the chunks joined are the bytes the unit sent, no chunk is
    empty or longer than [recvlen], and the generator stops at the end
    of the stream.  Segments that fit [recvlen] come out one for
    one. *)
Theorem stream_yields_the_stream (net : network) (d : attrs) (recvlen : Z) :
  let c := data_stream (net (uut d)) STREAM in
  0 < recvlen -> chunked c ->
  exists fuel0 chunks,
    (forall fuel, (fuel0 <= fuel)%nat -> stream fuel net d recvlen = Some (Ok chunks))
    /\ concat chunks = concat c
    /\ Forall (fun ch => ch <> [] /\ Z.of_nat (length ch) <= recvlen) chunks
    /\ (Forall (fun ch => Z.of_nat (length ch) <= recvlen) c -> chunks = c).
Proof.
  intros c Hr Hc.
  destruct (stream_from_all c recvlen Hr Hc) as (fuel0 & chunks & Hrun & Hcat & Hall).
  exists fuel0, chunks. split; [done|]. split; [done|]. split; [done|].
  intros Hs.
  pose proof (stream_from_small c recvlen (S (fuel0 `max` length c)) Hr Hc Hs ltac:(lia))
    as H1.
  rewrite Hrun in H1 by lia. congruence.
Qed.

(** five bytes in two segments, read with the default [recvlen] *)
Lemma stream_yields_the_stream_witness :
  exists fuel0, forall fuel, (fuel0 <= fuel)%nat ->
    stream fuel PgBench.live Bench.proxy 262144
    = Some (Ok [[x01; x02; x03]; [x04; x05]]).
Proof.
  destruct (stream_yields_the_stream PgBench.live Bench.proxy 262144)
    as (fuel0 & chunks & Hrun & _ & _ & Hsame).
  - reflexivity.
  - repeat constructor; discriminate.
  - exists fuel0. rewrite Hsame in Hrun; [exact Hrun|].
    change (Forall (fun ch => Z.of_nat (length ch) <= 262144)
                   [[x01; x02; x03]; [x04; x05]]).
    repeat (apply Forall_cons; split; [by vm_compute|]). by apply Forall_nil.
Defined.

End MuxedSpec.

Module SitesFacts.
Import Acq400 Acq400Facts Sites.

Lemma prefix_ao_not_acq name :
  String.prefix "ao" name = true -> String.prefix "acq" name = false.
Proof.
  destruct name as [|a [|b r]]; cbn [String.prefix]; try done.
  - by destruct (ascii_dec "a" a).
  - destruct (ascii_dec "a" a); [|done]. destruct (ascii_dec "o" b) as [<-|]; [|done].
    by destruct (ascii_dec "c" "o").
Qed.

Lemma prefix_dio_not_acq name :
  String.prefix "dio" name = true -> String.prefix "acq" name = false.
Proof.
  destruct name as [|a r]; cbn [String.prefix]; try done.
  destruct (ascii_dec "d" a) as [<-|]; [|done]. by destruct (ascii_dec "a" "d").
Qed.

Lemma prefix_dio_not_ao name :
  String.prefix "dio" name = true -> String.prefix "ao" name = false.
Proof.
  destruct name as [|a r]; cbn [String.prefix]; try done.
  destruct (ascii_dec "d" a) as [<-|]; [|done]. by destruct (ascii_dec "a" "d").
Qed.

Lemma classify_spec d acc site :
  classify d acc site
  = MkTypes (AISITES acc ++ (if is_ai d site then [site] else []))
            (AOSITES acc ++ (if is_ao d site then [site] else []))
            (DIOSITES acc ++ (if is_dio d site then [site] else [])).
Proof.
  unfold classify, is_ai, is_ao, is_dio.
  destruct (site_module_name d site) as [name|]; [|rewrite !app_nil_r; by destruct acc].
  destruct (String.prefix "acq" name), (String.prefix "ao" name),
    (String.prefix "dio" name); simpl; rewrite ?app_nil_r; by destruct acc.
Qed.

Lemma filter_cons_bool {A} (f : A -> bool) x l :
  filter (fun y => f y = true) (x :: l)
  = (if f x then [x] else []) ++ filter (fun y => f y = true) l.
Proof.
  rewrite filter_cons. destruct (f x).
  - by rewrite decide_True.
  - by rewrite decide_False.
Qed.

(** the loop of [get_site_types] is three filters *)
Lemma classify_fold d l acc :
  foldl (classify d) acc l
  = MkTypes (AISITES acc ++ filter (fun site => is_ai d site = true) l)
            (AOSITES acc ++ filter (fun site => is_ao d site = true) l)
            (DIOSITES acc ++ filter (fun site => is_dio d site = true) l).
Proof.
  revert acc. induction l as [|site l IH]; intros acc.
  - simpl. rewrite !app_nil_r. by destruct acc.
  - cbn [foldl]. rewrite IH, classify_spec, !filter_cons_bool.
    cbn [AISITES AOSITES DIOSITES]. by rewrite !app_assoc.
Qed.

Lemma slots x : x ∈ [1; 2; 3; 4; 5; 6] <-> 1 <= x <= 6.
Proof. rewrite !elem_of_cons, elem_of_nil. lia. Qed.

Lemma init_site_client_awg e d site :
  awg_site (init_site_client e d site) = awg_site d
  \/ (awg_site d = 0 /\ awg_site (init_site_client e d site) = site
      /\ exists k name, site_answer e site = Resolves k
           /\ k !! "module_name" = Some name /\ String.prefix "ao" name = true).
Proof.
  unfold init_site_client. destruct (site_answer e site) as [k| |]; [|by left..].
  destruct (Z.eqb_spec (awg_site d) 0) as [H0|]; [|by left].
  unfold knob. simpl. destruct (k !! "module_name") as [name|] eqn:E; [|by left].
  simpl. destruct (String.prefix "ao" name) eqn:Ep; [|by left].
  right. eauto 10.
Qed.

Lemma discovered_step e d site :
  discovered e d -> discovered e (init_site_client e d site).
Proof.
  intros [Hsvc Hawg]. split.
  - intros x sc. rewrite init_site_client_svc.
    destruct (site_answer e site) as [k| |] eqn:Ea; [|apply Hsvc..].
    destruct (decide (x = site)) as [->|Hne].
    + rewrite lookup_insert_eq. intros [= <-] _. eauto.
    + rewrite lookup_insert_ne; [apply Hsvc|]. intros H. by apply site_key_inj in H.
  - rewrite init_site_client_svc.
    destruct (init_site_client_awg e d site) as [->|(H0 & -> & k & name & Ea & Hn & Hp)].
    + intros Hne. destruct (Hawg Hne) as (k & name & Hl & Hn & Hp).
      exists k, name. split; [|done].
      destruct (site_answer e site) as [k'| |] eqn:Ea; [|done..].
      destruct (decide (awg_site d = site)) as [Heq|Hne'].
      * rewrite <- Heq in *. rewrite lookup_insert_eq.
        destruct (Hsvc _ _ Hl Hne) as (k2 & Hk2 & [= ->]). congruence.
      * rewrite lookup_insert_ne; [done|]. intros H. by apply site_key_inj in H.
    + intros _. exists k, name. rewrite Ea, lookup_insert_eq. done.
Qed.

Lemma discovered_blank e _uut k0 : discovered e (blank _uut k0).
Proof.
  split; [|done]. intros x sc. simpl. intros H Hx.
  apply lookup_singleton_Some in H as [H _].
  change "s0"%string with ("s" +:+ pretty 0) in H. by apply site_key_inj in H.
Qed.

Lemma discovered_fold e d order :
  discovered e d -> discovered e (foldl (init_site_client e) d order).
Proof.
  revert d. induction order as [|site order IH]; intros d Hd; [done|].
  simpl. by apply IH, discovered_step.
Qed.

(** the two maps after one thread depend on the maps before it only *)
Lemma directory_step e d d' site :
  directory d = directory d' ->
  directory (init_site_client e d site) = directory (init_site_client e d' site).
Proof.
  unfold directory. intros [= Hs Hm].
  by rewrite !init_site_client_svc, !init_site_client_modules, Hs, Hm.
Qed.

Lemma directory_fold e order d d' :
  directory d = directory d' ->
  directory (foldl (init_site_client e) d order)
  = directory (foldl (init_site_client e) d' order).
Proof.
  revert d d'. induction order as [|site order IH]; intros d d' H; [done|].
  simpl. by apply IH, directory_step.
Qed.

Lemma directory_swap e d x y :
  directory (init_site_client e (init_site_client e d x) y)
  = directory (init_site_client e (init_site_client e d y) x).
Proof.
  unfold directory. rewrite !init_site_client_svc, !init_site_client_modules.
  destruct (site_answer e x) as [kx| |] eqn:Ex, (site_answer e y) as [ky| |] eqn:Ey;
    try done.
  destruct (decide (x = y)) as [->|Hne]; [congruence|].
  f_equal; apply insert_insert_ne; [|done].
  intros H. by apply site_key_inj in H.
Qed.

Lemma directory_permutation e order order' :
  order ≡ₚ order' ->
  forall d d', directory d = directory d' ->
    directory (foldl (init_site_client e) d order)
    = directory (foldl (init_site_client e) d' order').
Proof.
  induction 1 as [|x l l' _ IH|x y l|l1 l2 l3 _ IH1 _ IH2]; intros d d' Hd.
  - done.
  - simpl. by apply IH, directory_step.
  - simpl. apply directory_fold. rewrite directory_swap.
    by apply directory_step, directory_step.
  - etrans; [by apply IH1|]. by apply IH2.
Qed.

(** a fresh open, taken apart *)
Lemma __init___fresh net w addr monitor order o w' :
  uuts w !! addr = None ->
  __init__ net w addr monitor order = Ok (o, w') ->
  exists k0 d,
    site_answer (net addr) 0 = Resolves k0
    /\ dict_of o = length (heap w)
    /\ heap w' = heap w ++ [d]
    /\ uuts w' = <[addr := length (heap w)]> (uuts w)
    /\ directory d = directory (foldl (init_site_client (net addr)) (blank addr k0) order)
    /\ awg_site d = awg_site (foldl (init_site_client (net addr)) (blank addr k0) order)
    /\ mod_count d = mod_count (foldl (init_site_client (net addr)) (blank addr k0) order).
Proof.
  unfold __init__. intros -> H.
  destruct (site_answer (net addr) 0) as [k0| |]; [|done..].
  destruct (knob _ "SITELIST") as [sitelist|]; [|done]. simpl in H.
  destruct (mapM _ (tail _)) as [declared|] eqn:Ed; [|done]. simpl in H.
  destruct (bool_decide _); [|done].
  destruct (knob _ "state") as [state|]; [|done]. simpl in H.
  destruct (mapM _ (Py.split _ state)) as [_status|]; [|done]. simpl in H.
  injection H as <- <-. simpl. exists k0. eexists.
  repeat split; done.
Qed.

Example discovery_counts_by_order :
  mod_count (foldl (init_site_client (PgBench.mixed "u")) (blank "u" ∅) [1; 2]) = 2
  /\ mod_count (foldl (init_site_client (PgBench.mixed "u")) (blank "u" ∅) [2; 1]) = 1.
Proof. split; reflexivity. Qed.

Example site_types_mixed :
  get_site_types (foldl (init_site_client (PgBench.mixed "u")) (blank "u" ∅) [2; 1])
  = MkTypes [] [1] [].
Proof. reflexivity. Qed.

End SitesFacts.

Module SitesSpec.
Import Acq400 Acq400Facts Sites SitesFacts.

(** X14. [get_site_types] sorts the slots 1 .. 6 by the start of
    [module_name]: a slot is an AI site exactly when its service is
    there and the name starts with acq, an AO site for ao, a DIO site
    for dio; a slot without service or without the knob is in no list.
    Each list is in slot order and no slot is listed twice. *)
Theorem get_site_types_classifies (d : attrs) :
  let named (start : string) (site : Z) :=
    1 <= site <= 6
    /\ exists module_name, site_module_name d site = Ok module_name
                           /\ String.prefix start module_name = true in
  (forall site, site ∈ AISITES (get_site_types d) <-> named "acq"%string site)
  /\ (forall site, site ∈ AOSITES (get_site_types d) <-> named "ao"%string site)
  /\ (forall site, site ∈ DIOSITES (get_site_types d) <-> named "dio"%string site)
  /\ AISITES (get_site_types d) `sublist_of` [1; 2; 3; 4; 5; 6]
  /\ AOSITES (get_site_types d) `sublist_of` [1; 2; 3; 4; 5; 6]
  /\ DIOSITES (get_site_types d) `sublist_of` [1; 2; 3; 4; 5; 6]
  /\ NoDup (AISITES (get_site_types d) ++ AOSITES (get_site_types d)
            ++ DIOSITES (get_site_types d)).
Proof.
  intros named. unfold get_site_types. rewrite classify_fold. simpl.
  assert (Hnd : NoDup [1; 2; 3; 4; 5; 6]).
  { apply (bool_decide_unpack _). vm_compute. exact I. }
  assert (Hai : forall site, is_ai d site = true <->
            exists n, site_module_name d site = Ok n /\ String.prefix "acq" n = true).
  { intros site. unfold is_ai. destruct (site_module_name d site) as [n|].
    - split; [eauto|]. by intros (n' & [= <-] & H).
    - split; [done|]. by intros (n' & ? & _). }
  assert (Hao : forall site, is_ao d site = true <->
            exists n, site_module_name d site = Ok n /\ String.prefix "ao" n = true).
  { intros site. unfold is_ao. destruct (site_module_name d site) as [n|].
    - split.
      + intros H. apply andb_prop in H as [_ H]. eauto.
      + intros (n' & [= <-] & H). by rewrite (prefix_ao_not_acq _ H), H.
    - split; [done|]. by intros (n' & ? & _). }
  assert (Hdio : forall site, is_dio d site = true <->
            exists n, site_module_name d site = Ok n /\ String.prefix "dio" n = true).
  { intros site. unfold is_dio. destruct (site_module_name d site) as [n|].
    - split.
      + intros H. apply andb_prop in H as [_ H]. eauto.
      + intros (n' & [= <-] & H).
        by rewrite (prefix_dio_not_acq _ H), (prefix_dio_not_ao _ H), H.
    - split; [done|]. by intros (n' & ? & _). }
  assert (Hmem : forall (f : Z -> bool) start,
            (forall site, f site = true <->
               exists n, site_module_name d site = Ok n /\ String.prefix start n = true) ->
            forall site, site ∈ filter (fun s => f s = true) [1; 2; 3; 4; 5; 6]
                         <-> named start site).
  { intros f start Hf site. rewrite list_elem_of_filter, slots, Hf. unfold named. tauto. }
  split; [by apply Hmem|]. split; [by apply Hmem|]. split; [by apply Hmem|].
  split; [apply sublist_filter|]. split; [apply sublist_filter|].
  split; [apply sublist_filter|].
  - apply NoDup_app. split; [by apply NoDup_filter|]. split.
    + intros x Hx Hin. apply list_elem_of_filter in Hx as [Hx _].
      apply Hai in Hx as (n & Hn & Hacq).
      apply elem_of_app in Hin as [Hin|Hin];
        apply list_elem_of_filter in Hin as [Hin _].
      * apply Hao in Hin as (n' & Hn' & H). rewrite Hn in Hn'. injection Hn' as <-.
        by rewrite (prefix_ao_not_acq _ H) in Hacq.
      * apply Hdio in Hin as (n' & Hn' & H). rewrite Hn in Hn'. injection Hn' as <-.
        by rewrite (prefix_dio_not_acq _ H) in Hacq.
    + apply NoDup_app. split; [by apply NoDup_filter|]. split; [|by apply NoDup_filter].
      intros x Hx Hin. apply list_elem_of_filter in Hx as [Hx _].
      apply list_elem_of_filter in Hin as [Hin _].
      apply Hao in Hx as (n & Hn & Hp). apply Hdio in Hin as (n' & Hn' & H).
      rewrite Hn in Hn'. injection Hn' as <-.
      by rewrite (prefix_dio_not_ao _ H) in Hp.
Qed.

(** X15. The services and modules found by a fresh open do not depend
    on the order in which the discovery threads ran: opening with any
    permutation of the order gives a dictionary with the same [svc],
    [modules] and [sites]. *)
Theorem discovery_order_independent net w addr monitor order order' o w1 d :
  uuts w !! addr = None ->
  __init__ net w addr monitor order = Ok (o, w1) ->
  heap w1 !! dict_of o = Some d ->
  order ≡ₚ order' ->
  exists o' w1' d',
    __init__ net w addr monitor order' = Ok (o', w1')
    /\ dict_of o' = dict_of o
    /\ heap w1' !! dict_of o' = Some d'
    /\ svc d' = svc d /\ modules d' = modules d /\ sites d' = sites d
    /\ uuts w1' = uuts w1 /\ connects w1' = connects w1.
Proof.
  intros Hfresh Hopen Hd Hperm.
  pose proof (directory_permutation (net addr) order order' Hperm) as Hdir.
  revert Hopen Hd. unfold __init__. rewrite Hfresh.
  destruct (site_answer (net addr) 0) as [k0| |]; [|done..].
  destruct (knob _ "SITELIST") as [sitelist|]; [|done]. simpl.
  destruct (mapM _ (tail _)) as [declared|] eqn:Ed; [|done]. simpl.
  destruct (bool_decide _); [|done].
  destruct (knob _ "state") as [state|]; [|done]. simpl.
  destruct (mapM _ (Py.split _ state)) as [_status|]; [|done]. simpl.
  intros [= <- <-]. simpl. rewrite lookup_app_r, Nat.sub_diag by done.
  intros [= <-]. do 3 eexists. split; [done|]. simpl.
  rewrite lookup_app_r, Nat.sub_diag by done. split; [done|]. split; [done|]. simpl.
  specialize (Hdir _ _ (eq_refl (directory
    (MkAttrs addr 0 None {[ "s0" := MkSite SITE0 k0 ]} ∅ 0
             [PyInt 0] [PyInt 0] 4000000 0 [] None 0)))).
  unfold directory in Hdir. injection Hdir as Hs Hm. by rewrite Hs, Hm.
Qed.

Lemma discovery_order_independent_witness :
  exists o' w1' d',
    __init__ Bench.one_out empty_world "acq2106_001" true [2; 1] = Ok (o', w1')
    /\ dict_of o' = 0%nat
    /\ heap w1' !! dict_of o' = Some d'
    /\ svc d' = svc Bench.proxy /\ modules d' = modules Bench.proxy
    /\ sites d' = sites Bench.proxy
    /\ uuts w1' = {[ "acq2106_001"%string := 0%nat ]}
    /\ connects w1' = [("acq2106_001", 4220); ("acq2106_001", 4221);
                        ("acq2106_001", 4222); ("acq2106_001", 2235)]%string.
Proof.
  refine (discovery_order_independent Bench.one_out empty_world "acq2106_001" true
            [1; 2] [2; 1] (MkObj 0 0)
            (MkWorld {[ "acq2106_001"%string := 0%nat ]}
               [MkAttrs "acq2106_001" 0 None (svc Bench.proxy) (modules Bench.proxy) 1
                        [PyInt 0] [PyInt 0] 4000000 0 [1; 2]
                        (Some (Statusmonitor.Build false (Some [0; 0; 0; 0; 0])
                                                   false false)) 0]
               1 [("acq2106_001", 4220); ("acq2106_001", 4221);
                  ("acq2106_001", 4222); ("acq2106_001", 2235)]%string
               ["acq2106_001"%string])
            (MkAttrs "acq2106_001" 0 None (svc Bench.proxy) (modules Bench.proxy) 1
                     [PyInt 0] [PyInt 0] 4000000 0 [1; 2]
                     (Some (Statusmonitor.Build false (Some [0; 0; 0; 0; 0])
                                                false false)) 0)
            _ _ _ _).
  - reflexivity.
  - vm_compute. reflexivity.
  - reflexivity.
  - apply perm_swap.
Defined.

(** X16. After a fresh open the waveform generator site found by
    discovery, when it sits in one of the slots 1 .. 6, is one of the AO
    sites [get_site_types] reports: [load_awg] asks a module whose name
    starts with ao for [task_active]. *)
Theorem awg_site_is_an_AO_site net w addr monitor order o w1 d :
  uuts w !! addr = None ->
  __init__ net w addr monitor order = Ok (o, w1) ->
  heap w1 !! dict_of o = Some d ->
  1 <= awg_site d <= 6 ->
  awg_site d ∈ AOSITES (get_site_types d)
  /\ exists m name, modules d !! awg_site d = Some m
       /\ knob m "module_name" = Ok name /\ String.prefix "ao" name = true.
Proof.
  intros Hfresh Hopen Hd Hslot.
  destruct (__init___fresh _ _ _ _ _ _ _ Hfresh Hopen)
    as (k0 & d0 & H0 & Hloc & Hheap & _ & Hdir & Hawg & _).
  rewrite Hheap, Hloc, lookup_app_r, Nat.sub_diag in Hd by done. injection Hd as ->.
  pose proof (discovered_fold (net addr) (blank addr k0) order (discovered_blank _ _ _))
    as [Hsvc Ha].
  unfold directory in Hdir. injection Hdir as Hs Hm.
  rewrite <- Hawg, <- Hs in Ha. rewrite <- Hs in Hsvc.
  destruct (Ha ltac:(lia)) as (k & name & Hl & Hn & Hp).
  destruct (Hsvc _ _ Hl ltac:(lia)) as (k' & Hk' & [= <-]).
  split.
  - unfold get_site_types. rewrite classify_fold. simpl.
    apply list_elem_of_filter. split; [|by apply slots].
    unfold is_ao, site_module_name. rewrite Hl. unfold knob. simpl. rewrite Hn.
    by rewrite (prefix_ao_not_acq _ Hp), Hp.
  - exists (MkSite (SITE0 + awg_site d) k), name.
    split; [|split; [by unfold knob; simpl; rewrite Hn|done]].
    rewrite Hm, discovery_modules, Hk'.
    destruct (decide (awg_site d ∈ order)) as [Hin|Hnot].
    + by rewrite bool_decide_eq_true_2.
    + exfalso. clear -Hnot Hawg Hslot.
      assert (Hz : forall l d0, awg_site d0 <> awg_site (foldl (init_site_client (net addr)) d0 l)
                            -> awg_site (foldl (init_site_client (net addr)) d0 l) ∈ l).
      { induction l as [|site l IH]; intros d0 Hne; [done|]. simpl in *.
        destruct (decide (awg_site (init_site_client (net addr) d0 site)
                          = awg_site (foldl (init_site_client (net addr))
                                            (init_site_client (net addr) d0 site) l)))
          as [Heq|Hne'].
        - rewrite <- Heq in *.
          destruct (init_site_client_awg (net addr) d0 site) as [H|(_ & H & _)];
            [congruence|]. rewrite H. by left.
        - right. by apply IH. }
      apply Hnot. rewrite Hawg. apply Hz. simpl. lia.
Qed.

Lemma awg_site_is_an_AO_site_witness :
  2 ∈ AOSITES (get_site_types PgBench.ao_opened)
  /\ exists m name, modules PgBench.ao_opened !! 2 = Some m
       /\ knob m "module_name" = Ok name /\ String.prefix "ao" name = true.
Proof.
  refine (awg_site_is_an_AO_site PgBench.ao_net empty_world "acq1001_070" false [2]
            (MkObj 0 0)
            (MkWorld {[ "acq1001_070"%string := 0%nat ]} [PgBench.ao_opened] 1
                     [("acq1001_070", 4220); ("acq1001_070", 4222)]%string [])
            PgBench.ao_opened _ _ _ _).
  - reflexivity.
  - vm_compute. reflexivity.
  - reflexivity.
  - vm_compute. split; discriminate.
Defined.

End SitesSpec.

Module Acq2106Facts.
Import Acq400 Acq400Facts Sites SitesFacts Acq2106.

Lemma add_service_fold e sn d :
  mod_count (foldl (add_service e) d sn) = mod_count d + Z.of_nat (length sn)
  /\ modules (foldl (add_service e) d sn) = modules d
  /\ sites (foldl (add_service e) d sn) = sites d
  /\ mb_clk_min (foldl (add_service e) d sn) = mb_clk_min d
  /\ forall name, name ∉ sn.*1 ->
       svc (foldl (add_service e) d sn) !! name = svc d !! name.
Proof.
  revert d. induction sn as [|[service_name site] sn IH]; intros d.
  - simpl. repeat split; try done. lia.
  - cbn [foldl]. destruct (IH (add_service e d (service_name, site)))
      as (Hc & Hm & Hs & Hk & Hsvc).
    rewrite Hc, Hm, Hs, Hk. simpl. repeat split; try done; [lia|].
    intros name Hname. rewrite Hsvc.
    + simpl. destruct (site_answer e site); [|done..].
      apply lookup_insert_ne. intros ->. apply Hname. by left.
    + intros Hin. apply Hname. by right.
Qed.

Lemma pg_sites_in_errors d cands e :
  pg_sites_in d cands = Raise e -> e = KeyError \/ e = AttributeError.
Proof.
  induction cands as [|sx cands IH]; [done|]. simpl.
  destruct (bool_decide (sx ∈ sites d)); [|done].
  destruct (svc d !! ("s" +:+ pretty sx)) as [sc|]; [|intros [= <-]; by left].
  unfold knob. destruct (sc_knobs sc !! "MTYPE"); simpl; [|intros [= <-]; by right].
  destruct (pg_sites_in d cands); simpl; [done|]. intros [= <-]. by apply IH.
Qed.

(** a declared site without service stops the list comprehension *)
Lemma pg_sites_in_missing d cands sx :
  sx ∈ cands -> sx ∈ sites d -> svc d !! ("s" +:+ pretty sx) = None ->
  exists e, pg_sites_in d cands = Raise e.
Proof.
  intros Hin Hs Hsvc. induction cands as [|c cands IH]; [by apply elem_of_nil in Hin|].
  apply elem_of_cons in Hin as [<-|Hin]; simpl.
  - rewrite bool_decide_eq_true_2, Hsvc by done. eauto.
  - destruct (IH Hin) as (e & He). rewrite He.
    destruct (bool_decide (c ∈ sites d)); [|eauto].
    destruct (svc d !! ("s" +:+ pretty c)) as [sc|]; [|eauto].
    destruct (knob sc "MTYPE"); simpl; eauto.
Qed.

Example TIGA_opens :
  (TIGA__init__ PgBench.mixed empty_world "acq2106_007" false [1; 2]).2
  = Ok (MkObj 0 0, [2]).
Proof. reflexivity. Qed.

Example acq2106_counts_absent_comms :
  (fun '(o, w) => mod_count <$> heap w !! dict_of o)
    <$> __init__ Bench.one_out empty_world "acq2106_001" true false true false [1; 2]
  = Ok (Some 3).
Proof. reflexivity. Qed.

End Acq2106Facts.

Module Acq2106Spec.
Import Acq400 Acq400Facts Sites SitesFacts Acq2106 Acq2106Facts.

(** X17. Opening an [Acq2106] on an address that is registered already
    shares the registered dictionary, as [Acq400.__init__] does, but the
    lines after it run all the same: [mb_clk_min] is set to 100000, a
    connection is made to every comms site of the call, and [mod_count]
    grows by the number of these sites, whether they answer or not.  No
    other dictionary changes. *)
Theorem acq2106_reopen_counts_again net w _uut loc d1 monitor has_dsp has_comms has_wr
    order :
  uuts w !! _uut = Some loc ->
  heap w !! loc = Some d1 ->
  exists o2 w2 d2,
    __init__ net w _uut monitor has_dsp has_comms has_wr order = Ok (o2, w2)
    /\ dict_of o2 = loc
    /\ heap w2 !! loc = Some d2
    /\ mod_count d2
       = mod_count d1 + Z.of_nat (length (sn_map has_dsp has_comms has_wr))
    /\ mb_clk_min d2 = 100000
    /\ modules d2 = modules d1
    /\ connects w2
       = connects w ++ ((fun entry => (_uut, SITE0 + entry.2))
                          <$> sn_map has_dsp has_comms has_wr)
    /\ monitors w2 = monitors w /\ uuts w2 = uuts w
    /\ forall loc', loc' <> loc -> heap w2 !! loc' = heap w !! loc'.
Proof.
  intros Hu Hd. unfold __init__, Acq400.__init__. rewrite Hu. simpl. rewrite Hd.
  destruct (add_service_fold (net _uut) (sn_map has_dsp has_comms has_wr)
              (with_mb_clk_min d1 100000)) as (Hc & Hm & _ & Hk & _).
  do 3 eexists. split; [done|]. simpl. split; [done|].
  split; [apply list_lookup_insert_eq; by eapply lookup_lt_Some|].
  rewrite Hc, Hk, Hm. repeat split; try done.
  intros loc' Hne. by apply list_lookup_insert_ne.
Qed.

Lemma acq2106_reopen_counts_again_witness :
  exists o2 w2 d2,
    __init__ Bench.one_out PgBench.one_out_opened "acq2106_001" true false true false []
    = Ok (o2, w2)
    /\ dict_of o2 = 0%nat
    /\ heap w2 !! 0%nat = Some d2
    /\ mod_count d2
       = 1 + Z.of_nat (length (sn_map false true false))
    /\ mb_clk_min d2 = 100000
    /\ modules d2 = modules Bench.proxy
    /\ connects w2
       = connects PgBench.one_out_opened
         ++ ((fun entry => ("acq2106_001"%string, SITE0 + entry.2))
               <$> sn_map false true false)
    /\ monitors w2 = monitors PgBench.one_out_opened
    /\ uuts w2 = uuts PgBench.one_out_opened
    /\ forall loc', loc' <> 0%nat ->
         heap w2 !! loc' = heap PgBench.one_out_opened !! loc'.
Proof.
  refine (acq2106_reopen_counts_again Bench.one_out PgBench.one_out_opened
            "acq2106_001" 0
            (MkAttrs "acq2106_001" 0 None (svc Bench.proxy) (modules Bench.proxy) 1
                     [PyInt 0] [PyInt 0] 4000000 0 [1; 2]
                     (Some (Statusmonitor.Build false (Some [0; 0; 0; 0; 0])
                                                false false)) 0)
            true false true false [] _ _); reflexivity.
Defined.

(** X18. [Acq2106_TIGA.__init__] looks up [svc["s<n>"]] for every
    declared site in the slots 1 .. 6.  A declared site that did not
    answer during discovery has no service, so the open raises (KeyError,
    or AttributeError when an earlier site lacks MTYPE), although
    [Acq400.__init__] has registered the unit by then. *)
Theorem TIGA_open_needs_every_site net w _uut monitor order o w0 d0 sx :
  uuts w !! _uut = None ->
  Acq400.__init__ net w _uut monitor order = Ok (o, w0) ->
  heap w0 !! dict_of o = Some d0 ->
  sx ∈ sites d0 -> 1 <= sx <= 6 ->
  resolves (net _uut) sx = false ->
  exists w1 e,
    TIGA__init__ net w _uut monitor order = (w1, Raise e)
    /\ (e = KeyError \/ e = AttributeError)
    /\ uuts w1 !! _uut = Some (dict_of o).
Proof.
  intros Hfresh Hopen Hd Hsx Hslot Hres.
  destruct (__init___fresh _ _ _ _ _ _ _ Hfresh Hopen)
    as (k0 & d & H0 & Hloc & Hheap & Huuts & Hdir & _).
  assert (Hd0 : d = d0).
  { rewrite Hheap, Hloc, lookup_app_r, Nat.sub_diag in Hd by done. by injection Hd. }
  subst d.
  pose proof (discovered_fold (net _uut) (blank _uut k0) order (discovered_blank _ _ _))
    as [Hsvc _].
  unfold directory in Hdir. injection Hdir as Hs _. rewrite <- Hs in Hsvc.
  assert (Hnone : svc d0 !! ("s" +:+ pretty sx) = None).
  { destruct (svc d0 !! ("s" +:+ pretty sx)) as [sc|] eqn:E; [|done].
    destruct (Hsvc _ _ E ltac:(lia)) as (k & Hk & _).
    unfold resolves in Hres. by rewrite Hk in Hres. }
  unfold TIGA__init__, __init__. rewrite Hopen.
  cbn -[foldl sn_map pg_sites insert lookup]. rewrite Hd.
  cbn -[foldl sn_map pg_sites insert lookup].
  rewrite list_lookup_insert_eq by (by eapply lookup_lt_Some).
  destruct (add_service_fold (net _uut) (sn_map false true true)
              (with_mb_clk_min d0 100000)) as (_ & _ & Hsites & _ & Hkeep).
  set (d' := foldl (add_service (net _uut)) (with_mb_clk_min d0 100000)
                   (sn_map false true true)) in *.
  destruct (pg_sites_in_missing d' [1; 2; 3; 4; 5; 6] sx) as (e & He).
  - by apply slots.
  - by rewrite Hsites.
  - rewrite Hkeep; [done|].
    change ("s" +:+ pretty sx) with (String "s" (pretty sx)).
    simpl. rewrite !elem_of_cons, elem_of_nil. intros [H|[H|[H|H]]]; done.
  - exists (MkWorld (uuts w0) (<[dict_of o := d']> (heap w0)) (next_oid w0)
                    (connects w0 ++ ((fun entry => (_uut, SITE0 + entry.2))
                                       <$> sn_map false true true))
                    (monitors w0)), e.
    unfold pg_sites. fold d'. rewrite He. split; [done|].
    split; [by eapply pg_sites_in_errors|].
    simpl. by rewrite Huuts, Hloc, lookup_insert_eq.
Qed.

Lemma TIGA_open_needs_every_site_witness :
  exists w1 e,
    TIGA__init__ Bench.one_out empty_world "acq2106_001" true [1; 2] = (w1, Raise e)
    /\ (e = KeyError \/ e = AttributeError)
    /\ uuts w1 !! "acq2106_001"%string = Some 0%nat.
Proof.
  refine (TIGA_open_needs_every_site Bench.one_out empty_world "acq2106_001" true [1; 2]
            (MkObj 0 0) PgBench.one_out_opened
            (MkAttrs "acq2106_001" 0 None (svc Bench.proxy) (modules Bench.proxy) 1
                     [PyInt 0] [PyInt 0] 4000000 0 [1; 2]
                     (Some (Statusmonitor.Build false (Some [0; 0; 0; 0; 0])
                                                false false)) 0)
            2 _ _ _ _ _ _).
  - reflexivity.
  - vm_compute. reflexivity.
  - reflexivity.
  - apply (bool_decide_unpack _). vm_compute. exact I.
  - lia.
  - reflexivity.
Defined.

End Acq2106Spec.

Module CalibrationMore.
Import Acq400 CalibrationFacts.

(** what the loop appends depends on the modules and the site list
    alone *)
Lemma fetch_loop_appends mods cs :
  Forall (calibrated mods) cs ->
  exists eslos eoffs,
    (forall ns, mapM (fun c => module_of mods c ≫= nchan_of) cs = Ok ns ->
       Z.of_nat (length eslos) = sumZ ns /\ Z.of_nat (length eoffs) = sumZ ns)
    /\ forall d, modules d = mods ->
         fetch_loop d cs
         = (with_cal d (cal_eslo d ++ eslos) (cal_eoff d ++ eoffs) (cal_fetches d),
            Ok tt).
Proof.
  induction 1 as [|c cs (m & n & eslo & eoff & Hm & Hn & Hs & Ho & Hls & Hlo) _
                    (eslos & eoffs & Hlen & IH)].
  - exists [], []. split; [by intros ns [= <-]|].
    intros d _. simpl. rewrite !app_nil_r. by destruct d.
  - exists ((PyStr <$> eslo) ++ eslos), ((PyStr <$> eoff) ++ eoffs). split.
    + intros ns Hns. apply mapM_cons_Ok in Hns as (y & ns' & Hy & Hns' & ->).
      rewrite Hm in Hy. simpl in Hy. unfold mbind, result_bind in Hy.
      rewrite Hn in Hy. injection Hy as <-.
      destruct (Hlen ns' Hns') as [He Ho'].
      rewrite !length_app, !length_fmap. simpl. lia.
    + intros d <-. cbn [fetch_loop]. rewrite Hm, Hs.
      cbn [cal_eslo cal_eoff cal_fetches with_cal]. rewrite Ho.
      rewrite IH by done. unfold with_cal. simpl. by rewrite !app_assoc.
Qed.

Lemma fetch_loop_app d cs1 cs2 :
  fetch_loop d (cs1 ++ cs2)
  = match fetch_loop d cs1 with
    | (d1, Ok _) => fetch_loop d1 cs2
    | (d1, Raise e) => (d1, Raise e)
    end.
Proof.
  revert d. induction cs1 as [|c cs1 IH]; intros d; [done|].
  cbn [app fetch_loop]. destruct (module_of (modules d) c); [|done].
  destruct (cal_tokens _ "AI_CAL_ESLO"); [|done].
  destruct (cal_tokens _ "AI_CAL_EOFF"); [|done]. apply IH.
Qed.

Lemma index_range {A} (l : list A) (i : Z) :
  (- Z.of_nat (length l) <= i < Z.of_nat (length l) ->
   exists x, Py.index l i = Ok x)
  /\ (i < - Z.of_nat (length l) \/ Z.of_nat (length l) <= i ->
      Py.index l i = Raise IndexError).
Proof.
  unfold Py.index, Py.item. split.
  - intros Hi. destruct (Z.leb_spec 0 i); simpl.
    + destruct (Z.ltb_spec i (Z.of_nat (length l))); [|lia].
      destruct (lookup_lt_is_Some_2 l (Z.to_nat i) ltac:(lia)) as [x ->]. eauto.
    + destruct (Z.leb_spec (- Z.of_nat (length l)) i); [|lia].
      destruct (Z.ltb_spec i 0); [|lia]. simpl.
      destruct (lookup_lt_is_Some_2 l (Z.to_nat (Z.of_nat (length l) + i)) ltac:(lia))
        as [x ->]. eauto.
  - intros Hi. destruct (Z.leb_spec 0 i); simpl.
    + destruct (Z.ltb_spec i (Z.of_nat (length l))); [lia|].
      destruct (Z.ltb_spec i 0); [lia|]. by rewrite andb_false_r.
    + destruct (Z.leb_spec (- Z.of_nat (length l)) i); [lia|]. done.
Qed.

Lemma index_wraps {A} (l : list A) (i : Z) :
  - Z.of_nat (length l) <= i < 0 ->
  Py.index l i = Py.index l (Z.of_nat (length l) + i).
Proof.
  intros Hi. unfold Py.index.
  destruct (Z.leb_spec 0 i); [lia|]. simpl.
  destruct (Z.leb_spec (- Z.of_nat (length l)) i); [|lia].
  destruct (Z.ltb_spec i 0); [|lia]. simpl.
  destruct (Z.leb_spec 0 (Z.of_nat (length l) + i)); [|lia].
  by destruct (Z.ltb_spec (Z.of_nat (length l) + i) (Z.of_nat (length l))); [|lia].
Qed.

Example fetch_twice :
  cal_eslo (fetch_all_calibration (fetch_all_calibration Bench.proxy).1).1
  = [PyInt 0; PyStr "2"; PyStr "3"; PyStr "2"; PyStr "3"].
Proof. reflexivity. Qed.

End CalibrationMore.

Module CalibrationMoreSpec.
Import Acq400 CalibrationFacts CalibrationMore.

(** X19. [fetch_all_calibration] has no guard of its own: called a
    second time it appends the same scales and offsets once more, so
    the vectors hold every channel twice behind the placeholder.  Only
    the test in [chan2volts] keeps the fetch to one. *)
Theorem fetch_all_calibration_appends_again d cs :
  cal_eslo d = [PyInt 0] -> cal_eoff d = [PyInt 0] ->
  get_aggregator_sites d = Ok cs ->
  Forall (calibrated (modules d)) cs ->
  exists d1 d2,
    fetch_all_calibration d = (d1, Ok tt)
    /\ fetch_all_calibration d1 = (d2, Ok tt)
    /\ cal_eslo d2 = cal_eslo d1 ++ drop 1 (cal_eslo d1)
    /\ cal_eoff d2 = cal_eoff d1 ++ drop 1 (cal_eoff d1)
    /\ cal_fetches d2 = S (S (cal_fetches d)).
Proof.
  intros Hs Ho Hcs Hcal.
  destruct (fetch_loop_appends (modules d) cs Hcal) as (eslos & eoffs & _ & Hloop).
  unfold fetch_all_calibration.
  assert (Hagg : forall d', svc d' = svc d -> get_aggregator_sites d' = Ok cs).
  { intros d' Hsvc. rewrite <- Hcs. unfold get_aggregator_sites, s0. by rewrite Hsvc. }
  rewrite Hagg by done. rewrite Hloop by done.
  do 2 eexists. split; [done|]. simpl.
  rewrite Hagg by done. rewrite Hloop by done. simpl.
  split; [done|]. rewrite Hs, Ho. simpl. by rewrite !drop_0.
Qed.

Lemma fetch_all_calibration_appends_again_witness :
  exists d1 d2,
    fetch_all_calibration Bench.proxy = (d1, Ok tt)
    /\ fetch_all_calibration d1 = (d2, Ok tt)
    /\ cal_eslo d2 = cal_eslo d1 ++ drop 1 (cal_eslo d1)
    /\ cal_eoff d2 = cal_eoff d1 ++ drop 1 (cal_eoff d1)
    /\ cal_fetches d2 = S (S (cal_fetches Bench.proxy)).
Proof.
  apply (fetch_all_calibration_appends_again Bench.proxy ["1"%string]);
    try reflexivity.
  apply Forall_singleton.
  exists (MkSite (SITE0 + 1) Bench.s1_knobs), 2, ["2"; "3"]%string, ["5"; "7"]%string.
  repeat split; reflexivity.
Defined.

(** X20. When a site of the aggregator has no module (it did not answer
    during discovery), the first [chan2volts] raises KeyError after the
    values of the sites before it have been appended.  If that left more
    than the placeholder, no later [chan2volts] fetches again: the
    vectors stay short for good. *)
Theorem failed_fetch_is_not_retried {F} `{!FloatOps F} d cs1 c cs2 e chan raw :
  cal_eslo d = [PyInt 0] -> cal_eoff d = [PyInt 0] ->
  get_aggregator_sites d = Ok (cs1 ++ c :: cs2) ->
  Forall (calibrated (modules d)) cs1 ->
  module_of (modules d) c = Raise e ->
  exists d1,
    chan2volts d chan raw = (d1, Raise e)
    /\ cal_fetches d1 = S (cal_fetches d)
    /\ (forall ns, mapM (fun c => module_of (modules d) c ≫= nchan_of) cs1 = Ok ns ->
          Z.of_nat (length (cal_eslo d1)) = 1 + sumZ ns
          /\ Z.of_nat (length (cal_eoff d1)) = 1 + sumZ ns)
    /\ (length (cal_eslo d1) <> 1%nat ->
        forall calls chan' raw',
          chan2volts (chan2volts_all d1 calls) chan' raw' = (d1, volts d1 chan' raw')).
Proof.
  intros Hs Ho Hcs Hcal Hc.
  destruct (fetch_loop_appends (modules d) cs1 Hcal) as (eslos & eoffs & Hlen & Hloop).
  unfold chan2volts. rewrite Hs. simpl.
  unfold fetch_all_calibration.
  assert (Hagg : get_aggregator_sites
                   (with_cal d (cal_eslo d) (cal_eoff d) (S (cal_fetches d)))
                 = Ok (cs1 ++ c :: cs2)) by (by rewrite <- Hcs).
  rewrite Hagg, fetch_loop_app, Hloop by done.
  cbn [fetch_loop]. cbn [modules with_cal]. rewrite Hc.
  eexists. split; [done|]. split; [done|]. split.
  - intros ns Hns. destruct (Hlen ns Hns) as [H1 H2]. simpl.
    rewrite Hs, Ho, !length_app. simpl. lia.
  - intros Hne calls chan' raw'.
    rewrite chan2volts_all_populated by done. by apply chan2volts_populated.
Qed.

Lemma failed_fetch_is_not_retried_witness :
  exists d1,
    chan2volts (F := Z) PgBench.half_calibrated 1 100 = (d1, Raise KeyError)
    /\ cal_fetches d1 = S (cal_fetches PgBench.half_calibrated)
    /\ (forall ns,
          mapM (fun c => module_of (modules PgBench.half_calibrated) c ≫= nchan_of)
               ["1"%string] = Ok ns ->
          Z.of_nat (length (cal_eslo d1)) = 1 + sumZ ns
          /\ Z.of_nat (length (cal_eoff d1)) = 1 + sumZ ns)
    /\ (length (cal_eslo d1) <> 1%nat ->
        forall calls chan' raw',
          chan2volts (F := Z) (chan2volts_all d1 calls) chan' raw'
          = (d1, volts d1 chan' raw')).
Proof.
  apply (failed_fetch_is_not_retried PgBench.half_calibrated ["1"%string] "2"%string []);
    try reflexivity.
  apply Forall_singleton.
  exists (MkSite (SITE0 + 1) Bench.s1_knobs), 2, ["2"; "3"]%string, ["5"; "7"]%string.
  repeat split; reflexivity.
Defined.

(** X21. [chan2volts] subscripts the vectors with the channel as
    given.  With [n] entries in each (placeholder included) a channel of
    [-n .. n-1] is accepted and a negative one counts from the end, so
    channel -1 is the last channel; any other channel raises
    IndexError. *)
Theorem volts_channel_range {F} `{!FloatOps F} d chan raw :
  length (cal_eoff d) = length (cal_eslo d) ->
  Forall (fun v => exists f : F, py_float v = Ok f) (cal_eslo d) ->
  Forall (fun v => exists f : F, py_float v = Ok f) (cal_eoff d) ->
  let n := Z.of_nat (length (cal_eslo d)) in
  (- n <= chan < n -> exists v : F, volts d chan raw = Ok v)
  /\ (chan < - n \/ n <= chan -> volts (F := F) d chan raw = Raise IndexError)
  /\ (- n <= chan < 0 -> volts (F := F) d chan raw = volts d (n + chan) raw).
Proof.
  intros Hlen Hes Heo n. unfold volts. split; [|split].
  - intros Hc.
    destruct (proj1 (index_range (cal_eslo d) chan) Hc) as (x & Hx).
    destruct (proj1 (index_range (cal_eoff d) chan) ltac:(rewrite Hlen; exact Hc))
      as (y & Hy).
    rewrite Hx, Hy. simpl.
    assert (Hin : forall (l : list pyval) i v,
              Forall (fun v => exists f : F, py_float v = Ok f) l ->
              Py.index l i = Ok v -> exists f : F, py_float v = Ok f).
    { intros l i v Hl. unfold Py.index, Py.item. rewrite Forall_lookup in Hl.
      repeat case_match; try done; intros [= <-]; eauto. }
    destruct (Hin _ _ _ Hes Hx) as (fx & ->). destruct (Hin _ _ _ Heo Hy) as (fy & ->).
    simpl. eauto.
  - intros Hc. by rewrite (proj2 (index_range (cal_eslo d) chan) Hc).
  - intros Hc. rewrite (index_wraps (cal_eslo d) chan Hc).
    rewrite (index_wraps (cal_eoff d) chan) by (rewrite Hlen; exact Hc).
    by rewrite Hlen.
Qed.

Lemma volts_channel_range_witness :
  (- 3 <= -1 < 3 -> exists v : Z, volts PgBench.calibrated_proxy (-1) 10 = Ok v)
  /\ (-1 < - 3 \/ 3 <= -1 ->
      volts (F := Z) PgBench.calibrated_proxy (-1) 10 = Raise IndexError)
  /\ (- 3 <= -1 < 0 ->
      volts (F := Z) PgBench.calibrated_proxy (-1) 10
      = volts PgBench.calibrated_proxy (3 + -1) 10).
Proof.
  apply (volts_channel_range (F := Z) PgBench.calibrated_proxy (-1) 10).
  - reflexivity.
  - repeat (apply Forall_cons; split; [by eexists|]). by apply Forall_nil.
  - repeat (apply Forall_cons; split; [by eexists|]). by apply Forall_nil.
Defined.

End CalibrationMoreSpec.

Module RegressionSuiteSpec.
Import RegressionSuite.

(** X22. [check_es] returns False as soon as an entry differs from the
    first one and otherwise falls off its end, returning None: the
    comparison has passed exactly when the result is None, an empty
    list passes, and True is never returned. *)
Theorem check_es_passes_iff_all_equal {A : Type} `{!EqDecision A} (events : list A) :
  (check_es events = None <-> forall e first, events !! 0%nat = Some first ->
                                e ∈ events -> e = first)
  /\ (check_es events = Some false <-> exists e first, events !! 0%nat = Some first
                                        /\ e ∈ events /\ e <> first)
  /\ check_es events <> Some true.
Proof.
  assert (Hloop : forall (first : A) l,
            (check_es_loop first l = None <-> forall e, e ∈ l -> e = first)
            /\ (check_es_loop first l = Some false <-> exists e, e ∈ l /\ e <> first)
            /\ check_es_loop first l <> Some true).
  { intros first l. induction l as [|x l (IH1 & IH2 & IH3)]; simpl.
    - split; [|split; [|done]].
      + split; [|done]. intros _ e He. by apply elem_of_nil in He.
      + split; [done|]. intros (e & He & _). by apply elem_of_nil in He.
    - destruct (decide (x = first)) as [->|Hne].
      + split; [|split; [|done]].
        * rewrite IH1. split.
          -- intros H e He. apply elem_of_cons in He as [->|He]; [done|by apply H].
          -- intros H e He. apply H. by right.
        * rewrite IH2. split.
          -- intros (e & He & Hd). exists e. split; [by right|done].
          -- intros (e & He & Hd). apply elem_of_cons in He as [->|He]; [done|eauto].
      + split; [|split; [|done]].
        * split; [done|]. intros H. destruct Hne. apply H. by left.
        * split; [|done]. intros _. exists x. split; [by left|done]. }
  destruct events as [|first events]; simpl.
  - split; [|split; [|done]].
    + split; [|done]. intros _ e first He. done.
    + split; [done|]. intros (e & first & He & _). done.
  - destruct (Hloop first (first :: events)) as (H1 & H2 & H3). simpl in *.
    split; [|split; [|done]].
    + rewrite H1. split.
      * intros H e f [= <-]. apply H.
      * intros H e. by apply H.
    + rewrite H2. split.
      * intros (e & He & Hd). by exists e, first.
      * intros (e & f & [= <-] & He & Hd). eauto.
Qed.

End RegressionSuiteSpec.
